(** * MA-GIS-Cleaning: the USE_CODE analyzer of [app.py]

    A shallow embedding of [load_classification_codes], [analyze_gdb] and
    [perform_spatial_analysis] and the properties of the neighbour-voting
    engine.

    Conventions of the embedding.
    - A pandas cell is a [pyval]; [py_str] is Python's [str()] and pandas'
      [.astype(str)] on it.
    - Python's [float] coordinates and the confidence quotient are exact
      rationals ([Q]); comparisons on finite floats agree with them.
    - A DataFrame is the list of its rows in row order; [df[mask]] is
      [select] on a list of booleans, [df[condition]] is [filter].
    - A [Counter] is an association list in insertion order, as CPython's
      dict keeps it.
    - Exceptions are values of [exn]; code that may raise returns a
      [result].
    - The module-level dict [processing_progress] is threaded through as a
      [store] that also keeps every earlier snapshot. *)

From Stdlib Require Import QArith Qabs.
From stdpp Require Import base decidable option list strings pretty gmap.
From Stdlib Require Import Ascii.

Local Open Scope string_scope.
Local Open Scope list_scope.
Local Open Scope nat_scope.

(** ** Python values and exceptions *)

Inductive pyval : Type :=
  | PStr (s : string)
  | PInt (z : Z).

#[global] Instance pyval_eq_dec : EqDecision pyval.
Proof. solve_decision. Defined.

(** [str(v)], also what [.astype(str)] leaves in a cell. *)
Definition py_str (v : pyval) : string :=
  match v with
  | PStr s => s
  | PInt z => pretty z
  end.

(** [s[:3]] *)
Definition str_slice3 (s : string) : string := String.substring 0 3 s.

Inductive exn : Type :=
  | ZeroDivisionError
  | KeyError (k : string)
  | IndexError
  | AttributeError
  | Exception (msg : string)
  | ExternalError (msg : string).

Inductive result (A : Type) : Type :=
  | Ok (a : A)
  | Raise (e : exn).
Arguments Ok {A} a.
Arguments Raise {A} e.

Definition rbind {A B} (r : result A) (k : A → result B) : result B :=
  match r with
  | Ok a => k a
  | Raise e => Raise e
  end.

Declare Scope py_scope.
Delimit Scope py_scope with py.
Notation "'let?' x ':=' r 'in' k" := (rbind r (λ x, k))
  (at level 10, x pattern, r at level 100, k at level 200) : py_scope.
Local Open Scope py_scope.

(** [a / b] on Python ints: true division, raising on a zero divisor. *)
Definition py_truediv (a b : Z) : result Q :=
  if decide (b = 0%Z) then Raise ZeroDivisionError
  else Ok (inject_Z a / inject_Z b)%Q.

(** A vectorised operation raises as soon as one element does. *)
Fixpoint rmapM {A B} (f : A → result B) (l : list A) : result (list B) :=
  match l with
  | [] => Ok []
  | x :: l' =>
      let? y := f x in
      let? ys := rmapM f l' in
      Ok (y :: ys)
  end.

(** ** [collections.Counter] *)

(** [c[k] = c.get(k, 0) + 1]: an existing key keeps its position, a new key
    goes last. *)
Fixpoint counter_incr (k : string) (c : list (string * nat)) : list (string * nat) :=
  match c with
  | [] => [(k, 1)]
  | (k', n) :: c' =>
      if decide (k' = k) then (k', S n) :: c' else (k', n) :: counter_incr k c'
  end.

Definition Counter (codes : list string) : list (string * nat) :=
  foldl (λ c k, counter_incr k c) [] codes.

(** [max(it, key=key)] with a first element: a later item replaces the best
    one only when its key is strictly greater. *)
Fixpoint py_max_by {A} (key : A → nat) (best : A) (l : list A) : A :=
  match l with
  | [] => best
  | x :: l' => py_max_by key (if key best <? key x then x else best) l'
  end.

(** [most_common(1)] is [heapq.nlargest(1, items, key=itemgetter(1))], which
    for [n == 1] is [max] over the items, or [[]] when there is none. *)
Definition most_common_1 (c : list (string * nat)) : list (string * nat) :=
  match c with
  | [] => []
  | x :: c' => [py_max_by snd x c']
  end.

(** ** The geometry backend: shapely and pyproj *)

(** What the analysis asks of shapely geometries ([.centroid], [.buffer],
    [.intersects]) and of geopandas' [to_crs('EPSG:4326')].  [centroid] is
    [g.centroid] read through [.x] and [.y] (line 212), which raise on an
    empty geometry: its centroid is the empty point and has no
    coordinates.  [buffer], [intersects] and [to_crs] can raise (GEOS and
    PROJ errors). *)
Class GeoBackend (G CRS : Type) := {
  centroid : G → result (Q * Q);
  buffer : G → Q → result G;
  intersects : G → G → result bool;
  to_crs : CRS → Q * Q → result (Q * Q);
}.

(** ** Data model *)

(** A row of the assessment layer (attributes only). *)
Record assessment_row := {
  a_LOC_ID : pyval;
  a_PROP_ID : pyval;
  a_SITE_ADDR : pyval;
  a_USE_CODE : pyval;
}.

(** A row of the parcel layer; a missing geometry is [None]. *)
Record parcel_row (G : Type) := {
  p_LOC_ID : pyval;
  p_geometry : option G;
}.
Arguments p_LOC_ID {G} _.
Arguments p_geometry {G} _.

(** A GeoDataFrame: its rows and its [.crs]. *)
Record geodf (G CRS : Type) := {
  gdf_rows : list (parcel_row G);
  gdf_crs : option CRS;
}.
Arguments gdf_rows {G CRS} _.
Arguments gdf_crs {G CRS} _.

(** A row of [all_parcels_gdf], the inner merge on [LOC_ID]. *)
Record joined_row (G : Type) := {
  LOC_ID : string;
  geometry : option G;
  PROP_ID : pyval;
  SITE_ADDR : pyval;
  USE_CODE : string;
}.
Arguments LOC_ID {G} _.
Arguments geometry {G} _.
Arguments PROP_ID {G} _.
Arguments SITE_ADDR {G} _.
Arguments USE_CODE {G} _.

(** An entry of [results]. *)
Record suggestion := {
  s_id : string;
  prop_id : string;
  loc_id : string;
  address : string;
  current_code : string;
  suggested_code : string;
  confidence : Q;
  description : pyval;
  lat : Q;
  lng : Q;
  nearby_count : nat;
}.

(** ** [processing_progress] *)

Record progress := {
  current : nat;
  total : nat;
  status : string;
  message : string;
}.

(** The module-level initial value (lines 29-34). *)
Definition processing_progress_init : progress :=
  {| current := 0; total := 0; status := "idle"; message := "" |}.

(** The dict as it is now, and every earlier snapshot, newest first. *)
Record store := {
  now : progress;
  past : list progress;
}.

Definition fresh_store : store := {| now := processing_progress_init; past := [] |}.

Definition write (f : progress → progress) (st : store) : store :=
  {| now := f (now st); past := now st :: past st |}.

Definition set_current (n : nat) : store → store :=
  write (λ p, {| current := n; total := total p; status := status p; message := message p |}).
Definition set_total (n : nat) : store → store :=
  write (λ p, {| current := current p; total := n; status := status p; message := message p |}).
Definition set_status (s : string) : store → store :=
  write (λ p, {| current := current p; total := total p; status := s; message := message p |}).
Definition set_message (s : string) : store → store :=
  write (λ p, {| current := current p; total := total p; status := status p; message := s |}).

(** Every snapshot of a store, oldest first. *)
Definition history (st : store) : list progress := reverse (now st :: past st).

(** ** [load_classification_codes] *)

(** What [pd.read_csv] hands back: the columns, by header, in file order. *)
Definition dataframe := list (string * list pyval).

(** [df[name]] *)
Fixpoint df_col (name : string) (df : dataframe) : result (list pyval) :=
  match df with
  | [] => Raise (KeyError name)
  | (h, cells) :: df' => if decide (h = name) then Ok cells else df_col name df'
  end.

(** [df.columns[i]] *)
Definition df_column_name (i : nat) (df : dataframe) : result string :=
  match df !! i with
  | Some (h, _) => Ok h
  | None => Raise IndexError
  end.

(** [dict(zip(keys, values))]: a later pair overwrites an earlier one. *)
Fixpoint dict_zip (keys : list string) (values : list pyval) (d : gmap string pyval)
  : gmap string pyval :=
  match keys, values with
  | k :: keys', v :: values' => dict_zip keys' values' (<[k := v]> d)
  | _, _ => d
  end.

(** The body of the [try] block (lines 39-50). *)
Definition load_classification_codes_try (read_csv : result dataframe)
  : result (gmap string pyval) :=
  let? codes_df := read_csv in
  let columns := codes_df.*1 in
  let? (code_col, desc_col) :=
    if decide ("use_code" ∈ columns) then Ok ("use_code", "Description")
    else if decide ("Code" ∈ columns) then Ok ("Code", "Description")
    else
      let? c0 := df_column_name 0 codes_df in
      let? c1 := df_column_name 1 codes_df in
      Ok (c0, c1) in
  let? codes := df_col code_col codes_df in
  let? descs := df_col desc_col codes_df in
  Ok (dict_zip (py_str <$> codes) descs ∅).

(** [load_classification_codes], given the outcome of
    [pd.read_csv('property_classification_codes.csv')]. *)
Definition load_classification_codes (read_csv : result dataframe) : gmap string pyval :=
  match load_classification_codes_try read_csv with
  | Ok codes_dict => codes_dict
  | Raise _ => ∅
  end.

(** ** [perform_spatial_analysis] *)

Definition Qltb (a b : Q) : bool := negb (Qle_bool b a).

(** Line 241: [41.0 <= lat <= 43.0 and -74.0 <= lng <= -69.0]. *)
Definition in_massachusetts (lat lng : Q) : bool :=
  Qle_bool 41 lat && Qle_bool lat 43 && Qle_bool (-74) lng && Qle_bool lng (-69).

(** [df[mask]] *)
Fixpoint select {A} (mask : list bool) (rows : list A) : list A :=
  match mask, rows with
  | b :: mask', r :: rows' => if b then r :: select mask' rows' else select mask' rows'
  | _, _ => []
  end.

(** Python's [in] on strings. *)
Fixpoint str_contains (needle s : string) : bool :=
  String.prefix needle s ||
  match s with
  | EmptyString => false
  | String _ s' => str_contains needle s'
  end.

Definition ascii_lower (c : Ascii.ascii) : Ascii.ascii :=
  let n := Ascii.nat_of_ascii c in
  if (65 <=? n) && (n <=? 90) then Ascii.ascii_of_nat (n + 32) else c.

(** [s.lower()], on ASCII letters. *)
Fixpoint str_lower (s : string) : string :=
  match s with
  | EmptyString => EmptyString
  | String c s' => String (ascii_lower c) (str_lower s')
  end.

Section Analysis.
Context {G CRS : Type} `{GeoBackend G CRS}.

(** [df['LOC_ID'] = df['LOC_ID'].astype(str)] on either frame. *)
Definition stringify_parcel (p : parcel_row G) : parcel_row G :=
  {| p_LOC_ID := PStr (py_str (p_LOC_ID p)); p_geometry := p_geometry p |}.

Definition stringify_loc (a : assessment_row) : assessment_row :=
  {| a_LOC_ID := PStr (py_str (a_LOC_ID a)); a_PROP_ID := a_PROP_ID a;
     a_SITE_ADDR := a_SITE_ADDR a; a_USE_CODE := a_USE_CODE a |}.

(** [df['USE_CODE'] = df['USE_CODE'].astype(str).str[:3]] (line 122). *)
Definition truncate_use_code (a : assessment_row) : assessment_row :=
  {| a_LOC_ID := a_LOC_ID a; a_PROP_ID := a_PROP_ID a;
     a_SITE_ADDR := a_SITE_ADDR a;
     a_USE_CODE := PStr (str_slice3 (py_str (a_USE_CODE a))) |}.

(** One row of [parcels_gdf.merge(assessment_df, on='LOC_ID', how='inner')]. *)
Definition join_rows (p : parcel_row G) (a : assessment_row) : joined_row G :=
  {| LOC_ID := py_str (p_LOC_ID p); geometry := p_geometry p;
     PROP_ID := a_PROP_ID a; SITE_ADDR := a_SITE_ADDR a;
     USE_CODE := py_str (a_USE_CODE a) |}.

(** The inner merge keeps the order of the left keys; under each parcel
    come the assessment rows of the same key, in their order. *)
Definition merge_inner (parcels : list (parcel_row G)) (assessment : list assessment_row)
  : list (joined_row G) :=
  p ← parcels;
  join_rows p <$> filter (λ a, a_LOC_ID a = p_LOC_ID p) assessment.

(** Line 170 on the merged frame. *)
Definition retruncate (r : joined_row G) : joined_row G :=
  {| LOC_ID := LOC_ID r; geometry := geometry r; PROP_ID := PROP_ID r;
     SITE_ADDR := SITE_ADDR r; USE_CODE := str_slice3 (USE_CODE r) |}.

(** Lines 163-170: [all_parcels_gdf]. *)
Definition build_all_parcels (parcels : list (parcel_row G))
    (assessment_df : list assessment_row) : list (joined_row G) :=
  retruncate <$> merge_inner (stringify_parcel <$> parcels) (stringify_loc <$> assessment_df).

(** Line 174: the debug print evaluates
    [parcels_gdf.geometry.iloc[0].centroid] when the frame has a row; on a
    missing geometry that is an attribute access on [None]. *)
Definition sample_coordinates (parcels : list (parcel_row G)) : result unit :=
  match parcels with
  | [] => Ok ()
  | p :: _ =>
      match p_geometry p with
      | Some _ => Ok ()
      | None => Raise AttributeError
      end
  end.

(** Lines 215-238: the centroid as (lat, lng); [None] is a [continue]. *)
Definition centroid_latlng (crs : option CRS) (x y : Q) : option (Q * Q) :=
  if Qltb 1000 (Qabs x) || Qltb 1000 (Qabs y) then
    match crs with
    | Some c =>
        match to_crs c (x, y) with
        | Ok (tx, ty) => Some (ty, tx)
        | Raise _ => None
        end
    | None => None
    end
  else Some (y, x).

(** [all_parcels_gdf.intersects(buffer_geom)]: row-wise, [False] on a
    missing geometry. *)
Definition intersects_mask (all_parcels : list (joined_row G)) (buffer_geom : G)
  : result (list bool) :=
  rmapM (λ r, match geometry r with
              | Some g => intersects g buffer_geom
              | None => Ok false
              end) all_parcels.

(** Lines 249-254: [nearby_parcels] after the target is excluded. *)
Definition nearby_parcels_of (all_parcels : list (joined_row G)) (g : G) (key : string)
  : result (list (joined_row G)) :=
  let? buffer_geom := buffer g 100 in
  let? nearby_mask := intersects_mask all_parcels buffer_geom in
  let nearby_parcels := select nearby_mask all_parcels in
  Ok (filter (λ r, LOC_ID r ≠ key) nearby_parcels).

(** Line 260: [nearby_valid_codes]. *)
Definition nearby_valid_codes_of (valid_codes : gset string)
    (nearby_parcels : list (joined_row G)) : list (joined_row G) :=
  filter (λ r, USE_CODE r ∈ valid_codes) nearby_parcels.

(** Lines 256-290: the vote. [Ok None] is a [continue]. *)
Definition vote (codes_dict : gmap string pyval) (valid_codes : gset string)
    (n_results : nat) (property_row : assessment_row) (latlng : Q * Q)
    (nearby_parcels : list (joined_row G)) : result (option suggestion) :=
  if decide (length nearby_parcels = 0) then Ok None else
  let nearby_valid_codes := nearby_valid_codes_of valid_codes nearby_parcels in
  if decide (length nearby_valid_codes = 0) then Ok None else
  let use_code_counts := Counter (USE_CODE <$> nearby_valid_codes) in
  match most_common_1 use_code_counts with
  | [] => Ok None
  | (code, votes) :: _ =>
      let? conf := py_truediv (Z.of_nat votes) (Z.of_nat (length nearby_valid_codes)) in
      let descr := default (PStr "Unknown") (codes_dict !! code) in
      if decide (code ∉ valid_codes) then Ok None else
      Ok (Some {| s_id := "prop_" +:+ pretty n_results;
              prop_id := py_str (a_PROP_ID property_row);
              loc_id := py_str (a_LOC_ID property_row);
              address := py_str (a_SITE_ADDR property_row);
              current_code := py_str (a_USE_CODE property_row);
              suggested_code := code;
              confidence := conf;
              description := descr;
              lat := latlng.1;
              lng := latlng.2;
              nearby_count := length nearby_parcels |})
  end.

(** The body of the per-property [try] (lines 199-290). [Ok None] is a
    [continue], [Ok (Some r)] appends [r], [Raise e] reaches the
    [except] of line 292. *)
Definition classify_property (all_parcels : list (joined_row G)) (crs : option CRS)
    (codes_dict : gmap string pyval) (valid_codes : gset string)
    (n_results : nat) (property_row : assessment_row) : result (option suggestion) :=
  let key := py_str (a_LOC_ID property_row) in
  match filter (λ r, LOC_ID r = key) all_parcels with
  | [] => Ok None
  | property_geom :: _ =>
      match geometry property_geom with
      | None => Ok None
      | Some g =>
          let? (x, y) := centroid g in
          match centroid_latlng crs x y with
          | None => Ok None
          | Some (lat, lng) =>
              if negb (in_massachusetts lat lng) then Ok None else
              let? nearby_parcels := nearby_parcels_of all_parcels g key in
              vote codes_dict valid_codes n_results property_row (lat, lng)
                nearby_parcels
          end
      end
  end.

(** The [for] loop (lines 188-294); [count] is [enumerate]'s counter. *)
Fixpoint analysis_loop (all_parcels : list (joined_row G)) (crs : option CRS)
    (codes_dict : gmap string pyval) (valid_codes : gset string)
    (total_to_process : nat) (count : nat) (rows : list assessment_row)
    (results : list suggestion) (st : store) : list suggestion * store :=
  match rows with
  | [] => (results, st)
  | property_row :: rows' =>
      let st := set_current count st in
      let st := set_message ("Analyzing property " +:+ pretty count +:+ " of "
                               +:+ pretty total_to_process) st in
      let results :=
        match classify_property all_parcels crs codes_dict valid_codes
                (length results) property_row with
        | Ok (Some r) => results ++ [r]
        | Ok None => results
        | Raise _ => results
        end in
      analysis_loop all_parcels crs codes_dict valid_codes total_to_process
        (S count) rows' results st
  end.

(** [perform_spatial_analysis]; the outer [except] returns [[]]. *)
Definition perform_spatial_analysis (parcels_gdf : geodf G CRS)
    (assessment_df non_matching_sample : list assessment_row)
    (codes_dict : gmap string pyval) (valid_codes : gset string) (st : store)
  : list suggestion * store :=
  let all_parcels_gdf := build_all_parcels (gdf_rows parcels_gdf) assessment_df in
  match sample_coordinates (gdf_rows parcels_gdf) with
  | Raise _ => ([], st)
  | Ok _ =>
      let total_to_process := length non_matching_sample in
      let st := set_total total_to_process st in
      let st := set_status "processing" st in
      let '(results, st) :=
        analysis_loop all_parcels_gdf (gdf_crs parcels_gdf) codes_dict valid_codes
          total_to_process 1 non_matching_sample [] st in
      let st := set_status "complete" st in
      let st := set_message ("Analysis complete! Found " +:+ pretty (length results)
                               +:+ " properties with spatial suggestions.") st in
      (results, st)
  end.

End Analysis.

(** ** [analyze_gdb] *)

(** The geodatabase as [gpd.list_layers] and [gpd.read_file] show it: the
    layer names, a layer read as an attribute table (its geometry column
    dropped, lines 112-116) and a layer read as a GeoDataFrame. *)
Record geodatabase (G CRS : Type) := {
  list_layers : list string;
  read_attributes : string → list assessment_row;
  read_parcels : string → geodf G CRS;
}.
Arguments list_layers {G CRS} _.
Arguments read_attributes {G CRS} _.
Arguments read_parcels {G CRS} _.

(** The dict [analyze_gdb] returns. *)
Record analysis := {
  success : bool;
  total_properties : nat;
  non_matching_count : nat;
  analyzed_count : nat;
  high_confidence_count : nat;
  properties : list suggestion;
  match_percentage : Q;
  assessment_data : list assessment_row;
}.

(** Lines 94-101: the last layer of each kind wins. *)
Definition find_layers (names : list string) : option string * option string :=
  foldl (λ '(assessment_layer, parcel_layer) layer_name,
           let lower := str_lower layer_name in
           (if str_contains "assess" lower then Some layer_name else assessment_layer,
            if str_contains "taxpar" lower || str_contains "parcel" lower
            then Some layer_name else parcel_layer))
        (None, None) names.

(** [series.isin(valid_codes)] on one cell. *)
Definition cell_isin (v : pyval) (valid_codes : gset string) : bool :=
  match v with
  | PStr s => bool_decide (s ∈ valid_codes)
  | PInt _ => false
  end.

(** Lines 125-126: [assessment_df[~matching_mask]]. *)
Definition non_matching (valid_codes : gset string) (assessment_df : list assessment_row)
  : list assessment_row :=
  filter (λ a, cell_isin (a_USE_CODE a) valid_codes = false) assessment_df.

Section Orchestrator.
Context {G CRS : Type} `{GeoBackend G CRS}.

(** [analyze_gdb], given what [pd.read_csv] returned and the geodatabase;
    the [except] of line 154 re-raises. *)
Definition analyze_gdb (read_csv : result dataframe) (db : geodatabase G CRS) (st : store)
  : result analysis * store :=
  let codes_dict := load_classification_codes read_csv in
  let valid_codes : gset string := dom codes_dict in
  match find_layers (list_layers db) with
  | (None, _) => (Raise (Exception "No assessment layer found"), st)
  | (Some _, None) => (Raise (Exception "No parcel layer found"), st)
  | (Some assessment_layer, Some parcel_layer) =>
      let assessment_df := read_attributes db assessment_layer in
      let parcels_gdf := read_parcels db parcel_layer in
      let assessment_df := truncate_use_code <$> assessment_df in
      let total_properties := length assessment_df in
      let non_matching_df := non_matching valid_codes assessment_df in
      let non_matching_count := length non_matching_df in
      let '(sample_properties, assessment_df', st) :=
        if decide (0 < non_matching_count) then
          let '(results, st) :=
            perform_spatial_analysis parcels_gdf assessment_df non_matching_df
              codes_dict valid_codes st in
          (* line 164 rewrote the LOC_ID column of this very frame *)
          (results, stringify_loc <$> assessment_df, st)
        else ([], assessment_df, st) in
      let high_confidence_count :=
        length (filter (λ p, Qltb (7 # 10) (confidence p) = true) sample_properties) in
      match py_truediv (Z.of_nat total_properties - Z.of_nat non_matching_count)
              (Z.of_nat total_properties) with
      | Raise e => (Raise e, st)
      | Ok ratio =>
          (Ok {| success := true;
                 total_properties := total_properties;
                 non_matching_count := non_matching_count;
                 analyzed_count := length sample_properties;
                 high_confidence_count := high_confidence_count;
                 properties := sample_properties;
                 match_percentage := (ratio * 100)%Q;
                 assessment_data := assessment_df' |}, st)
      end
  end.

End Orchestrator.

(** ** A small geometry backend for running the analysis

    Parcels are discs: a centre and a radius; [buffer] widens the radius,
    two discs intersect when their centres are no further apart than the
    sum of the radii. A reference system is a shift and scale to degrees,
    or one that PROJ rejects. *)
Module Discs.

Record disc := { cx : Q; cy : Q; radius : Q }.

Inductive ref_system :=
  | Affine (lng0 lat0 per_degree : Q)
  | Rejected.

Definition disc_intersects (a b : disc) : bool :=
  let dx := (cx a - cx b)%Q in
  let dy := (cy a - cy b)%Q in
  let r := (radius a + radius b)%Q in
  Qle_bool (dx * dx + dy * dy)%Q (r * r)%Q.

#[global] Instance disc_backend : GeoBackend disc ref_system := {|
  centroid d := Ok (cx d, cy d);
  buffer d r :=
    if Qltb (radius d + r)%Q 0 then Raise (ExternalError "negative buffer")
    else Ok {| cx := cx d; cy := cy d; radius := (radius d + r)%Q |};
  intersects a b := Ok (disc_intersects a b);
  to_crs c xy :=
    match c with
    | Affine lng0 lat0 k => Ok ((lng0 + xy.1 / k)%Q, (lat0 + xy.2 / k)%Q)
    | Rejected => Raise (ExternalError "invalid projection")
    end;
|}.

Definition point (x y : Q) : disc := {| cx := x; cy := y; radius := 0 |}.

End Discs.

(** ** A small town to run the analysis on

    Six parcels around one crossing, two on a lane of their own and two
    far away, in a projected system of 100000 units per degree with its
    origin at 72 W, 41 N. The reference table has the codes 101 and 102. *)
Module Town.
Import Discs.

Definition assessed (loc prop addr : string) (code : pyval) : assessment_row :=
  {| a_LOC_ID := PStr loc; a_PROP_ID := PStr prop; a_SITE_ADDR := PStr addr;
     a_USE_CODE := code |}.

Definition parcel (loc : pyval) (g : disc) : parcel_row disc :=
  {| p_LOC_ID := loc; p_geometry := Some g |}.

Definition codes_csv : result dataframe :=
  Ok [("use_code", [PInt 101; PInt 102]);
      ("Description", [PStr "Single Family"; PStr "Two Family"])].

Definition state_plane : ref_system := Affine (-72) 41 100000.

(** [7 Main St] carries two assessment records (two units on one lot);
    [9 Main St] has a code outside the table and so has [5 Elm St], whose
    parcel shape GEOS cannot buffer; the two parcels of [Mill Ln] have
    only each other, both with codes outside the table; [1 Far Rd] lies
    east of the state. *)
Definition assessment_layer : list assessment_row :=
  [ assessed "L7" "P7a" "7 Main St" (PStr "9990");
    assessed "L7" "P7b" "7 Main St" (PInt 1010);
    assessed "L2" "P2" "2 Main St" (PInt 1020);
    assessed "L3" "P3" "3 Main St" (PStr "101");
    assessed "L4" "P4" "4 Main St" (PStr "1010");
    assessed "L6" "P6" "6 Main St" (PStr "102");
    assessed "L9" "P9" "9 Main St" (PStr "998");
    assessed "L5" "P5" "5 Elm St" (PStr "13");
    assessed "L8" "P8" "8 Mill Ln" (PInt 997);
    assessed "L10" "P10" "10 Mill Ln" (PInt 9960);
    assessed "L1" "P1" "1 Far Rd" (PStr "0000") ].

Definition parcel_layer : geodf disc ref_system :=
  {| gdf_rows :=
       [ parcel (PStr "L7") (point 100000 100000);
         parcel (PStr "L2") (point 100050 100000);
         parcel (PStr "L3") (point 100000 100050);
         parcel (PStr "L4") (point 99950 100000);
         parcel (PStr "L6") (point 100000 99950);
         parcel (PStr "L9") (point 100060 100060);
         parcel (PStr "L5") {| cx := 100400; cy := 100000; radius := -200 |};
         parcel (PStr "L8") (point 200000 150000);
         parcel (PStr "L10") (point 200050 150000);
         parcel (PStr "L1") (point 900000 100000) ];
     gdf_crs := Some state_plane |}.

Definition town : geodatabase disc ref_system :=
  {| list_layers := ["M035Assess"; "M035TaxPar"; "M035Misc"];
     read_attributes _ := assessment_layer;
     read_parcels _ := parcel_layer |}.

(** The frame [analyze_gdb] works on after line 122. *)
Definition assessment_df : list assessment_row :=
  truncate_use_code <$> assessment_layer.

Definition codes_dict : gmap string pyval := load_classification_codes codes_csv.
Definition valid_codes : gset string := dom codes_dict.

Definition non_matching_df : list assessment_row := non_matching valid_codes assessment_df.

Definition all_parcels_gdf : list (joined_row disc) :=
  build_all_parcels (gdf_rows parcel_layer) assessment_df.

(** The two suggestions the run emits. *)
Definition suggestion_7_Main : suggestion :=
  {| s_id := "prop_0"; prop_id := "P7a"; loc_id := "L7"; address := "7 Main St";
     current_code := "999"; suggested_code := "102"; confidence := 2 # 4;
     description := PStr "Two Family";
     lat := 4200000 # 100000; lng := -7100000 # 100000; nearby_count := 5 |}.

Definition suggestion_9_Main : suggestion :=
  {| s_id := "prop_1"; prop_id := "P9"; loc_id := "L9"; address := "9 Main St";
     current_code := "998"; suggested_code := "101"; confidence := 2 # 3;
     description := PStr "Single Family";
     lat := 4200060 # 100000; lng := -7099940 # 100000; nearby_count := 4 |}.

(** Rows of the non-matching frame. *)
Definition row_7_Main : assessment_row :=
  truncate_use_code (assessed "L7" "P7a" "7 Main St" (PStr "9990")).
Definition row_9_Main : assessment_row :=
  truncate_use_code (assessed "L9" "P9" "9 Main St" (PStr "998")).
Definition row_5_Elm : assessment_row :=
  truncate_use_code (assessed "L5" "P5" "5 Elm St" (PStr "13")).
Definition row_8_Mill : assessment_row :=
  truncate_use_code (assessed "L8" "P8" "8 Mill Ln" (PInt 997)).
Definition row_10_Mill : assessment_row :=
  truncate_use_code (assessed "L10" "P10" "10 Mill Ln" (PInt 9960)).
Definition row_1_Far : assessment_row :=
  truncate_use_code (assessed "L1" "P1" "1 Far Rd" (PStr "0000")).

(** The same parcels with no reference system recorded. *)
Definition parcel_layer_no_crs : geodf disc ref_system :=
  {| gdf_rows := gdf_rows parcel_layer; gdf_crs := None |}.


Definition empty_town : geodatabase disc ref_system :=
  {| list_layers := ["M035Assess"; "M035TaxPar"];
     read_attributes _ := [];
     read_parcels _ := parcel_layer |}.

End Town.

(** ** [extract_and_analyze_gdb] *)

(** [s.endswith(suffix)] *)
Fixpoint str_endswith (s suffix : string) : bool :=
  bool_decide (s = suffix) ||
  match s with
  | EmptyString => false
  | String _ s' => str_endswith s' suffix
  end.

(** [os.path.join(a, b)] of [posixpath]. *)
Definition path_join (a b : string) : string :=
  if String.prefix "/" b then b
  else if bool_decide (a = "") || str_endswith a "/" then a +:+ b
  else a +:+ "/" +:+ b.

(** A directory on disk: its name, its sub-directories and the names of
    its files, in listing order. *)
#[local] Unset Elimination Schemes.
Inductive fs_dir : Type :=
  | Dir (name : string) (subdirs : list fs_dir) (files : list string).
#[local] Set Elimination Schemes.

Definition dir_name (d : fs_dir) : string :=
  match d with Dir name _ _ => name end.

Definition dir_subdirs (d : fs_dir) : list fs_dir :=
  match d with Dir _ subdirs _ => subdirs end.

(** [os.walk(root)], top-down: the directory itself, then each
    sub-directory in turn; an item is [(root, dirs, files)]. *)
Fixpoint os_walk (root : string) (d : fs_dir) : list (string * list string * list string) :=
  match d with
  | Dir _ subdirs files =>
      (root, dir_name <$> subdirs, files)
      :: flat_map (λ sub, os_walk (path_join root (dir_name sub)) sub) subdirs
  end.

(** The inner [for] of lines 66-69: the first name ending in [.gdb]. *)
Fixpoint first_gdb (root : string) (dirs : list string) : option string :=
  match dirs with
  | [] => None
  | dir_name :: dirs' =>
      if str_endswith dir_name ".gdb" then Some (path_join root dir_name)
      else first_gdb root dirs'
  end.

(** Lines 64-71: the search stops at the first walked directory that has
    such a child. *)
Fixpoint find_gdb (walked : list (string * list string * list string)) : option string :=
  match walked with
  | [] => None
  | (root, dirs, _) :: walked' =>
      match first_gdb root dirs with
      | Some gdb_path => Some gdb_path
      | None => find_gdb walked'
      end
  end.

Section Extract.
Context {G CRS : Type} `{GeoBackend G CRS}.

(** [extract_and_analyze_gdb]. [exn_str] is [str(e)]; [extractall] is what
    [zip_ref.extractall(temp_dir)] leaves under [temp_dir], or the
    exception of a bad archive; [read_gdb] is the geodatabase geopandas
    finds at a path. *)
Definition extract_and_analyze_gdb (exn_str : exn → string) (temp_dir : string)
    (extractall : result fs_dir) (read_gdb : string → geodatabase G CRS)
    (read_csv : result dataframe) (st : store) : result analysis * store :=
  let wrap (e : exn) := Exception ("Error processing GDB: " +:+ exn_str e) in
  match extractall with
  | Raise e => (Raise (wrap e), st)
  | Ok extracted =>
      match find_gdb (os_walk temp_dir extracted) with
      | None => (Raise (wrap (Exception "No .gdb file found in zip")), st)
      | Some gdb_path =>
          match analyze_gdb read_csv (read_gdb gdb_path) st with
          | (Ok results, st) => (Ok results, st)
          | (Raise e, st) => (Raise (wrap e), st)
          end
      end
  end.

End Extract.

(** ** [upload_file] *)

(** [d[k] = v] on a dict in insertion order. *)
Fixpoint dict_set (k v : string) (d : list (string * string)) : list (string * string) :=
  match d with
  | [] => [(k, v)]
  | (k', v') :: d' =>
      if decide (k' = k) then (k', v) :: d' else (k', v') :: dict_set k v d'
  end.

(** [d.get(k)] *)
Fixpoint dict_get (k : string) (d : list (string * string)) : option string :=
  match d with
  | [] => None
  | (k', v) :: d' => if decide (k' = k) then Some v else dict_get k d'
  end.

(** Lines 355-358: [suggestions_map]. *)
Definition suggestions_map_of (properties : list suggestion) : list (string * string) :=
  foldl (λ d prop, dict_set (prop_id prop) (suggested_code prop) d) [] properties.

(** Lines 364-366: one replacement on [cleaned_df]. *)
Definition replace_use_code (prop_id suggested_code : string)
    (cleaned_df : list assessment_row) : list assessment_row :=
  let mask := (λ a, bool_decide (py_str (a_PROP_ID a) = prop_id)) <$> cleaned_df in
  if existsb id mask then
    (λ a, if bool_decide (py_str (a_PROP_ID a) = prop_id)
          then {| a_LOC_ID := a_LOC_ID a; a_PROP_ID := a_PROP_ID a;
                  a_SITE_ADDR := a_SITE_ADDR a; a_USE_CODE := PStr suggested_code |}
          else a) <$> cleaned_df
  else cleaned_df.

(** Lines 352-366: the cleaned dataset. *)
Definition clean_use_codes (assessment_data : list assessment_row)
    (properties : list suggestion) : list assessment_row :=
  foldl (λ cleaned_df '(prop_id, suggested_code),
           replace_use_code prop_id suggested_code cleaned_df)
        assessment_data (suggestions_map_of properties).

(** What [upload_file] answers: the error JSON, or the results with the
    rows written to the raw and to the cleaned CSV. *)
Inductive upload_response : Type :=
  | UploadError (error : string)
  | UploadDone (results : analysis) (raw_csv cleaned_csv : list assessment_row).

Section Upload.
Context {G CRS : Type} `{GeoBackend G CRS}.

(** [upload_file]. [file] is the name of the uploaded part, [None] when
    the request has no ['file'] part. The time-stamped file names, the
    copies saved on disk and the JSON dump are left out; the archive and
    the reference table come in as for [extract_and_analyze_gdb]. *)
Definition upload_file (exn_str : exn → string) (file : option string) (temp_dir : string)
    (extractall : result fs_dir) (read_gdb : string → geodatabase G CRS)
    (read_csv : result dataframe) (st : store) : upload_response * store :=
  match file with
  | None => (UploadError "No file uploaded", st)
  | Some filename =>
      if bool_decide (filename = "") then (UploadError "No file selected", st)
      else if negb (str_endswith (str_lower filename) ".zip")
      then (UploadError "Please upload a .zip file", st)
      else
        match extract_and_analyze_gdb exn_str temp_dir extractall read_gdb read_csv st with
        | (Raise e, st) => (UploadError ("Error processing file: " +:+ exn_str e), st)
        | (Ok results, st) =>
            (UploadDone results (assessment_data results)
               (clean_use_codes (assessment_data results) (properties results)), st)
        end
  end.

End Upload.

(** ** [shapefile_to_excel.py] *)

(** [s.rfind(c)] for one character; [None] stands for -1. *)
Fixpoint str_rfind (c : Ascii.ascii) (s : string) : option nat :=
  match s with
  | EmptyString => None
  | String x s' =>
      match str_rfind c s' with
      | Some i => Some (S i)
      | None => if decide (x = c) then Some 0 else None
      end
  end.

(** [os.path.splitext(p)[0]] of [posixpath]: the path without its
    extension; the leading dots of the file name do not start one. *)
Definition splitext_root (p : string) : string :=
  match str_rfind "." p with
  | None => p
  | Some dotIndex =>
      let filenameIndex :=
        match str_rfind "/" p with
        | Some sepIndex => S sepIndex
        | None => 0
        end in
      if (filenameIndex <=? dotIndex)
         && existsb (λ i, negb (bool_decide (String.get i p = Some "."%char)))
              (seq filenameIndex (dotIndex - filenameIndex))
      then String.substring 0 dotIndex p
      else p
  end.

(** [gdf.drop(columns=['geometry'])] *)
Definition drop_geometry (gdf : dataframe) : result dataframe :=
  if decide ("geometry" ∈ gdf.*1)
  then Ok (filter (λ col, col.1 ≠ "geometry") gdf)
  else Raise (KeyError "['geometry'] not found in axis").

(** [shapefile_to_excel]: what it returns and the sheet it wrote, if any.
    [read_file] is [gpd.read_file] and [to_excel] the outcome of writing a
    sheet at a path. *)
Definition shapefile_to_excel (read_file : string → result dataframe)
    (to_excel : string → dataframe → result unit)
    (shapefile_path : string) (output_path : option string)
  : result string * list (string * dataframe) :=
  match read_file shapefile_path with
  | Raise e => (Raise e, [])
  | Ok gdf =>
      let output_path :=
        match output_path with
        | Some output_path => output_path
        | None => splitext_root shapefile_path +:+ ".xlsx"
        end in
      match drop_geometry gdf with
      | Raise e => (Raise e, [])
      | Ok df =>
          match to_excel output_path df with
          | Raise e => (Raise e, [])
          | Ok _ => (Ok output_path, [(output_path, df)])
          end
      end
  end.

(** [convert_all_shapefiles], given [os.listdir(shapefile_dir)]: the
    sheets written, in order. *)
Definition convert_all_shapefiles (listdir : result (list string))
    (read_file : string → result dataframe)
    (to_excel : string → dataframe → result unit)
  : result (list (string * dataframe)) :=
  let shapefile_dir := "./L3_SHP_M035_Boston/" in
  let? names := listdir in
  let shp_files := filter (λ f, str_endswith f ".shp" = true) names in
  Ok (foldl (λ written shp_file,
               let shapefile_path := path_join shapefile_dir shp_file in
               written ++ (shapefile_to_excel read_file to_excel shapefile_path None).2)
            [] shp_files).

(** ** More inputs to run the code on *)
Module Cases.
Import Discs Town.

(** A [str(e)] to run the examples with: the message of an [Exception],
    which is all that reaches [upload_file] in them. *)
Definition exn_message (e : exn) : string :=
  match e with
  | Exception msg => msg
  | ExternalError msg => msg
  | ZeroDivisionError => "division by zero"
  | KeyError k => "'" +:+ k +:+ "'"
  | IndexError => "index out of bounds"
  | AttributeError => "'NoneType' object has no attribute 'centroid'"
  end.

(** A reference table with both code headers and a code listed twice. *)
Definition table_both_headers : dataframe :=
  [ ("Code", [PInt 1; PInt 2; PInt 3]);
    ("use_code", [PInt 101; PInt 102; PInt 101]);
    ("Description", [PStr "Single Family"; PStr "Two Family"; PStr "One Family"]) ].

(** A reference table without a description column. *)
Definition table_without_description : dataframe :=
  [ ("use_code", [PInt 101; PInt 102]); ("Label", [PStr "Single Family"; PStr "Two Family"]) ].

Definition town_without_assessment : geodatabase disc ref_system :=
  {| list_layers := ["M035TaxPar"; "M035Roads"];
     read_attributes _ := assessment_layer;
     read_parcels _ := parcel_layer |}.

Definition town_without_parcels : geodatabase disc ref_system :=
  {| list_layers := ["M035ASSESS"; "M035Roads"];
     read_attributes _ := assessment_layer;
     read_parcels _ := parcel_layer |}.

(** The town with a parcel without geometry at the head of the layer. *)
Definition town_with_null_geometry : geodatabase disc ref_system :=
  {| list_layers := ["M035Assess"; "M035TaxPar"];
     read_attributes _ := assessment_layer;
     read_parcels _ :=
       {| gdf_rows := {| p_LOC_ID := PStr "L0"; p_geometry := None |}
                        :: gdf_rows parcel_layer;
          gdf_crs := Some state_plane |} |}.

(** A parcel keyed by a number and its assessment record keyed by text. *)
Definition numbered_parcel : parcel_row disc :=
  {| p_LOC_ID := PInt 5; p_geometry := Some (point 100000 100000) |}.

Definition text_keyed_record : assessment_row :=
  assessed "5" "P5" "5 Main St" (PInt 1010).

(** A record of a lot that is not in the parcel layer. *)
Definition row_99_Lost : assessment_row :=
  truncate_use_code (assessed "L99" "P99" "99 Lost Rd" (PStr "995")).

(** Extracted archives: a geodatabase at the top level beside a nested
    one, and none but plain files of that name. *)
Definition archive_with_gdb : fs_dir :=
  Dir "" [ Dir "backup" [Dir "old.gdb" [] ["a00000001.gdbtable"]] [];
           Dir "M035.gdb" [] ["a00000001.gdbtable"] ]
         ["readme.txt"].

Definition archive_without_gdb : fs_dir :=
  Dir "" [Dir "docs" [] ["notes.gdb"]] ["town.gdb"].

(** Shapefiles on disk: one readable, one broken. *)
Definition shapefile_on_disk (path : string) : result dataframe :=
  if bool_decide (path = "./L3_SHP_M035_Boston/M035TaxPar.shp")
  then Ok [ ("LOC_ID", [PStr "L7"; PStr "L2"]); ("geometry", [PStr "POLYGON"; PStr "POLYGON"]);
            ("MAP_NO", [PInt 7; PInt 2]) ]
  else Raise (ExternalError "not recognized as a supported file format").

Definition excel_writer (path : string) (df : dataframe) : result unit := Ok ().

(** The town with its assessment records in the opposite order: [5 Elm St]
    now comes before [9 Main St] and [7 Main St]. *)
Definition town_reversed : geodatabase disc ref_system :=
  {| list_layers := ["M035Assess"; "M035TaxPar"];
     read_attributes _ := reverse assessment_layer;
     read_parcels _ := parcel_layer |}.

(** What the run on that town emits. *)
Definition suggestion_9_Main_first : suggestion :=
  {| s_id := "prop_0"; prop_id := "P9"; loc_id := "L9"; address := "9 Main St";
     current_code := "998"; suggested_code := "101"; confidence := 2 # 3;
     description := PStr "Single Family";
     lat := 4200060 # 100000; lng := -7099940 # 100000; nearby_count := 4 |}.

Definition suggestion_7_Main_second : suggestion :=
  {| s_id := "prop_1"; prop_id := "P7a"; loc_id := "L7"; address := "7 Main St";
     current_code := "999"; suggested_code := "102"; confidence := 2 # 4;
     description := PStr "Two Family";
     lat := 4200000 # 100000; lng := -7100000 # 100000; nearby_count := 5 |}.

(** Discs and the empty geometry. The centroid of the empty geometry has
    no coordinates to read; its buffer is empty again and it intersects
    nothing. *)
Inductive shape : Type :=
  | Empty
  | Round (d : disc).

#[global] Instance shape_backend : GeoBackend shape ref_system := {|
  centroid s :=
    match s with
    | Empty => Raise IndexError
    | Round d => centroid d
    end;
  buffer s r :=
    match s with
    | Empty => Ok Empty
    | Round d => let? b := buffer d r in Ok (Round b)
    end;
  intersects a b :=
    match a, b with
    | Round a, Round b => intersects a b
    | _, _ => Ok false
    end;
  to_crs c xy := to_crs (G := disc) c xy;
|}.

(** Three lots in a row: [1 Low Rd] has an empty geometry, [3 Low Rd] a
    code outside the table and [2 Low Rd] between them a code of the
    table. *)
Definition low_road_parcels : geodf shape ref_system :=
  {| gdf_rows :=
       [ {| p_LOC_ID := PStr "R1"; p_geometry := Some Empty |};
         {| p_LOC_ID := PStr "R2"; p_geometry := Some (Round (point 100050 100000)) |};
         {| p_LOC_ID := PStr "R3"; p_geometry := Some (Round (point 100100 100000)) |} ];
     gdf_crs := Some state_plane |}.

Definition low_road_records : list assessment_row :=
  [ assessed "R1" "Q1" "1 Low Rd" (PStr "995");
    assessed "R2" "Q2" "2 Low Rd" (PStr "101");
    assessed "R3" "Q3" "3 Low Rd" (PStr "994") ].

Definition row_1_Low : assessment_row := assessed "R1" "Q1" "1 Low Rd" (PStr "995").
Definition row_3_Low : assessment_row := assessed "R3" "Q3" "3 Low Rd" (PStr "994").

End Cases.

(** ** Specification-side notions

    These follow the words of the specification, not the code: they are
    what the code is compared with. *)

(** The number of votes for [c] in a list of neighbour codes. *)
Definition tally (c : string) (l : list string) : nat :=
  length (filter (λ x, x = c) l).

(** [c] is the plurality code of [l] with ties going to the code met first:
    no code has more votes, and every code met before the first [c] has
    strictly fewer. *)
Definition plurality_first (c : string) (l : list string) : Prop :=
  (∀ c', tally c' l ≤ tally c l) ∧
  ∃ l1 l2, l = l1 ++ c :: l2 ∧ (c ∉ l1) ∧ (∀ c', c' ∈ l1 → tally c' l < tally c l).

(** The distinct codes of [l] in the order of their first occurrence. *)
Fixpoint first_seen (l : list string) : list string :=
  match l with
  | [] => []
  | x :: l' => x :: filter (λ y, y ≠ x) (first_seen l')
  end.

Section Neighbourhood.
Context {G CRS : Type} `{GeoBackend G CRS}.

(** The location key of a property, stringified. *)
Definition location_key (property_row : assessment_row) : string :=
  py_str (a_LOC_ID property_row).

(** The geometry of a property: that of the first joined record carrying
    its location key. *)
Definition subject_geometry (all_parcels : list (joined_row G))
    (property_row : assessment_row) : option G :=
  match filter (λ r, LOC_ID r = location_key property_row) all_parcels with
  | r :: _ => geometry r
  | [] => None
  end.

(** The record has a geometry and it intersects the buffer. *)
Definition in_buffer (buffer_geom : G) (r : joined_row G) : bool :=
  match geometry r with
  | Some g =>
      match intersects g buffer_geom with
      | Ok b => b
      | Raise _ => false
      end
  | None => false
  end.

(** The neighbours of a property: the joined records in the buffer whose
    location key is not the property's. *)
Definition neighbours (all_parcels : list (joined_row G)) (key : string)
    (buffer_geom : G) : list (joined_row G) :=
  filter (λ r, in_buffer buffer_geom r = true ∧ LOC_ID r ≠ key) all_parcels.

(** The neighbours that carry a code of the reference table. *)
Definition valid_neighbours (all_parcels : list (joined_row G))
    (valid_codes : gset string) (key : string) (buffer_geom : G)
  : list (joined_row G) :=
  filter (λ r, USE_CODE r ∈ valid_codes) (neighbours all_parcels key buffer_geom).

End Neighbourhood.

(** The value on the last row that carries key [k]. *)
Definition latest_entry {V} (k : string) (keys : list string) (values : list V) : option V :=
  snd <$> last (filter (λ kv, kv.1 = k) (zip keys values)).

(** A layer name that [analyze_gdb] takes for the assessment layer, and one
    it takes for the parcel layer. *)
Definition is_assessment_name (layer_name : string) : Prop :=
  str_contains "assess" (str_lower layer_name) = true.

Definition is_parcel_name (layer_name : string) : Prop :=
  str_contains "taxpar" (str_lower layer_name) = true
  ∨ str_contains "parcel" (str_lower layer_name) = true.

#[global] Instance is_assessment_name_dec n : Decision (is_assessment_name n).
Proof. unfold is_assessment_name. apply _. Defined.

#[global] Instance is_parcel_name_dec n : Decision (is_parcel_name n).
Proof. unfold is_parcel_name. apply _. Defined.

(** Some directory below [d], at any depth, has a name ending in [.gdb]. *)
Fixpoint has_gdb_below (d : fs_dir) : bool :=
  match d with
  | Dir _ subdirs _ =>
      existsb (λ sub, str_endswith (dir_name sub) ".gdb" || has_gdb_below sub) subdirs
  end.

(** The code of the last suggestion made for a property id. *)
Definition latest_suggestion (k : string) (properties : list suggestion) : option string :=
  suggested_code <$> last (filter (λ prop, prop_id prop = k) properties).

(** The row with its use code replaced. *)
Definition with_use_code (a : assessment_row) (code : string) : assessment_row :=
  {| a_LOC_ID := a_LOC_ID a; a_PROP_ID := a_PROP_ID a; a_SITE_ADDR := a_SITE_ADDR a;
     a_USE_CODE := PStr code |}.

(** The snapshots the loop leaves for [left] properties numbered from
    [count], after the snapshot [p]: for each property one with [current]
    set and one with the message set. *)
Fixpoint loop_progress (tot count left : nat) (p : progress) : list progress :=
  match left with
  | 0 => []
  | S left' =>
      let p1 := {| current := count; total := total p; status := status p;
                   message := message p |} in
      let p2 := {| current := count; total := total p; status := status p;
                   message := "Analyzing property " +:+ pretty count +:+ " of "
                              +:+ pretty tot |} in
      p1 :: p2 :: loop_progress tot (S count) left' p2
  end.

(** The first [n] characters of [s]: all of [s] when it has no more. *)
Definition first_chars (n : nat) (s : string) : string :=
  String.string_of_list_ascii (take n (String.list_ascii_of_string s)).

Section Outcome.
Context {G CRS : Type} `{GeoBackend G CRS}.

(** The property, classified on its own, gets a suggestion. *)
Definition gets_suggestion (all_parcels : list (joined_row G)) (crs : option CRS)
    (codes_dict : gmap string pyval) (valid_codes : gset string)
    (property_row : assessment_row) : bool :=
  match classify_property all_parcels crs codes_dict valid_codes 0 property_row with
  | Ok (Some _) => true
  | _ => false
  end.

End Outcome.

(** ** Facts about [Counter] and [most_common(1)] *)

Lemma filter_all {A} (P : A → Prop) `{!∀ x, Decision (P x)} (l : list A) :
  (∀ x, x ∈ l → P x) → filter P l = l.
Proof.
  induction l as [|a l IH]; intros HP; [done|].
  rewrite filter_cons_True by (apply HP; left).
  f_equal. apply IH. intros x Hx. apply HP. by right.
Qed.

Lemma tally_nil c : tally c [] = 0.
Proof. reflexivity. Qed.

Lemma tally_app c l1 l2 : tally c (l1 ++ l2) = tally c l1 + tally c l2.
Proof. unfold tally. by rewrite filter_app, length_app. Qed.

Lemma tally_cons c x l :
  tally c (x :: l) = (if decide (x = c) then 1 else 0) + tally c l.
Proof. unfold tally. rewrite filter_cons. by destruct (decide (x = c)). Qed.

Lemma tally_le_length c l : tally c l ≤ length l.
Proof. unfold tally. apply length_filter. Qed.

Lemma tally_pos c l : c ∈ l ↔ 0 < tally c l.
Proof.
  induction l as [|x l IH]; rewrite ?tally_cons.
  - split; [by intros ?%elem_of_nil | unfold tally; simpl; lia].
  - rewrite elem_of_cons, IH. destruct (decide (x = c)) as [->|Hne].
    + split; [lia | auto].
    + split; [intros [?|?]; [done | lia] | intros ?; right; lia].
Qed.

Lemma first_seen_elem x l : x ∈ first_seen l ↔ x ∈ l.
Proof.
  induction l as [|a l IH]; simpl; [done|].
  rewrite !elem_of_cons, list_elem_of_filter, IH.
  destruct (decide (x = a)); tauto.
Qed.

Lemma first_seen_NoDup l : NoDup (first_seen l).
Proof.
  induction l as [|a l IH]; simpl; [constructor|].
  constructor; [|by apply NoDup_filter].
  rewrite list_elem_of_filter. tauto.
Qed.

Lemma first_seen_app l1 l2 :
  first_seen (l1 ++ l2) = first_seen l1 ++ filter (λ y, y ∉ l1) (first_seen l2).
Proof.
  induction l1 as [|a l1 IH]; simpl.
  - symmetry. apply filter_all. intros x _. apply not_elem_of_nil.
  - f_equal. rewrite IH, filter_app. f_equal.
    rewrite list_filter_filter. apply list_filter_iff.
    intros x. rewrite not_elem_of_cons. tauto.
Qed.

Lemma Counter_snoc l x : Counter (l ++ [x]) = counter_incr x (Counter l).
Proof. unfold Counter. by rewrite foldl_app. Qed.

Lemma counter_incr_fmap (g : string → nat) x ks :
  NoDup ks →
  counter_incr x ((λ k, (k, g k)) <$> ks) =
  ((λ k, (k, if decide (k = x) then S (g k) else g k)) <$> ks)
    ++ (if decide (x ∈ ks) then [] else [(x, 1)]).
Proof.
  induction ks as [|k ks IH]; intros Hnd; csimpl.
  - destruct (decide (x ∈ [])) as [?%elem_of_nil|]; done.
  - apply NoDup_cons in Hnd as [Hk Hnd].
    destruct (decide (k = x)) as [->|Hne].
    + destruct (decide (x ∈ x :: ks)) as [_|Hn]; [|by destruct Hn; left].
      rewrite app_nil_r. f_equal.
      apply list_fmap_ext. intros i y Hy.
      destruct (decide (y = x)) as [->|]; [|done].
      destruct Hk. eapply list_elem_of_lookup_2; eauto.
    + rewrite (IH Hnd). f_equal.
      destruct (decide (x ∈ ks)), (decide (x ∈ k :: ks)) as [Hin|Hin]; try done.
      * destruct Hin. by right.
      * apply elem_of_cons in Hin as [?|?]; congruence.
Qed.

(** The counter lists the distinct codes in order of first occurrence,
    each with its number of occurrences. *)
Lemma Counter_first_seen l :
  Counter l = (λ k, (k, tally k l)) <$> first_seen l.
Proof.
  induction l as [|x l IH] using rev_ind; [done|].
  rewrite Counter_snoc, IH, counter_incr_fmap by apply first_seen_NoDup.
  rewrite first_seen_app. simpl. rewrite fmap_app.
  f_equal.
  - apply list_fmap_ext. intros i k _. f_equal.
    rewrite tally_app, tally_cons, tally_nil.
    destruct (decide (k = x)), (decide (x = k)); subst; try done; lia.
  - rewrite filter_cons, filter_nil.
    destruct (decide (x ∈ first_seen l)) as [Hin|Hin];
      rewrite first_seen_elem in Hin; destruct (decide (x ∉ l)); try done.
    simpl. f_equal. f_equal. rewrite tally_app, tally_cons, tally_nil.
    assert (tally x l = 0) as ->.
    { destruct (tally_pos x l) as [_ Hpos]. destruct (tally x l); [done|].
      destruct Hin. apply Hpos. lia. }
    destruct (decide (x = x)); [lia | done].
Qed.

Lemma py_max_by_spec {A} (key : A → nat) best l :
  ∃ l1 l2, best :: l = l1 ++ py_max_by key best l :: l2
    ∧ (∀ y, y ∈ l1 → key y < key (py_max_by key best l))
    ∧ (∀ y, y ∈ l2 → key y ≤ key (py_max_by key best l)).
Proof.
  revert best. induction l as [|x l IH]; intros best; simpl.
  - exists [], []. split; [done|]. split; intros y Hy; by apply elem_of_nil in Hy.
  - destruct (IH (if key best <? key x then x else best)) as (l1 & l2 & Heq & Hlt & Hle).
    destruct (Nat.ltb_spec (key best) (key x)) as [Hbx|Hbx].
    + exists (best :: l1), l2. split; [simpl; by rewrite <- Heq|]. split; [|exact Hle].
      intros y [->|Hy]%elem_of_cons; [|by apply Hlt].
      apply Nat.lt_le_trans with (key x); [done|].
      destruct l1 as [|b l1]; simpl in Heq; injection Heq as Hb Hl.
      * rewrite <- Hb. apply Nat.le_refl.
      * subst b. apply Nat.lt_le_incl, Hlt. left.
    + destruct l1 as [|b l1]; simpl in Heq; injection Heq as Hb Hl.
      * exists [], (x :: l2). rewrite <- Hb. split; [simpl; by rewrite Hl at 1|]. split.
        -- intros y Hy. by apply elem_of_nil in Hy.
        -- intros y [->|Hy]%elem_of_cons; [done|]. rewrite Hb. by apply Hle.
      * subst b. exists (best :: x :: l1), l2. split; [simpl; by rewrite Hl at 1|].
        split; [|exact Hle].
        intros y Hy. apply elem_of_cons in Hy as [->|Hy]; [apply Hlt; left|].
        apply elem_of_cons in Hy as [->|Hy]; [|apply Hlt; by right].
        apply Nat.le_lt_trans with (key best); [done | apply Hlt; left].
Qed.

Lemma split_at_first {A} (c : A) l1 l2 l1' l2' :
  l1 ++ c :: l2 = l1' ++ c :: l2' → c ∉ l1 → c ∉ l1' → l1 = l1'.
Proof.
  revert l1'. induction l1 as [|a l1 IH]; intros [|a' l1'] Heq Hn Hn'; simplify_eq/=.
  - done.
  - destruct Hn'. left.
  - destruct Hn. left.
  - f_equal. apply (IH l1'); [done| |].
    + intros ?. apply Hn. by right.
    + intros ?. apply Hn'. by right.
Qed.

(** A position in [first_seen l] is the position of a first occurrence in
    [l]: the codes before it are the codes met before it. *)
Lemma first_seen_split l n1 c n2 :
  first_seen l = n1 ++ c :: n2 →
  ∃ l1 l2, l = l1 ++ c :: l2 ∧ (c ∉ l1) ∧ (∀ y, y ∈ l1 → y ∈ n1).
Proof.
  intros Hfs.
  assert (c ∈ l) as Hc.
  { apply first_seen_elem. rewrite Hfs. apply elem_of_app. right. left. }
  destruct (list_elem_of_split_l l c Hc) as (l1 & l2 & -> & Hn).
  exists l1, l2. split; [done|]. split; [done|].
  rewrite first_seen_app in Hfs. simpl in Hfs.
  rewrite filter_cons_True in Hfs by done.
  pose proof (first_seen_NoDup (l1 ++ c :: l2)) as Hnd.
  rewrite first_seen_app in Hnd. simpl in Hnd.
  rewrite filter_cons_True in Hnd by done.
  assert (first_seen l1 = n1) as <-.
  { eapply split_at_first; [exact Hfs | by rewrite first_seen_elem |].
    rewrite Hfs in Hnd. apply NoDup_app in Hnd as (_ & Hdis & _).
    intros Hin. apply (Hdis c Hin). left. }
  intros y. by rewrite first_seen_elem.
Qed.

(** What [most_common(1)] of a counter returns: one pair, the plurality
    code with ties going to the code met first, and its number of votes. *)
Lemma most_common_1_Counter l c n rest :
  most_common_1 (Counter l) = (c, n) :: rest →
  rest = [] ∧ n = tally c l ∧ plurality_first c l.
Proof.
  rewrite Counter_first_seen. unfold most_common_1.
  destruct (first_seen l) as [|k ks] eqn:Hfs; [done|]. csimpl.
  intros Hm. injection Hm as Hm <-. split; [done|].
  destruct (py_max_by_spec snd (k, tally k l) ((λ k, (k, tally k l)) <$> ks))
    as (p1 & p2 & Heq & Hlt & Hle).
  rewrite Hm in Heq, Hlt, Hle. simpl in Hlt, Hle.
  change ((k, tally k l) :: ((λ k, (k, tally k l)) <$> ks))
    with ((λ k, (k, tally k l)) <$> (k :: ks)) in Heq.
  rewrite <- Hfs in Heq.
  apply fmap_app_inv in Heq as (n1 & n2' & -> & Hn2 & Hsplit).
  symmetry in Hn2. apply fmap_cons_inv in Hn2 as (c0 & n2 & Hc & -> & ->).
  injection Hc as Hc1 Hc2. subst c0 n.
  split; [done|]. split.
  - intros c'. destruct (decide (c' ∈ l)) as [Hin|Hin].
    + apply first_seen_elem in Hin. rewrite Hsplit in Hin.
      apply elem_of_app in Hin as [Hin|Hin].
      * apply Nat.lt_le_incl. apply (Hlt (c', tally c' l)).
        apply (list_elem_of_fmap_2 (λ k, (k, tally k l))). exact Hin.
      * apply elem_of_cons in Hin as [->|Hin]; [done|].
        apply (Hle (c', tally c' l)).
        apply (list_elem_of_fmap_2 (λ k, (k, tally k l))). exact Hin.
    + destruct (tally_pos c' l) as [_ Hpos]. destruct (tally c' l); [lia|].
      destruct Hin. apply Hpos. lia.
  - destruct (first_seen_split l n1 c n2 Hsplit) as (l1 & l2 & -> & Hn & Hsub).
    exists l1, l2. split; [done|]. split; [done|].
    intros c' Hc'. apply (Hlt (c', tally c' (l1 ++ c :: l2))).
    apply (list_elem_of_fmap_2 (λ k, (k, tally k (l1 ++ c :: l2)))). by apply Hsub.
Qed.

(** On a non-empty list of codes [most_common(1)] does return a pair. *)
Lemma most_common_1_nonempty l :
  l ≠ [] → ∃ c n, most_common_1 (Counter l) = [(c, n)].
Proof.
  intros Hl. destruct l as [|x l]; [done|].
  rewrite Counter_first_seen. simpl first_seen. rewrite fmap_cons.
  unfold most_common_1.
  match goal with
  | |- context [py_max_by ?k ?b ?r] => destruct (py_max_by k b r) as [c n]
  end.
  by exists c, n.
Qed.

Lemma first_occurrences_ordered {A} (c c' : A) l1 l2 l1' l2' :
  l1 ++ c :: l2 = l1' ++ c' :: l2' → c ≠ c' → c ∈ l1' ∨ c' ∈ l1.
Proof.
  revert l1'. induction l1 as [|a l1 IH]; intros [|a' l1'] Heq Hne; simplify_eq/=.
  - left. left.
  - right. left.
  - destruct (IH l1') as [?|?]; [done | done | left | right]; by right.
Qed.

(** The plurality code with first-met tie-break is unique. *)
Lemma plurality_first_unique c c' l :
  plurality_first c l → plurality_first c' l → c = c'.
Proof.
  intros [Hmax (l1 & l2 & Hl & _ & Hlt)] [Hmax' (l1' & l2' & Hl' & _ & Hlt')].
  destruct (decide (c = c')) as [|Hne]; [done|]. exfalso.
  assert (tally c l = tally c' l) as Heq.
  { apply Nat.le_antisymm; [apply Hmax' | apply Hmax]. }
  rewrite Hl in Hl'.
  destruct (first_occurrences_ordered c c' l1 l2 l1' l2' Hl' Hne) as [Hin|Hin].
  - specialize (Hlt' c Hin). lia.
  - specialize (Hlt c' Hin). lia.
Qed.

(** ** The neighbourhood the code computes *)

Section NeighbourhoodFacts.
Context {G CRS : Type} `{GeoBackend G CRS}.

Lemma select_intersects_mask (all_parcels : list (joined_row G)) buffer_geom mask :
  intersects_mask all_parcels buffer_geom = Ok mask →
  select mask all_parcels = filter (λ r, in_buffer buffer_geom r = true) all_parcels.
Proof.
  unfold intersects_mask.
  revert mask. induction all_parcels as [|r rows IH]; intros mask Hm; simpl in Hm.
  - by injection Hm as <-.
  - destruct (geometry r) as [g|] eqn:Hg.
    + destruct (intersects g buffer_geom) as [b|e] eqn:Hi; simpl in Hm; [|done].
      destruct (rmapM _ rows) as [bs|e] eqn:Hr; simpl in Hm; [|done].
      injection Hm as <-.
      assert (in_buffer buffer_geom r = b) as Hb
        by (unfold in_buffer; by rewrite Hg, Hi).
      simpl. rewrite (IH bs eq_refl).
      destruct b; [by rewrite filter_cons_True | rewrite filter_cons_False; [done|]].
      by rewrite Hb.
    + simpl in Hm. destruct (rmapM _ rows) as [bs|e] eqn:Hr; simpl in Hm; [|done].
      injection Hm as <-.
      assert (in_buffer buffer_geom r = false) as Hb
        by (unfold in_buffer; by rewrite Hg).
      simpl. rewrite (IH bs eq_refl). rewrite filter_cons_False; [done|].
      by rewrite Hb.
Qed.

(** [nearby_parcels], when it is computed, is the list of neighbours in
    the 100-unit buffer of the property's geometry. *)
Lemma nearby_parcels_of_neighbours (all_parcels : list (joined_row G)) g key nearby :
  nearby_parcels_of all_parcels g key = Ok nearby →
  ∃ buffer_geom, buffer g 100 = Ok buffer_geom
    ∧ nearby = neighbours all_parcels key buffer_geom.
Proof.
  unfold nearby_parcels_of. intros Hn.
  destruct (buffer g 100) as [buf|e] eqn:Hb; simpl in Hn; [|done].
  destruct (intersects_mask all_parcels buf) as [mask|e] eqn:Hm; simpl in Hn; [|done].
  injection Hn as <-. exists buf. split; [done|].
  rewrite (select_intersects_mask _ _ _ Hm). unfold neighbours.
  rewrite list_filter_filter. apply list_filter_iff. tauto.
Qed.

End NeighbourhoodFacts.

(** ** What an emitted suggestion tells about the run *)

Section Emitted.
Context {G CRS : Type} `{GeoBackend G CRS}.
Implicit Types (all_parcels : list (joined_row G)) (crs : option CRS).

Lemma vote_emitted codes_dict valid_codes n property_row latlng
    (nearby : list (joined_row G)) s :
  vote codes_dict valid_codes n property_row latlng nearby = Ok (Some s) →
  ∀ codes, codes = USE_CODE <$> nearby_valid_codes_of valid_codes nearby →
  codes ≠ []
  ∧ plurality_first (suggested_code s) codes
  ∧ confidence s
      = (inject_Z (Z.of_nat (tally (suggested_code s) codes))
         / inject_Z (Z.of_nat (length codes)))%Q
  ∧ suggested_code s ∈ valid_codes
  ∧ (lat s, lng s) = latlng
  ∧ nearby_count s = length nearby
  ∧ loc_id s = location_key property_row.
Proof.
  unfold vote. intros Hv codes Hcodes.
  destruct (decide (length nearby = 0)); [done|].
  destruct (decide (length (nearby_valid_codes_of valid_codes nearby) = 0)) as [|Hlen];
    [done|].
  rewrite <- Hcodes in Hv.
  destruct (most_common_1 (Counter codes)) as [|[code votes] rest] eqn:Hmc; [done|].
  apply most_common_1_Counter in Hmc as (-> & -> & Hpl).
  unfold py_truediv in Hv. rewrite decide_False in Hv by lia. simpl in Hv.
  destruct (decide (code ∉ valid_codes)) as [|Hin]; [done|].
  injection Hv as <-. simpl.
  split; [intros Hnil; apply Hlen; subst codes; apply fmap_nil_inv in Hnil; by rewrite Hnil|].
  split; [done|]. split; [by rewrite Hcodes, length_fmap|].
  split; [by apply dec_stable|]. split; [by destruct latlng|]. done.
Qed.

Lemma classify_emitted all_parcels crs codes_dict valid_codes n property_row s :
  classify_property all_parcels crs codes_dict valid_codes n property_row = Ok (Some s) →
  ∃ g nearby,
    subject_geometry all_parcels property_row = Some g
    ∧ (∃ x y, centroid g = Ok (x, y)
         ∧ centroid_latlng crs x y = Some (lat s, lng s))
    ∧ in_massachusetts (lat s) (lng s) = true
    ∧ nearby_parcels_of all_parcels g (location_key property_row) = Ok nearby
    ∧ vote codes_dict valid_codes n property_row (lat s, lng s) nearby = Ok (Some s).
Proof.
  unfold classify_property, subject_geometry, location_key. intros Hc.
  destruct (filter _ all_parcels) as [|pg rest]; [done|].
  destruct (geometry pg) as [g|]; [|done].
  destruct (centroid g) as [[x y]|e] eqn:Hxy; [|done]. simpl in Hc.
  destruct (centroid_latlng crs x y) as [[la ln]|] eqn:Hll; [|done].
  destruct (in_massachusetts la ln) eqn:Hbox; [|done]. simpl in Hc.
  destruct (nearby_parcels_of all_parcels g _) as [nearby|e] eqn:Hn; [|done].
  simpl in Hc. pose proof (vote_emitted _ _ _ _ _ _ _ Hc _ eq_refl) as Hv.
  destruct Hv as (_ & _ & _ & _ & Hlatlng & _). injection Hlatlng as -> ->.
  exists g, nearby. split; [done|]. split; [by exists x, y|]. done.
Qed.

(** The loop only ever appends what [classify_property] returned for one
    of its rows. *)
Lemma analysis_loop_results all_parcels crs codes_dict valid_codes tot count rows
    results st s :
  s ∈ (analysis_loop all_parcels crs codes_dict valid_codes tot count rows results st).1 →
  s ∈ results
  ∨ ∃ property_row n, property_row ∈ rows
      ∧ classify_property all_parcels crs codes_dict valid_codes n property_row
        = Ok (Some s).
Proof.
  revert count results st. induction rows as [|row rows IH]; intros count results st; simpl.
  - by left.
  - intros Hs. apply IH in Hs as [Hs|(row' & n & Hin & Hc)].
    + destruct (classify_property all_parcels crs codes_dict valid_codes
                  (length results) row) as [[r|]|e] eqn:Hc; [|by left|by left].
      apply elem_of_app in Hs as [Hs|Hs]; [by left|].
      apply list_elem_of_singleton in Hs as ->.
      right. exists row, (length results). split; [left | done].
    + right. exists row', n. split; [by right | done].
Qed.

Lemma perform_spatial_analysis_results (parcels_gdf : geodf G CRS) assessment_df
    non_matching_sample codes_dict valid_codes st s :
  s ∈ (perform_spatial_analysis parcels_gdf assessment_df non_matching_sample
         codes_dict valid_codes st).1 →
  ∃ property_row n, property_row ∈ non_matching_sample
    ∧ classify_property (build_all_parcels (gdf_rows parcels_gdf) assessment_df)
        (gdf_crs parcels_gdf) codes_dict valid_codes n property_row = Ok (Some s).
Proof.
  unfold perform_spatial_analysis.
  destruct (sample_coordinates (gdf_rows parcels_gdf)); simpl;
    [|by intros ?%elem_of_nil].
  destruct (analysis_loop _ _ _ _ _ _ _ _ _) as [results st'] eqn:Hloop. simpl.
  intros Hs.
  assert (s ∈ (analysis_loop (build_all_parcels (gdf_rows parcels_gdf) assessment_df)
                 (gdf_crs parcels_gdf) codes_dict valid_codes
                 (length non_matching_sample) 1 non_matching_sample []
                 (set_status "processing"
                    (set_total (length non_matching_sample) st))).1) as Hs'
    by (by rewrite Hloop).
  apply analysis_loop_results in Hs' as [?%elem_of_nil|?]; done.
Qed.

End Emitted.

(** ** The claims about emitted suggestions *)

Lemma vote_share_bounds (votes n : nat) :
  0 < votes → votes ≤ n →
  (0 < inject_Z (Z.of_nat votes) / inject_Z (Z.of_nat n)
   ∧ inject_Z (Z.of_nat votes) / inject_Z (Z.of_nat n) <= 1)%Q.
Proof.
  intros Hpos Hle.
  assert (0 < inject_Z (Z.of_nat n))%Q as Hn by (rewrite <- (Zlt_Qlt 0); lia).
  split.
  - apply Qlt_shift_div_l; [done|]. rewrite Qmult_0_l, <- (Zlt_Qlt 0). lia.
  - apply Qle_shift_div_r; [done|]. rewrite Qmult_1_l, <- Zle_Qle. lia.
Qed.

Section Claims.
Context {G CRS : Type} `{GeoBackend G CRS}.
Implicit Types (parcels_gdf : geodf G CRS) (assessment_df rows : list assessment_row).
Implicit Types (codes_dict : gmap string pyval) (valid_codes : gset string).

Local Abbreviation joined parcels_gdf assessment_df :=
  (build_all_parcels (gdf_rows parcels_gdf) assessment_df).

(** Every entry of [results] was voted for one row of the non-matching
    frame, over the neighbours in the 100-unit buffer of its geometry. *)
Lemma emitted_provenance parcels_gdf assessment_df rows codes_dict valid_codes st s :
  s ∈ (perform_spatial_analysis parcels_gdf assessment_df rows codes_dict valid_codes st).1 →
  ∃ property_row n g buffer_geom,
    property_row ∈ rows
    ∧ subject_geometry (joined parcels_gdf assessment_df) property_row = Some g
    ∧ (∃ x y, centroid g = Ok (x, y)
         ∧ centroid_latlng (gdf_crs parcels_gdf) x y = Some (lat s, lng s))
    ∧ in_massachusetts (lat s) (lng s) = true
    ∧ buffer g 100 = Ok buffer_geom
    ∧ vote codes_dict valid_codes n property_row (lat s, lng s)
        (neighbours (joined parcels_gdf assessment_df) (location_key property_row)
           buffer_geom)
      = Ok (Some s).
Proof.
  intros (row & n & Hin & Hc)%perform_spatial_analysis_results.
  apply classify_emitted in Hc as (g & nearby & Hg & Hll & Hbox & Hn & Hv).
  apply nearby_parcels_of_neighbours in Hn as (buf & Hb & ->).
  by exists row, n, g, buf.
Qed.

(** C1. For every emitted suggestion the suggested code is the plurality
    code among the valid-code neighbours found in the 100-unit buffer of
    its property: no code has more votes, and every code met earlier in
    the iteration order of the neighbours has strictly fewer votes, so a
    tie goes to the code met first. *)
Theorem suggested_code_is_first_plurality parcels_gdf assessment_df rows codes_dict
    valid_codes st s :
  s ∈ (perform_spatial_analysis parcels_gdf assessment_df rows codes_dict valid_codes st).1 →
  ∃ property_row g buffer_geom,
    property_row ∈ rows
    ∧ loc_id s = location_key property_row
    ∧ subject_geometry (joined parcels_gdf assessment_df) property_row = Some g
    ∧ buffer g 100 = Ok buffer_geom
    ∧ plurality_first (suggested_code s)
        (USE_CODE <$> valid_neighbours (joined parcels_gdf assessment_df) valid_codes
                        (location_key property_row) buffer_geom).
Proof.
  intros (row & n & g & buf & Hin & Hg & _ & _ & Hb & Hv)%emitted_provenance.
  destruct (vote_emitted _ _ _ _ _ _ _ Hv _ eq_refl) as (_ & Hpl & _ & _ & _ & _ & Hloc).
  by exists row, g, buf.
Qed.

(** C2. For every emitted suggestion the confidence is the number of
    votes for the suggested code divided by the number of valid-code
    neighbours, it lies in (0, 1], and the suggested code is in the
    valid-code set; and a property whose valid-code neighbour set is
    empty yields no suggestion. *)
Theorem confidence_is_vote_share parcels_gdf assessment_df rows codes_dict valid_codes st :
  (∀ s,
     s ∈ (perform_spatial_analysis parcels_gdf assessment_df rows codes_dict
            valid_codes st).1 →
     ∃ property_row g buffer_geom,
       property_row ∈ rows
       ∧ subject_geometry (joined parcels_gdf assessment_df) property_row = Some g
       ∧ buffer g 100 = Ok buffer_geom
       ∧ confidence s
         = (inject_Z (Z.of_nat
              (tally (suggested_code s)
                 (USE_CODE <$> valid_neighbours (joined parcels_gdf assessment_df)
                                 valid_codes (location_key property_row) buffer_geom)))
            / inject_Z (Z.of_nat
                (length (valid_neighbours (joined parcels_gdf assessment_df)
                           valid_codes (location_key property_row) buffer_geom))))%Q
       ∧ (0 < confidence s)%Q ∧ (confidence s <= 1)%Q
       ∧ suggested_code s ∈ valid_codes)
  ∧ (∀ property_row n g buffer_geom,
       subject_geometry (joined parcels_gdf assessment_df) property_row = Some g →
       buffer g 100 = Ok buffer_geom →
       valid_neighbours (joined parcels_gdf assessment_df) valid_codes
         (location_key property_row) buffer_geom = [] →
       ∀ s, classify_property (joined parcels_gdf assessment_df) (gdf_crs parcels_gdf)
              codes_dict valid_codes n property_row ≠ Ok (Some s)).
Proof.
  split.
  - intros s (row & n & g & buf & Hin & Hg & _ & _ & Hb & Hv)%emitted_provenance.
    destruct (vote_emitted _ _ _ _ _ _ _ Hv _ eq_refl)
      as (Hne & Hpl & Hconf & Hvalid & _).
    exists row, g, buf. rewrite length_fmap in Hconf.
    unfold nearby_valid_codes_of in Hpl, Hconf. unfold valid_neighbours.
    split; [done|]. split; [done|]. split; [done|]. split; [exact Hconf|].
    cut ((0 < confidence s)%Q ∧ (confidence s <= 1)%Q); [tauto|].
    revert Hconf. generalize (confidence s). intros q ->.
    rewrite <- (length_fmap USE_CODE). apply vote_share_bounds.
    + apply tally_pos. destruct Hpl as [_ (l1 & l2 & Hl & _)].
      rewrite Hl. apply elem_of_app. right. left.
    + apply tally_le_length.
  - intros row n g buf Hg Hb Hempty s Hc.
    apply classify_emitted in Hc as (g' & nearby & Hg' & _ & _ & Hn & Hv).
    rewrite Hg in Hg'. injection Hg' as <-.
    apply nearby_parcels_of_neighbours in Hn as (buf' & Hb' & ->).
    rewrite Hb in Hb'. injection Hb' as <-.
    destruct (vote_emitted _ _ _ _ _ _ _ Hv _ eq_refl) as (Hne & _).
    apply Hne. unfold valid_neighbours in Hempty.
    unfold nearby_valid_codes_of. by rewrite Hempty.
Qed.

Lemma Qltb_false a b : Qltb a b = false ↔ (b <= a)%Q.
Proof.
  unfold Qltb. rewrite negb_false_iff. apply Qle_bool_iff.
Qed.

Lemma in_massachusetts_spec la ln :
  in_massachusetts la ln = true ↔ (41 <= la ∧ la <= 43 ∧ -74 <= ln ∧ ln <= -69)%Q.
Proof.
  unfold in_massachusetts. rewrite !andb_true_iff, !Qle_bool_iff. tauto.
Qed.

Lemma classify_no_latlng (all_parcels : list (joined_row G)) crs codes_dict valid_codes
    n property_row g x y :
  subject_geometry all_parcels property_row = Some g →
  centroid g = Ok (x, y) →
  centroid_latlng crs x y = None →
  classify_property all_parcels crs codes_dict valid_codes n property_row = Ok None.
Proof.
  unfold subject_geometry, classify_property, location_key. intros Hg Hxy Hll.
  destruct (filter _ all_parcels) as [|pg rest]; [done|]. rewrite Hg, Hxy.
  simpl. by rewrite Hll.
Qed.

Lemma classify_out_of_region (all_parcels : list (joined_row G)) crs codes_dict
    valid_codes n property_row g x y la ln :
  subject_geometry all_parcels property_row = Some g →
  centroid g = Ok (x, y) →
  centroid_latlng crs x y = Some (la, ln) →
  in_massachusetts la ln = false →
  classify_property all_parcels crs codes_dict valid_codes n property_row = Ok None.
Proof.
  unfold subject_geometry, classify_property, location_key. intros Hg Hxy Hll Hbox.
  destruct (filter _ all_parcels) as [|pg rest]; [done|]. rewrite Hg, Hxy.
  simpl. by rewrite Hll, Hbox.
Qed.

(** C4. A centroid with |x| <= 1000 and |y| <= 1000 is taken as
    geographic, lat = y and lng = x, whatever the reference system and
    the reprojection would do; any other centroid is reprojected with the
    dataset's reference system, and the property is skipped when there is
    none; and a property whose (lat, lng) falls outside 41..43, -74..-69
    is skipped, so that every emitted suggestion lies inside the box. A
    property whose centroid has no coordinates to read raises and is not
    emitted either. *)
Theorem centroid_normalisation parcels_gdf assessment_df rows codes_dict valid_codes st :
  (∀ crs x y, (Qabs x <= 1000)%Q → (Qabs y <= 1000)%Q →
     centroid_latlng crs x y = Some (y, x))
  ∧ (∀ crs x y, ¬ ((Qabs x <= 1000)%Q ∧ (Qabs y <= 1000)%Q) →
       centroid_latlng crs x y =
         match crs with
         | Some c =>
             match to_crs c (x, y) with
             | Ok (lng, lat) => Some (lat, lng)
             | Raise _ => None
             end
         | None => None
         end)
  ∧ (∀ n property_row g x y,
       subject_geometry (joined parcels_gdf assessment_df) property_row = Some g →
       centroid g = Ok (x, y) →
       ¬ ((Qabs x <= 1000)%Q ∧ (Qabs y <= 1000)%Q) →
       gdf_crs parcels_gdf = None →
       classify_property (joined parcels_gdf assessment_df) (gdf_crs parcels_gdf)
         codes_dict valid_codes n property_row = Ok None)
  ∧ (∀ n property_row g x y la ln,
       subject_geometry (joined parcels_gdf assessment_df) property_row = Some g →
       centroid g = Ok (x, y) →
       centroid_latlng (gdf_crs parcels_gdf) x y = Some (la, ln) →
       ¬ (41 <= la ∧ la <= 43 ∧ -74 <= ln ∧ ln <= -69)%Q →
       classify_property (joined parcels_gdf assessment_df) (gdf_crs parcels_gdf)
         codes_dict valid_codes n property_row = Ok None)
  ∧ (∀ s,
       s ∈ (perform_spatial_analysis parcels_gdf assessment_df rows codes_dict
              valid_codes st).1 →
       (41 <= lat s ∧ lat s <= 43 ∧ -74 <= lng s ∧ lng s <= -69)%Q
       ∧ ∃ property_row g x y,
           property_row ∈ rows
           ∧ subject_geometry (joined parcels_gdf assessment_df) property_row = Some g
           ∧ centroid g = Ok (x, y)
           ∧ centroid_latlng (gdf_crs parcels_gdf) x y = Some (lat s, lng s))
  ∧ (∀ n property_row g e,
       subject_geometry (joined parcels_gdf assessment_df) property_row = Some g →
       centroid g = Raise e →
       classify_property (joined parcels_gdf assessment_df) (gdf_crs parcels_gdf)
         codes_dict valid_codes n property_row = Raise e).
Proof.
  assert (∀ x y, Qltb 1000 (Qabs x) || Qltb 1000 (Qabs y) = false
                 ↔ (Qabs x <= 1000)%Q ∧ (Qabs y <= 1000)%Q) as Hsmall.
  { intros x y. by rewrite orb_false_iff, !Qltb_false. }
  split; [|split; [|split; [|split; [|split]]]].
  - intros crs x y Hx Hy. unfold centroid_latlng.
    by rewrite (proj2 (Hsmall x y) (conj Hx Hy)).
  - intros crs x y Hbig. unfold centroid_latlng.
    destruct (Qltb 1000 (Qabs x) || Qltb 1000 (Qabs y)) eqn:Hb.
    + destruct crs as [c|]; [|done]. by destruct (to_crs c (x, y)) as [[tx ty]|].
    + destruct Hbig. by apply Hsmall.
  - intros n row g x y Hg Hxy Hbig Hcrs. apply classify_no_latlng with g x y; [done|done|].
    rewrite Hcrs. unfold centroid_latlng.
    destruct (Qltb 1000 _ || Qltb 1000 _) eqn:Hb; [done|].
    destruct Hbig. by apply Hsmall.
  - intros n row g x y la ln Hg Hxy Hll Hout.
    apply classify_out_of_region with g x y la ln; [done|done|done|].
    destruct (in_massachusetts la ln) eqn:Hbox; [|done].
    destruct Hout. by apply in_massachusetts_spec.
  - intros s (row & n & g & buf & Hin & Hg & (x & y & Hxy & Hll) & Hbox & _)%emitted_provenance.
    split; [by apply in_massachusetts_spec|]. by exists row, g, x, y.
  - intros n row g e. unfold subject_geometry, classify_property, location_key.
    intros Hg Hxy.
    destruct (filter _ (joined parcels_gdf assessment_df)) as [|pg rest]; [done|].
    by rewrite Hg, Hxy.
Qed.

(** C5. No joined record carrying the property's location key is among
    its neighbours or among its voters, however many records share that
    key; for an emitted suggestion neither the neighbour count nor the
    vote includes a record of the property's own key. *)
Theorem self_exclusion parcels_gdf assessment_df rows codes_dict valid_codes st :
  (∀ property_row g nearby r,
     nearby_parcels_of (joined parcels_gdf assessment_df) g (location_key property_row)
       = Ok nearby →
     LOC_ID r = location_key property_row →
     (r ∉ nearby) ∧ (r ∉ nearby_valid_codes_of valid_codes nearby))
  ∧ (∀ s,
       s ∈ (perform_spatial_analysis parcels_gdf assessment_df rows codes_dict
              valid_codes st).1 →
       ∃ property_row n g nearby,
         property_row ∈ rows
         ∧ loc_id s = location_key property_row
         ∧ subject_geometry (joined parcels_gdf assessment_df) property_row = Some g
         ∧ nearby_parcels_of (joined parcels_gdf assessment_df) g
             (location_key property_row) = Ok nearby
         ∧ vote codes_dict valid_codes n property_row (lat s, lng s) nearby
           = Ok (Some s)
         ∧ nearby_count s = length nearby
         ∧ ∀ r, r ∈ nearby → LOC_ID r ≠ loc_id s).
Proof.
  assert (∀ all_parcels key g (nearby : list (joined_row G)) r,
            nearby_parcels_of all_parcels g key = Ok nearby →
            r ∈ nearby → LOC_ID r ≠ key) as Hexcl.
  { intros all_parcels key g nearby r Hn Hr.
    apply nearby_parcels_of_neighbours in Hn as (buf & _ & ->).
    unfold neighbours in Hr. apply list_elem_of_filter in Hr. tauto. }
  split.
  - intros row g nearby r Hn Hkey. split.
    + intros Hr. by apply (Hexcl _ _ _ _ _ Hn Hr).
    + intros Hr. apply list_elem_of_filter in Hr as [_ Hr].
      by apply (Hexcl _ _ _ _ _ Hn Hr).
  - intros s (row & n & Hin & Hc)%perform_spatial_analysis_results.
    apply classify_emitted in Hc as (g & nearby & Hg & _ & _ & Hn & Hv).
    destruct (vote_emitted _ _ _ _ _ _ _ Hv _ eq_refl)
      as (_ & _ & _ & _ & _ & Hcount & Hloc).
    exists row, n, g, nearby. repeat (split; [done|]).
    intros r Hr. rewrite Hloc. by apply (Hexcl _ _ _ _ _ Hn Hr).
Qed.

End Claims.

(** ** Truncation of use codes *)

Lemma substring_length_le n m s : String.length (String.substring n m s) ≤ m.
Proof.
  revert n m. induction s as [|c s IH]; intros [|n] [|m]; simpl; try lia.
  - specialize (IH 0 m). lia.
  - apply (IH n 0).
  - apply (IH n (S m)).
Qed.

Lemma substring_prefix_idem m s :
  String.substring 0 m (String.substring 0 m s) = String.substring 0 m s.
Proof.
  revert s. induction m as [|m IH]; intros [|c s]; simpl; try done.
  by rewrite IH.
Qed.

Lemma str_slice3_length s : String.length (str_slice3 s) ≤ 3.
Proof. apply substring_length_le. Qed.

Lemma str_slice3_idem s : str_slice3 (str_slice3 s) = str_slice3 s.
Proof. apply substring_prefix_idem. Qed.

(** [s[:n]] is the first [n] characters of [s]. *)
Lemma substring_first_chars n s : String.substring 0 n s = first_chars n s.
Proof.
  revert s. induction n as [|n IH]; intros [|c s]; try done.
  unfold first_chars. simpl. f_equal. apply IH.
Qed.

Lemma first_chars_prefix n s : ∃ rest, s = first_chars n s +:+ rest.
Proof.
  revert s. induction n as [|n IH]; intros s; [by exists s|].
  destruct s as [|c s]; [by exists ""|].
  destruct (IH s) as [rest Hrest]. exists rest.
  change (String c s = String c (first_chars n s +:+ rest)). by rewrite <- Hrest.
Qed.

Lemma first_chars_length n s :
  String.length (first_chars n s) = n `min` String.length s.
Proof.
  revert s. induction n as [|n IH]; intros [|c s]; try done.
  unfold first_chars in *. simpl. by rewrite IH.
Qed.

Lemma non_matching_truncated valid_codes (raw : list assessment_row) :
  non_matching valid_codes (truncate_use_code <$> raw)
  = truncate_use_code
      <$> filter (λ a, str_slice3 (py_str (a_USE_CODE a)) ∉ valid_codes) raw.
Proof.
  unfold non_matching. induction raw as [|a raw IH]; [done|].
  rewrite fmap_cons, !filter_cons, IH. simpl.
  destruct (decide (bool_decide (str_slice3 (py_str (a_USE_CODE a)) ∈ valid_codes) = false))
    as [Hb|Hb]; destruct (decide (str_slice3 (py_str (a_USE_CODE a)) ∉ valid_codes))
    as [Hn|Hn]; try done.
  - apply bool_decide_eq_false in Hb. done.
  - destruct Hb. by apply bool_decide_eq_false.
Qed.

Section Joined.
Context {G : Type}.

(** Every joined record comes from an assessment record of the same key,
    and its use code is that record's, cut to three characters. *)
Lemma build_all_parcels_elem (parcels : list (parcel_row G)) assessment_df r :
  r ∈ build_all_parcels parcels assessment_df →
  ∃ p a, p ∈ parcels ∧ a ∈ assessment_df
    ∧ py_str (a_LOC_ID a) = py_str (p_LOC_ID p)
    ∧ LOC_ID r = py_str (p_LOC_ID p)
    ∧ geometry r = p_geometry p
    ∧ USE_CODE r = str_slice3 (py_str (a_USE_CODE a)).
Proof.
  unfold build_all_parcels, merge_inner.
  intros (j & -> & Hj)%list_elem_of_fmap.
  apply list_elem_of_bind in Hj as (p' & Hj & Hp').
  apply list_elem_of_fmap in Hp' as (p & -> & Hp).
  apply list_elem_of_fmap in Hj as (a' & -> & Ha').
  apply list_elem_of_filter in Ha' as [Hkey Ha'].
  apply list_elem_of_fmap in Ha' as (a & -> & Ha).
  exists p, a. simpl in *. injection Hkey as Hkey. done.
Qed.

End Joined.

(** ** The loop: results and progress *)

Lemma history_write f st : history (write f st) = history st ++ [f (now st)].
Proof. unfold history, write. simpl. by rewrite (reverse_cons _ (f (now st))). Qed.

Section Loop.
Context {G CRS : Type} `{GeoBackend G CRS}.
Implicit Types (all_parcels : list (joined_row G)) (crs : option CRS).
Implicit Types (rows : list assessment_row) (results : list suggestion).

(** The results do not depend on the counter or on the progress store. *)
Lemma analysis_loop_results_indep all_parcels crs codes_dict valid_codes
    tot tot' count count' rows results st st' :
  (analysis_loop all_parcels crs codes_dict valid_codes tot count rows results st).1
  = (analysis_loop all_parcels crs codes_dict valid_codes tot' count' rows results st').1.
Proof.
  revert count count' results st st'.
  induction rows as [|row rows IH]; intros count count' results st st'; [done|].
  simpl. apply IH.
Qed.

Lemma analysis_loop_app all_parcels crs codes_dict valid_codes tot count rows1 rows2
    results st :
  (analysis_loop all_parcels crs codes_dict valid_codes tot count (rows1 ++ rows2)
     results st).1
  = (analysis_loop all_parcels crs codes_dict valid_codes tot count rows2
       (analysis_loop all_parcels crs codes_dict valid_codes tot count rows1 results st).1
       st).1.
Proof.
  revert count results st.
  induction rows1 as [|row rows1 IH]; intros count results st; [done|].
  simpl. rewrite IH. apply analysis_loop_results_indep.
Qed.

Lemma analysis_loop_length all_parcels crs codes_dict valid_codes tot count rows
    results st :
  length (analysis_loop all_parcels crs codes_dict valid_codes tot count rows results st).1
  ≤ length results + length rows.
Proof.
  revert count results st.
  induction rows as [|row rows IH]; intros count results st; simpl; [lia|].
  etrans; [apply IH|].
  destruct (classify_property _ _ _ _ _ _) as [[r|]|e]; rewrite ?length_app; simpl; lia.
Qed.

Lemma perform_spatial_analysis_length (parcels_gdf : geodf G CRS) assessment_df rows
    codes_dict valid_codes st :
  length (perform_spatial_analysis parcels_gdf assessment_df rows codes_dict
            valid_codes st).1 ≤ length rows.
Proof.
  unfold perform_spatial_analysis.
  destruct (sample_coordinates _); simpl; [|lia].
  pose proof (analysis_loop_length
                (build_all_parcels (gdf_rows parcels_gdf) assessment_df)
                (gdf_crs parcels_gdf) codes_dict valid_codes (length rows) 1 rows []
                (set_status "processing" (set_total (length rows) st))) as Hlen.
  by destruct (analysis_loop _ _ _ _ _ _ _ _ _) as [results st'].
Qed.

(** Whether a property gets a suggestion, nothing or an exception does
    not depend on the number of results so far, which only goes into the
    [id] of the suggestion. *)
Lemma vote_outcome_indep codes_dict valid_codes n m property_row latlng
    (nearby : list (joined_row G)) :
  match vote codes_dict valid_codes n property_row latlng nearby,
        vote codes_dict valid_codes m property_row latlng nearby with
  | Ok (Some _), Ok (Some _) | Ok None, Ok None => True
  | Raise e, Raise e' => e = e'
  | _, _ => False
  end.
Proof.
  unfold vote. destruct (decide (length nearby = 0)); [done|].
  destruct (decide (length _ = 0)); [done|].
  destruct (most_common_1 _) as [|[code votes] rest]; [done|].
  destruct (py_truediv _ _) as [conf|e]; [|done]. simpl.
  by destruct (decide (code ∉ valid_codes)).
Qed.

Lemma classify_outcome_indep all_parcels crs codes_dict valid_codes n m property_row :
  match classify_property all_parcels crs codes_dict valid_codes n property_row,
        classify_property all_parcels crs codes_dict valid_codes m property_row with
  | Ok (Some _), Ok (Some _) | Ok None, Ok None => True
  | Raise e, Raise e' => e = e'
  | _, _ => False
  end.
Proof.
  unfold classify_property.
  destruct (filter _ all_parcels) as [|pg rest]; [done|].
  destruct (geometry pg) as [g|]; [|done].
  destruct (centroid g) as [[x y]|e]; [|done]. simpl.
  destruct (centroid_latlng crs x y) as [[la ln]|]; [|done].
  destruct (in_massachusetts la ln); [|done]. simpl.
  destruct (nearby_parcels_of all_parcels g _) as [nearby|e]; [|done]. simpl.
  apply vote_outcome_indep.
Qed.

Lemma gets_suggestion_at all_parcels crs codes_dict valid_codes n property_row :
  gets_suggestion all_parcels crs codes_dict valid_codes property_row = true
  ↔ ∃ s, classify_property all_parcels crs codes_dict valid_codes n property_row
         = Ok (Some s).
Proof.
  unfold gets_suggestion.
  pose proof (classify_outcome_indep all_parcels crs codes_dict valid_codes 0 n
                property_row) as Hind.
  destruct (classify_property all_parcels crs codes_dict valid_codes 0 property_row)
    as [[s0|]|e0];
    destruct (classify_property all_parcels crs codes_dict valid_codes n property_row)
      as [[s|]|e]; try done.
  - split; [by exists s | done].
  - split; [done | by intros [s ?]].
  - split; [done | by intros [s ?]].
Qed.

(** The loop appends one suggestion for each row that gets one, in the
    order of the rows, and nothing for the others. *)
Lemma analysis_loop_exact all_parcels crs codes_dict valid_codes tot count rows
    results st :
  ∃ new,
    (analysis_loop all_parcels crs codes_dict valid_codes tot count rows results st).1
    = results ++ new
    ∧ Forall2 (λ row s, ∃ n, classify_property all_parcels crs codes_dict valid_codes
                               n row = Ok (Some s))
        (filter (λ row, gets_suggestion all_parcels crs codes_dict valid_codes row = true)
           rows)
        new.
Proof.
  revert count results st. induction rows as [|row rows IH]; intros count results st.
  - exists []. simpl. rewrite app_nil_r. split; [done | constructor].
  - simpl.
    destruct (classify_property all_parcels crs codes_dict valid_codes (length results) row)
      as [[r|]|e] eqn:Hc.
    + destruct (IH (S count) (results ++ [r])
                  (set_message ("Analyzing property " +:+ pretty count +:+ " of "
                                  +:+ pretty tot) (set_current count st)))
        as (new & Heq & Hall).
      exists (r :: new). rewrite Heq, <- app_assoc. split; [done|].
      rewrite filter_cons_True by (apply (gets_suggestion_at _ _ _ _ (length results)); eauto).
      constructor; eauto.
    + destruct (IH (S count) results
                  (set_message ("Analyzing property " +:+ pretty count +:+ " of "
                                  +:+ pretty tot) (set_current count st)))
        as (new & Heq & Hall).
      exists new. split; [done|].
      rewrite filter_cons_False; [done|].
      intros [s Hs]%(gets_suggestion_at _ _ _ _ (length results)). congruence.
    + destruct (IH (S count) results
                  (set_message ("Analyzing property " +:+ pretty count +:+ " of "
                                  +:+ pretty tot) (set_current count st)))
        as (new & Heq & Hall).
      exists new. split; [done|].
      rewrite filter_cons_False; [done|].
      intros [s Hs]%(gets_suggestion_at _ _ _ _ (length results)). congruence.
Qed.

Lemma perform_spatial_analysis_exact (parcels_gdf : geodf G CRS) assessment_df rows
    codes_dict valid_codes st :
  sample_coordinates (gdf_rows parcels_gdf) = Ok () →
  Forall2 (λ row s, ∃ n,
             classify_property (build_all_parcels (gdf_rows parcels_gdf) assessment_df)
               (gdf_crs parcels_gdf) codes_dict valid_codes n row = Ok (Some s))
    (filter (λ row, gets_suggestion (build_all_parcels (gdf_rows parcels_gdf) assessment_df)
                      (gdf_crs parcels_gdf) codes_dict valid_codes row = true) rows)
    (perform_spatial_analysis parcels_gdf assessment_df rows codes_dict valid_codes st).1.
Proof.
  intros Hsample. unfold perform_spatial_analysis. rewrite Hsample.
  destruct (analysis_loop_exact
              (build_all_parcels (gdf_rows parcels_gdf) assessment_df)
              (gdf_crs parcels_gdf) codes_dict valid_codes (length rows) 1 rows []
              (set_status "processing" (set_total (length rows) st)))
    as (new & Heq & Hall).
  destruct (analysis_loop _ _ _ _ _ _ _ _ _) as [results st']. simpl in *. by subst.
Qed.

(** While the loop runs only [current] and [message] are written: two
    snapshots per property, [status] and [total] as they were. *)
Lemma analysis_loop_history all_parcels crs codes_dict valid_codes tot count rows
    results st :
  ∃ mid,
    history (analysis_loop all_parcels crs codes_dict valid_codes tot count rows
               results st).2 = history st ++ mid
    ∧ length mid = 2 * length rows
    ∧ Forall (λ p, status p = status (now st) ∧ total p = total (now st)) mid
    ∧ status (now (analysis_loop all_parcels crs codes_dict valid_codes tot count rows
                     results st).2) = status (now st)
    ∧ total (now (analysis_loop all_parcels crs codes_dict valid_codes tot count rows
                    results st).2) = total (now st)
    ∧ (rows ≠ [] →
       current (now (analysis_loop all_parcels crs codes_dict valid_codes tot count rows
                       results st).2) = count + length rows - 1).
Proof.
  revert count results st.
  induction rows as [|row rows IH]; intros count results st.
  - exists []. simpl. rewrite app_nil_r. repeat split; done.
  - simpl.
    set (st1 := set_message _ (set_current count st)).
    set (results1 := match classify_property _ _ _ _ _ _ with
                     | Ok (Some r) => results ++ [r]
                     | _ => results
                     end).
    destruct (IH (S count) results1 st1) as (mid & Hh & Hlen & Hall & Hst & Htot & Hcur).
    exists (now (set_current count st) :: now st1 :: mid).
    split; [|split; [|split; [|split; [|split]]]].
    + rewrite Hh. subst st1. unfold set_message, set_current.
      rewrite !history_write. by rewrite <- !app_assoc.
    + simpl. lia.
    + repeat constructor; done.
    + by rewrite Hst.
    + by rewrite Htot.
    + intros _. destruct rows as [|row' rows]; [simpl; lia|].
      rewrite Hcur by done. simpl. lia.
Qed.

End Loop.

(** ** The orchestrator *)

Section Run.
Context {G CRS : Type} `{GeoBackend G CRS}.
Implicit Types (db : geodatabase G CRS) (csv : result dataframe) (st : store).

(** [analyze_gdb] once both layers are found. *)
Lemma analyze_gdb_unfold csv db st assessment_layer parcel_layer :
  find_layers (list_layers db) = (Some assessment_layer, Some parcel_layer) →
  ∀ assessment_df non_matching_df run,
    assessment_df = truncate_use_code <$> read_attributes db assessment_layer →
    non_matching_df
      = non_matching (dom (load_classification_codes csv)) assessment_df →
    run = (if decide (0 < length non_matching_df)
           then perform_spatial_analysis (read_parcels db parcel_layer) assessment_df
                  non_matching_df (load_classification_codes csv)
                  (dom (load_classification_codes csv)) st
           else ([], st)) →
    analyze_gdb csv db st
    = (match py_truediv (Z.of_nat (length assessment_df)
                          - Z.of_nat (length non_matching_df))
               (Z.of_nat (length assessment_df)) with
       | Raise e => Raise e
       | Ok ratio =>
           Ok {| success := true;
                 total_properties := length assessment_df;
                 non_matching_count := length non_matching_df;
                 analyzed_count := length run.1;
                 high_confidence_count :=
                   length (filter (λ p, Qltb (7 # 10) (confidence p) = true) run.1);
                 properties := run.1;
                 match_percentage := (ratio * 100)%Q;
                 assessment_data :=
                   if decide (0 < length non_matching_df)
                   then stringify_loc <$> assessment_df else assessment_df |}
       end, run.2).
Proof.
  intros Hfind adf nm run -> -> ->. unfold analyze_gdb. rewrite Hfind.
  destruct (decide (0 < _)) as [Hpos|Hpos].
  - destruct (perform_spatial_analysis _ _ _ _ _ _) as [results st']. simpl.
    by destruct (py_truediv _ _).
  - simpl. by destruct (py_truediv _ _).
Qed.

(** With both layers found and at least one assessment record the run
    returns its summary, whatever the geometry backend raised. *)
Lemma analyze_gdb_returns csv db st assessment_layer parcel_layer :
  find_layers (list_layers db) = (Some assessment_layer, Some parcel_layer) →
  read_attributes db assessment_layer ≠ [] →
  ∃ a,
    (analyze_gdb csv db st).1 = Ok a
    ∧ total_properties a = length (read_attributes db assessment_layer)
    ∧ non_matching_count a
      = length (non_matching (dom (load_classification_codes csv))
                  (truncate_use_code <$> read_attributes db assessment_layer))
    ∧ analyzed_count a = length (properties a)
    ∧ analyzed_count a ≤ non_matching_count a
    ∧ match_percentage a
      = (inject_Z (Z.of_nat (total_properties a) - Z.of_nat (non_matching_count a))
         / inject_Z (Z.of_nat (total_properties a)) * 100)%Q.
Proof.
  intros Hfind Hne.
  rewrite (analyze_gdb_unfold csv db st _ _ Hfind _ _ _ eq_refl eq_refl eq_refl).
  unfold py_truediv. rewrite decide_False.
  2:{ rewrite length_fmap. destruct (read_attributes db assessment_layer); [done|].
      simpl. lia. }
  eexists. split; [reflexivity|]. simpl. rewrite !length_fmap.
  split; [done|]. split; [done|]. split; [done|]. split; [|done].
  destruct (decide (0 < _)) as [Hpos|Hpos]; simpl; [|lia].
  unfold perform_spatial_analysis.
  destruct (sample_coordinates _); simpl; [|lia].
  destruct (analysis_loop _ _ _ _ _ _ _ _ _) as [results st'] eqn:Hloop. simpl.
  pose proof (analysis_loop_length
                (build_all_parcels (gdf_rows (read_parcels db parcel_layer))
                   (truncate_use_code <$> read_attributes db assessment_layer))
                (gdf_crs (read_parcels db parcel_layer))
                (load_classification_codes csv)
                (dom (load_classification_codes csv))
                (length (non_matching (dom (load_classification_codes csv))
                   (truncate_use_code <$> read_attributes db assessment_layer)))
                1
                (non_matching (dom (load_classification_codes csv))
                   (truncate_use_code <$> read_attributes db assessment_layer))
                []
                (set_status "processing"
                   (set_total
                      (length (non_matching (dom (load_classification_codes csv))
                         (truncate_use_code <$> read_attributes db assessment_layer)))
                      st))) as Hlen.
  rewrite Hloop in Hlen. simpl in Hlen. done.
Qed.

(** C3 (what the code does on an empty assessment layer). With no
    assessment record the totals are 0 and 0 and the percentage
    [(0 - 0) / 0 * 100] raises ZeroDivisionError: the run fails instead
    of reporting a percentage. *)
Theorem empty_assessment_layer_divides_by_zero csv db st assessment_layer parcel_layer :
  find_layers (list_layers db) = (Some assessment_layer, Some parcel_layer) →
  read_attributes db assessment_layer = [] →
  analyze_gdb csv db st = (Raise ZeroDivisionError, st).
Proof.
  intros Hfind Hempty.
  rewrite (analyze_gdb_unfold csv db st _ _ Hfind _ _ _ eq_refl eq_refl eq_refl).
  by rewrite Hempty.
Qed.

End Run.

Section RunClaims.
Context {G CRS : Type} `{GeoBackend G CRS}.
Implicit Types (db : geodatabase G CRS) (csv : result dataframe) (st : store).
Implicit Types (parcels_gdf : geodf G CRS) (assessment_df rows : list assessment_row).

(** C6. Codes are compared with the reference keys only after they are
    cut to their first three characters, a prefix of the code that is
    three characters long unless the code itself is shorter. The matching
    partition of [analyze_gdb] tests the first three characters of each
    stringified assessment code, and the frame it works on carries the
    codes in that form; every record of the joined dataset carries the
    first three characters of the code of an assessment record of its
    key, whatever the form of the codes that went into the join; so every
    neighbour that votes, and every suggested code, is the first three
    characters of an assessment code. *)
Theorem use_codes_compared_truncated csv db st assessment_layer parcel_layer
    parcels_gdf assessment_df :
  find_layers (list_layers db) = (Some assessment_layer, Some parcel_layer) →
  read_attributes db assessment_layer ≠ [] →
  (∀ s, (∃ rest, s = first_chars 3 s +:+ rest)
        ∧ String.length (first_chars 3 s) = 3 `min` String.length s)
  ∧ (∃ a, (analyze_gdb csv db st).1 = Ok a
       ∧ non_matching_count a
         = length (filter (λ r, first_chars 3 (py_str (a_USE_CODE r))
                                  ∉ dom (load_classification_codes csv))
                     (read_attributes db assessment_layer))
       ∧ a_USE_CODE <$> assessment_data a
         = (λ r, PStr (first_chars 3 (py_str (a_USE_CODE r))))
             <$> read_attributes db assessment_layer)
  ∧ (∀ r, r ∈ build_all_parcels (gdf_rows parcels_gdf) assessment_df →
       String.length (USE_CODE r) ≤ 3
       ∧ first_chars 3 (USE_CODE r) = USE_CODE r
       ∧ ∃ a, a ∈ assessment_df ∧ py_str (a_LOC_ID a) = LOC_ID r
           ∧ USE_CODE r = first_chars 3 (py_str (a_USE_CODE a)))
  ∧ (∀ valid_codes key buffer_geom r,
       r ∈ valid_neighbours (build_all_parcels (gdf_rows parcels_gdf) assessment_df)
             valid_codes key buffer_geom →
       USE_CODE r ∈ valid_codes
       ∧ String.length (USE_CODE r) ≤ 3
       ∧ ∃ a, a ∈ assessment_df ∧ py_str (a_LOC_ID a) = LOC_ID r
           ∧ USE_CODE r = first_chars 3 (py_str (a_USE_CODE a)))
  ∧ (∀ rows codes_dict valid_codes st' s,
       s ∈ (perform_spatial_analysis parcels_gdf assessment_df rows codes_dict
              valid_codes st').1 →
       ∃ a, a ∈ assessment_df
         ∧ suggested_code s = first_chars 3 (py_str (a_USE_CODE a))).
Proof.
  intros Hfind Hne.
  assert (∀ s, str_slice3 s = first_chars 3 s) as Hcut
    by (intros s; apply substring_first_chars).
  assert (∀ r, r ∈ build_all_parcels (gdf_rows parcels_gdf) assessment_df →
            String.length (USE_CODE r) ≤ 3
            ∧ first_chars 3 (USE_CODE r) = USE_CODE r
            ∧ ∃ a, a ∈ assessment_df ∧ py_str (a_LOC_ID a) = LOC_ID r
                ∧ USE_CODE r = first_chars 3 (py_str (a_USE_CODE a)))
    as Hjoined.
  { intros r (p & a & _ & Ha & Hkey & Hloc & _ & Hcode)%build_all_parcels_elem.
    rewrite Hcode. split; [apply str_slice3_length|].
    split; [rewrite <- Hcut; apply str_slice3_idem|].
    exists a. split; [done|]. split; [congruence | apply Hcut]. }
  assert (∀ valid_codes key buffer_geom r,
            r ∈ valid_neighbours (build_all_parcels (gdf_rows parcels_gdf) assessment_df)
                  valid_codes key buffer_geom →
            USE_CODE r ∈ valid_codes
            ∧ String.length (USE_CODE r) ≤ 3
            ∧ ∃ a, a ∈ assessment_df ∧ py_str (a_LOC_ID a) = LOC_ID r
                ∧ USE_CODE r = first_chars 3 (py_str (a_USE_CODE a)))
    as Hvoters.
  { intros valid_codes key buf r Hr. unfold valid_neighbours, neighbours in Hr.
    apply list_elem_of_filter in Hr as [Hvalid Hr].
    apply list_elem_of_filter in Hr as [_ Hr].
    destruct (Hjoined r Hr) as (? & _ & ?). done. }
  split; [|split; [|split; [done|split; [done|]]]].
  - intros s. split; [apply first_chars_prefix | apply first_chars_length].
  - rewrite (analyze_gdb_unfold csv db st _ _ Hfind _ _ _ eq_refl eq_refl eq_refl).
    unfold py_truediv. rewrite decide_False.
    2:{ rewrite length_fmap. destruct (read_attributes db assessment_layer); [done|].
        simpl. lia. }
    eexists. split; [reflexivity|]. simpl. split.
    + rewrite non_matching_truncated, length_fmap. f_equal.
      apply list_filter_iff. intros r. by rewrite Hcut.
    + destruct (decide (0 < _)); rewrite <- ?list_fmap_compose;
        apply list_fmap_ext; intros i r _; simpl; by rewrite Hcut.
  - intros rows codes_dict valid_codes st' s
      (row & n & g & buf & _ & _ & _ & _ & _ & Hv)%emitted_provenance.
    destruct (vote_emitted _ _ _ _ _ _ _ Hv _ eq_refl)
      as (_ & [_ (l1 & l2 & Hl & _)] & _).
    assert (suggested_code s
            ∈ USE_CODE <$> nearby_valid_codes_of valid_codes
                             (neighbours (build_all_parcels (gdf_rows parcels_gdf)
                                            assessment_df)
                                (location_key row) buf)) as Hin
      by (rewrite Hl; apply elem_of_app; right; left).
    apply list_elem_of_fmap in Hin as (r & -> & Hr).
    destruct (Hvoters valid_codes (location_key row) buf r Hr) as (_ & _ & a & Ha & _ & Hc).
    by exists a.
Qed.

(** C7. When reading the reference table fails the loader returns the
    empty table, and with an empty table every assessment record is
    non-matching: the run reports as many non-matching records as
    records. *)
Theorem failed_load_makes_everything_non_matching csv db st assessment_layer parcel_layer :
  (∀ e, load_classification_codes (Raise e) = ∅)
  ∧ (∀ e, load_classification_codes_try csv = Raise e →
          load_classification_codes csv = ∅)
  ∧ (load_classification_codes csv = ∅ →
     find_layers (list_layers db) = (Some assessment_layer, Some parcel_layer) →
     read_attributes db assessment_layer ≠ [] →
     non_matching (dom (load_classification_codes csv))
       (truncate_use_code <$> read_attributes db assessment_layer)
     = truncate_use_code <$> read_attributes db assessment_layer
     ∧ ∃ a, (analyze_gdb csv db st).1 = Ok a
         ∧ total_properties a = length (read_attributes db assessment_layer)
         ∧ non_matching_count a = total_properties a).
Proof.
  split; [done|]. split.
  - intros e He. unfold load_classification_codes. by rewrite He.
  - intros Hempty Hfind Hne.
    assert (non_matching (dom (load_classification_codes csv))
              (truncate_use_code <$> read_attributes db assessment_layer)
            = truncate_use_code <$> read_attributes db assessment_layer) as Hall.
    { rewrite Hempty, dom_empty_L. unfold non_matching. apply filter_all.
      intros a _. destruct (a_USE_CODE a); [|done]. simpl.
      apply bool_decide_eq_false. apply not_elem_of_empty. }
    split; [done|].
    destruct (analyze_gdb_returns csv db st _ _ Hfind Hne) as (a & Ha & Htot & Hnm & _).
    exists a. split; [done|]. split; [done|].
    by rewrite Hnm, Hall, length_fmap, Htot.
Qed.

End RunClaims.

(** ** The progress protocol *)

Section Progress.
Context {G CRS : Type} `{GeoBackend G CRS}.
Implicit Types (db : geodatabase G CRS) (csv : result dataframe) (st : store).

(** What a spatial analysis that gets past its set-up writes to the
    progress dict, in order. *)
Lemma perform_spatial_analysis_progress (parcels_gdf : geodf G CRS) assessment_df rows
    codes_dict valid_codes st :
  sample_coordinates (gdf_rows parcels_gdf) = Ok () →
  rows ≠ [] →
  ∃ mid p3,
    history (perform_spatial_analysis parcels_gdf assessment_df rows codes_dict
               valid_codes st).2
    = history st
        ++ [ {| current := current (now st); total := length rows;
                status := status (now st); message := message (now st) |} ]
        ++ mid
        ++ [ p3; now (perform_spatial_analysis parcels_gdf assessment_df rows
                        codes_dict valid_codes st).2 ]
    ∧ mid ≠ []
    ∧ Forall (λ p, status p = "processing" ∧ total p = length rows) mid
    ∧ status p3 = "complete" ∧ total p3 = length rows
    ∧ now (perform_spatial_analysis parcels_gdf assessment_df rows codes_dict
             valid_codes st).2
      = {| current := length rows; total := length rows; status := "complete";
           message :=
             "Analysis complete! Found "
             +:+ pretty (length (perform_spatial_analysis parcels_gdf assessment_df
                                   rows codes_dict valid_codes st).1)
             +:+ " properties with spatial suggestions." |}.
Proof.
  intros Hsample Hrows. unfold perform_spatial_analysis. rewrite Hsample.
  set (st2 := set_status "processing" (set_total (length rows) st)).
  destruct (analysis_loop_history
              (build_all_parcels (gdf_rows parcels_gdf) assessment_df)
              (gdf_crs parcels_gdf) codes_dict valid_codes (length rows) 1 rows [] st2)
    as (mid & Hh & Hlen & Hall & Hst & Htot & Hcur).
  destruct (analysis_loop _ _ _ _ _ _ _ _ _) as [results st3]. simpl in *.
  specialize (Hcur Hrows).
  exists (now st2 :: mid), (now (set_status "complete" st3)).
  split; [|split; [done|split; [|split; [done|split]]]].
  - unfold set_message at 1. unfold set_status at 1. rewrite !history_write, Hh.
    subst st2. unfold set_status at 1. unfold set_total at 1. rewrite !history_write.
    by rewrite <- !app_assoc.
  - by constructor.
  - simpl. by rewrite Htot.
  - rewrite Hcur, Htot. f_equal. lia.
Qed.


End Progress.

Section Isolation.
Context {G CRS : Type} `{GeoBackend G CRS}.
Implicit Types (db : geodatabase G CRS) (csv : result dataframe) (st : store).
Implicit Types (parcels_gdf : geodf G CRS) (assessment_df rows : list assessment_row).

(** C8. A property whose classification raises is skipped and does not
    stop the batch. The results are those of the batch without it; when
    the analysis gets past its set-up they are, in order, one suggestion
    for each of the other properties that gets one when classified on its
    own, before or after the failing one, and the loop ends on the last
    property with the status ['complete']; there are fewer results than
    properties. The run itself returns its summary, and when this batch
    is its non-matching frame the summary carries these results, with an
    analysed count below the non-matching count. *)
Theorem property_failure_is_isolated parcels_gdf assessment_df rows_before property_row
    rows_after codes_dict valid_codes csv db st assessment_layer parcel_layer :
  (∀ n, ∃ e,
     classify_property (build_all_parcels (gdf_rows parcels_gdf) assessment_df)
       (gdf_crs parcels_gdf) codes_dict valid_codes n property_row = Raise e) →
  find_layers (list_layers db) = (Some assessment_layer, Some parcel_layer) →
  read_attributes db assessment_layer ≠ [] →
  (perform_spatial_analysis parcels_gdf assessment_df
     (rows_before ++ property_row :: rows_after) codes_dict valid_codes st).1
  = (perform_spatial_analysis parcels_gdf assessment_df
       (rows_before ++ rows_after) codes_dict valid_codes st).1
  ∧ (sample_coordinates (gdf_rows parcels_gdf) = Ok () →
     Forall2 (λ row s, ∃ n,
                classify_property (build_all_parcels (gdf_rows parcels_gdf) assessment_df)
                  (gdf_crs parcels_gdf) codes_dict valid_codes n row = Ok (Some s))
       (filter (λ row, gets_suggestion
                         (build_all_parcels (gdf_rows parcels_gdf) assessment_df)
                         (gdf_crs parcels_gdf) codes_dict valid_codes row = true)
          (rows_before ++ rows_after))
       (perform_spatial_analysis parcels_gdf assessment_df
          (rows_before ++ property_row :: rows_after) codes_dict valid_codes st).1
     ∧ now (perform_spatial_analysis parcels_gdf assessment_df
              (rows_before ++ property_row :: rows_after) codes_dict valid_codes st).2
       = {| current := length (rows_before ++ property_row :: rows_after);
            total := length (rows_before ++ property_row :: rows_after);
            status := "complete";
            message :=
              "Analysis complete! Found "
              +:+ pretty (length (perform_spatial_analysis parcels_gdf assessment_df
                                    (rows_before ++ property_row :: rows_after)
                                    codes_dict valid_codes st).1)
              +:+ " properties with spatial suggestions." |})
  ∧ length (perform_spatial_analysis parcels_gdf assessment_df
              (rows_before ++ property_row :: rows_after) codes_dict valid_codes st).1
    < length (rows_before ++ property_row :: rows_after)
  ∧ ∃ a, (analyze_gdb csv db st).1 = Ok a
      ∧ analyzed_count a = length (properties a)
      ∧ analyzed_count a ≤ non_matching_count a
      ∧ (parcels_gdf = read_parcels db parcel_layer →
         assessment_df = truncate_use_code <$> read_attributes db assessment_layer →
         codes_dict = load_classification_codes csv →
         valid_codes = dom codes_dict →
         non_matching valid_codes assessment_df
         = rows_before ++ property_row :: rows_after →
         properties a
         = (perform_spatial_analysis parcels_gdf assessment_df
              (rows_before ++ property_row :: rows_after) codes_dict valid_codes st).1
         ∧ analyzed_count a < non_matching_count a).
Proof.
  intros Hraise Hfind Hne.
  assert ((perform_spatial_analysis parcels_gdf assessment_df
             (rows_before ++ property_row :: rows_after) codes_dict valid_codes st).1
          = (perform_spatial_analysis parcels_gdf assessment_df
               (rows_before ++ rows_after) codes_dict valid_codes st).1) as Heq.
  { unfold perform_spatial_analysis.
    destruct (sample_coordinates (gdf_rows parcels_gdf)); [|done].
    match goal with
    | |- (let '(_, _) := ?x in _).1 = (let '(_, _) := ?y in _).1 =>
        assert (x.1 = y.1) as Heq; [|by destruct x, y]
    end.
    rewrite !analysis_loop_app. simpl.
    destruct (Hraise (length (analysis_loop
                (build_all_parcels (gdf_rows parcels_gdf) assessment_df)
                (gdf_crs parcels_gdf) codes_dict valid_codes
                (length (rows_before ++ property_row :: rows_after)) 1 rows_before []
                (set_status "processing"
                   (set_total (length (rows_before ++ property_row :: rows_after))
                      st))).1)) as [e He].
    rewrite He.
    match goal with
    | |- (analysis_loop _ _ _ _ _ _ _ ?r1 _).1 = (analysis_loop _ _ _ _ _ _ _ ?r2 _).1 =>
        replace r1 with r2 by apply analysis_loop_results_indep
    end.
    apply analysis_loop_results_indep. }
  assert (length (perform_spatial_analysis parcels_gdf assessment_df
                    (rows_before ++ property_row :: rows_after) codes_dict
                    valid_codes st).1
          < length (rows_before ++ property_row :: rows_after)) as Hfewer.
  { rewrite Heq.
    pose proof (perform_spatial_analysis_length parcels_gdf assessment_df
                  (rows_before ++ rows_after) codes_dict valid_codes st) as Hlen.
    rewrite !length_app in *. simpl. lia. }
  split; [exact Heq|]. split; [|split; [exact Hfewer|]].
  - intros Hsample. split.
    + rewrite Heq. by apply perform_spatial_analysis_exact.
    + destruct (perform_spatial_analysis_progress parcels_gdf assessment_df
                  (rows_before ++ property_row :: rows_after) codes_dict valid_codes st
                  Hsample) as (mid & p3 & _ & _ & _ & _ & _ & Hnow); [|exact Hnow].
      by destruct rows_before.
  - destruct (analyze_gdb_returns csv db st _ _ Hfind Hne)
      as (a & Ha & _ & Hnm & Hcount & Hle & _).
    exists a. split; [done|]. split; [done|]. split; [done|].
    intros -> -> -> -> Hbatch.
    rewrite Hbatch in Hnm.
    rewrite (analyze_gdb_unfold csv db st _ _ Hfind _ _ _ eq_refl eq_refl eq_refl) in Ha.
    rewrite Hbatch in Ha.
    rewrite decide_True in Ha by (rewrite length_app; simpl; lia).
    simpl in Ha. destruct (py_truediv _ _) as [ratio|e]; [|done].
    injection Ha as <-. simpl in *. split; [done | exact Hfewer].
Qed.

End Isolation.

(** C10. The neighbour count of an emitted suggestion is the number of all
    neighbours in the buffer once the property's own key is excluded, valid
    code or not, while the confidence is a share of the valid-code
    neighbours only; so the neighbour count is at least the denominator of
    the confidence, and in the town the suggestion for 7 Main St has a
    confidence of 2/4 over 5 neighbours, whose product is not its 2 votes. *)
Theorem nearby_count_counts_all_neighbours :
  (∀ (G CRS : Type) (B : GeoBackend G CRS) (parcels_gdf : geodf G CRS)
     assessment_df rows codes_dict valid_codes st s,
     s ∈ (perform_spatial_analysis parcels_gdf assessment_df rows codes_dict
            valid_codes st).1 →
     ∃ property_row g buffer_geom,
       property_row ∈ rows
       ∧ subject_geometry (build_all_parcels (gdf_rows parcels_gdf) assessment_df)
           property_row = Some g
       ∧ buffer g 100 = Ok buffer_geom
       ∧ nearby_count s
         = length (neighbours (build_all_parcels (gdf_rows parcels_gdf) assessment_df)
                     (location_key property_row) buffer_geom)
       ∧ confidence s
         = (inject_Z (Z.of_nat
              (tally (suggested_code s)
                 (USE_CODE <$> valid_neighbours
                                 (build_all_parcels (gdf_rows parcels_gdf) assessment_df)
                                 valid_codes (location_key property_row) buffer_geom)))
            / inject_Z (Z.of_nat
                (length (valid_neighbours
                           (build_all_parcels (gdf_rows parcels_gdf) assessment_df)
                           valid_codes (location_key property_row) buffer_geom))))%Q
       ∧ length (valid_neighbours
                   (build_all_parcels (gdf_rows parcels_gdf) assessment_df)
                   valid_codes (location_key property_row) buffer_geom)
         ≤ nearby_count s)
  ∧ (∃ s,
       s ∈ (perform_spatial_analysis Town.parcel_layer Town.assessment_df
              Town.non_matching_df Town.codes_dict Town.valid_codes fresh_store).1
       ∧ nearby_count s = 5
       ∧ tally (suggested_code s)
           (USE_CODE <$> valid_neighbours
                           (build_all_parcels (gdf_rows Town.parcel_layer)
                              Town.assessment_df)
                           Town.valid_codes "L7"
                           {| Discs.cx := 100000; Discs.cy := 100000;
                              Discs.radius := 100 |}) = 2
       ∧ ¬ (confidence s * inject_Z (Z.of_nat (nearby_count s)) == inject_Z 2)%Q).
Proof.
  split.
  - intros G CRS B parcels_gdf assessment_df rows codes_dict valid_codes st s
      (row & n & g & buf & Hin & Hg & _ & _ & Hb & Hv)%emitted_provenance.
    destruct (vote_emitted _ _ _ _ _ _ _ Hv _ eq_refl)
      as (_ & _ & Hconf & _ & _ & Hcount & _).
    exists row, g, buf. rewrite length_fmap in Hconf.
    split; [done|]. split; [done|]. split; [done|]. split; [done|].
    split; [exact Hconf|]. rewrite Hcount. apply length_filter.
  - eexists. split; [vm_compute; left|].
    split; [reflexivity|]. split; [by vm_compute|].
    vm_compute. discriminate.
Qed.

(** ** The analysis run on the town *)

Section TownRun.
Import Discs Town.

Local Abbreviation town_results :=
  (perform_spatial_analysis parcel_layer assessment_df non_matching_df codes_dict
     valid_codes fresh_store).1.

Example py_str_int : py_str (PInt 1010) = "1010" ∧ py_str (PInt (-7)) = "-7".
Proof. split; reflexivity. Qed.

Example slice3_ex : str_slice3 "1010" = "101" ∧ str_slice3 "13" = "13".
Proof. split; reflexivity. Qed.

Example counter_ex :
  Counter ["102"; "101"; "101"; "102"; "130"] = [("102", 2); ("101", 2); ("130", 1)].
Proof. reflexivity. Qed.

Example most_common_tie :
  most_common_1 (Counter ["102"; "101"; "101"; "102"; "130"]) = [("102", 2)].
Proof. reflexivity. Qed.

Example town_layers :
  find_layers (list_layers town) = (Some "M035Assess", Some "M035TaxPar").
Proof. reflexivity. Qed.

Example town_non_matching :
  non_matching_df
  = [row_7_Main; row_9_Main; row_5_Elm; row_8_Mill; row_10_Mill; row_1_Far].
Proof. by vm_compute. Qed.

Example town_suggestions : town_results = [suggestion_7_Main; suggestion_9_Main].
Proof. by vm_compute. Qed.

Example town_classification :
  (λ row, classify_property all_parcels_gdf (gdf_crs parcel_layer) codes_dict
            valid_codes 0 row) <$> non_matching_df
  = [ Ok (Some suggestion_7_Main);
      Ok (Some {| s_id := "prop_0"; prop_id := "P9"; loc_id := "L9";
                  address := "9 Main St"; current_code := "998";
                  suggested_code := "101"; confidence := 2 # 3;
                  description := PStr "Single Family";
                  lat := 4200060 # 100000; lng := -7099940 # 100000;
                  nearby_count := 4 |});
      Raise (ExternalError "negative buffer");
      Ok None; Ok None; Ok None ].
Proof. by vm_compute. Qed.

(** A second run starts from what the first one left: while the status is
    already ['processing'], [current] and [message] are still those of the
    finished run. *)
Example progress_not_reset_between_runs :
  history (analyze_gdb codes_csv town (analyze_gdb codes_csv town fresh_store).2).2
    !! (length (history (analyze_gdb codes_csv town fresh_store).2) + 1)
  = Some {| current := 6; total := 6; status := "processing";
            message := "Analysis complete! Found 2 properties with spatial suggestions." |}.
Proof. by vm_compute. Qed.

Lemma suggested_code_is_first_plurality_witness :
  suggestion_7_Main ∈ town_results
  ∧ ∃ property_row g buffer_geom,
      property_row ∈ non_matching_df
      ∧ loc_id suggestion_7_Main = location_key property_row
      ∧ subject_geometry all_parcels_gdf property_row = Some g
      ∧ buffer g 100 = Ok buffer_geom
      ∧ plurality_first "102"
          (USE_CODE <$> valid_neighbours all_parcels_gdf valid_codes
                          (location_key property_row) buffer_geom).
Proof.
  assert (suggestion_7_Main ∈ town_results) as Hin by (vm_compute; left).
  split; [exact Hin|].
  exact (suggested_code_is_first_plurality parcel_layer assessment_df non_matching_df
           codes_dict valid_codes fresh_store suggestion_7_Main Hin).
Defined.

Lemma confidence_is_vote_share_witness :
  suggestion_7_Main ∈ town_results
  ∧ (0 < confidence suggestion_7_Main)%Q
  ∧ (confidence suggestion_7_Main <= 1)%Q
  ∧ suggested_code suggestion_7_Main ∈ valid_codes
  ∧ valid_neighbours all_parcels_gdf valid_codes "L8"
      {| cx := 200000; cy := 150000; radius := 100 |} = []
  ∧ ∀ s, classify_property all_parcels_gdf (gdf_crs parcel_layer) codes_dict valid_codes
           2 row_8_Mill ≠ Ok (Some s).
Proof.
  assert (suggestion_7_Main ∈ town_results) as Hin by (vm_compute; left).
  assert (valid_neighbours all_parcels_gdf valid_codes "L8"
            {| cx := 200000; cy := 150000; radius := 100 |} = []) as Hnone
    by (vm_compute; reflexivity).
  destruct (confidence_is_vote_share parcel_layer assessment_df non_matching_df
              codes_dict valid_codes fresh_store) as [Hshare Hskip].
  destruct (Hshare suggestion_7_Main Hin)
    as (row & g & buf & _ & _ & _ & _ & Hpos & Hle & Hvalid).
  split; [exact Hin|]. split; [exact Hpos|]. split; [exact Hle|].
  split; [exact Hvalid|]. split; [exact Hnone|].
  apply (Hskip row_8_Mill 2 (point 200000 150000)
           {| cx := 200000; cy := 150000; radius := 100 |}).
  - vm_compute; reflexivity.
  - vm_compute; reflexivity.
  - exact Hnone.
Defined.

Lemma centroid_normalisation_witness :
  centroid_latlng (Some state_plane) (-71) 42 = Some (42%Q, (-71)%Q)
  ∧ centroid_latlng (Some state_plane) 100000 100000
    = match to_crs state_plane (100000%Q, 100000%Q) with
      | Ok (lng, lat) => Some (lat, lng)
      | Raise _ => None
      end
  ∧ classify_property (build_all_parcels (gdf_rows parcel_layer_no_crs) assessment_df)
      (gdf_crs parcel_layer_no_crs) codes_dict valid_codes 0 row_7_Main = Ok None
  ∧ classify_property all_parcels_gdf (gdf_crs parcel_layer) codes_dict valid_codes
      2 row_1_Far = Ok None
  ∧ (41 <= lat suggestion_7_Main ∧ lat suggestion_7_Main <= 43
     ∧ -74 <= lng suggestion_7_Main ∧ lng suggestion_7_Main <= -69)%Q
  ∧ classify_property
      (build_all_parcels (gdf_rows Cases.low_road_parcels) Cases.low_road_records)
      (gdf_crs Cases.low_road_parcels) codes_dict valid_codes 0 Cases.row_1_Low
    = Raise IndexError.
Proof.
  destruct (centroid_normalisation parcel_layer assessment_df non_matching_df
              codes_dict valid_codes fresh_store) as (Hgeo & Hproj & _ & Hout & Hin & _).
  destruct (centroid_normalisation parcel_layer_no_crs assessment_df non_matching_df
              codes_dict valid_codes fresh_store) as (_ & _ & Hnocrs & _).
  destruct (centroid_normalisation Cases.low_road_parcels Cases.low_road_records []
              codes_dict valid_codes fresh_store) as (_ & _ & _ & _ & _ & Hunread).
  split; [|split; [|split; [|split; [|split]]]].
  - apply Hgeo; vm_compute; discriminate.
  - apply Hproj. intros [Hx _]. vm_compute in Hx. by apply Hx.
  - apply (Hnocrs 0 row_7_Main (point 100000 100000) 100000%Q 100000%Q).
    + vm_compute; reflexivity.
    + reflexivity.
    + intros [Hx _]. vm_compute in Hx. by apply Hx.
    + reflexivity.
  - apply (Hout 2 row_1_Far (point 900000 100000) 900000%Q 100000%Q
             (4200000 # 100000) (-6300000 # 100000)).
    + vm_compute; reflexivity.
    + reflexivity.
    + vm_compute; reflexivity.
    + intros (_ & _ & _ & Hlng). vm_compute in Hlng. by apply Hlng.
  - apply (Hin suggestion_7_Main). vm_compute; left.
  - apply (Hunread 0 Cases.row_1_Low Cases.Empty IndexError).
    + vm_compute; reflexivity.
    + reflexivity.
Defined.

Lemma self_exclusion_witness :
  ∃ nearby,
    nearby_parcels_of all_parcels_gdf (point 100000 100000) (location_key row_7_Main)
    = Ok nearby
    ∧ length (filter (λ r, LOC_ID r = "L7") all_parcels_gdf) = 2
    ∧ length nearby = 5
    ∧ ∀ r, LOC_ID r = location_key row_7_Main →
           (r ∉ nearby) ∧ (r ∉ nearby_valid_codes_of valid_codes nearby).
Proof.
  eexists. split; [vm_compute; reflexivity|].
  split; [vm_compute; reflexivity|]. split; [reflexivity|].
  intros r Hkey.
  apply (proj1 (self_exclusion parcel_layer assessment_df non_matching_df codes_dict
                  valid_codes fresh_store) row_7_Main (point 100000 100000)).
  - vm_compute; reflexivity.
  - exact Hkey.
Defined.

Lemma use_codes_compared_truncated_witness :
  first_chars 3 "9990" = "999"
  ∧ first_chars 3 "13" = "13"
  ∧ (∃ rest, "9990" = first_chars 3 "9990" +:+ rest)
  ∧ (∃ a, (analyze_gdb codes_csv town fresh_store).1 = Ok a
       ∧ non_matching_count a = 6
       ∧ a_USE_CODE <$> assessment_data a
         = PStr <$> ["999"; "101"; "102"; "101"; "101"; "102"; "998"; "13"; "997";
                     "996"; "000"])
  ∧ USE_CODE <$> build_all_parcels (gdf_rows parcel_layer) assessment_layer
    = ["999"; "101"; "102"; "101"; "101"; "102"; "998"; "13"; "997"; "996"; "000"]
  ∧ ∀ r, r ∈ build_all_parcels (gdf_rows parcel_layer) assessment_layer →
      String.length (USE_CODE r) ≤ 3
      ∧ ∃ a, a ∈ assessment_layer ∧ py_str (a_LOC_ID a) = LOC_ID r
          ∧ USE_CODE r = first_chars 3 (py_str (a_USE_CODE a)).
Proof.
  destruct (use_codes_compared_truncated codes_csv town fresh_store
              "M035Assess" "M035TaxPar" parcel_layer assessment_layer)
    as (Hcut & (a & Ha & Hnm & Hdata) & Hjoined & _).
  - reflexivity.
  - discriminate.
  - split; [reflexivity|]. split; [reflexivity|]. split; [apply (Hcut "9990")|].
    split.
    { exists a. split; [exact Ha|].
      split; [rewrite Hnm | rewrite Hdata]; vm_compute; reflexivity. }
    split; [vm_compute; reflexivity|].
    intros r Hr. destruct (Hjoined r Hr) as (Hlen & _ & Hsrc).
    split; [exact Hlen | exact Hsrc].
Defined.

Lemma failed_load_makes_everything_non_matching_witness :
  load_classification_codes (Raise (Exception "No such file or directory")) = ∅
  ∧ ∃ a, (analyze_gdb (Raise (Exception "No such file or directory")) town
            fresh_store).1 = Ok a
      ∧ total_properties a = 11
      ∧ non_matching_count a = total_properties a.
Proof.
  destruct (failed_load_makes_everything_non_matching
              (Raise (Exception "No such file or directory")) town fresh_store
              "M035Assess" "M035TaxPar") as (Hload & _ & Hrun).
  split; [apply Hload|].
  destruct Hrun as [_ Hrun]; [reflexivity | reflexivity | discriminate |].
  exact Hrun.
Defined.

Lemma property_failure_is_isolated_witness :
  classify_property
    (build_all_parcels (gdf_rows parcel_layer)
       (truncate_use_code <$> reverse assessment_layer))
    (gdf_crs parcel_layer) codes_dict valid_codes 0 row_5_Elm
  = Raise (ExternalError "negative buffer")
  ∧ (perform_spatial_analysis parcel_layer (truncate_use_code <$> reverse assessment_layer)
       ([row_1_Far; row_10_Mill; row_8_Mill] ++ row_5_Elm :: [row_9_Main; row_7_Main])
       codes_dict valid_codes fresh_store).1
    = [Cases.suggestion_9_Main_first; Cases.suggestion_7_Main_second]
  ∧ Forall2 (λ row s, ∃ n,
               classify_property
                 (build_all_parcels (gdf_rows parcel_layer)
                    (truncate_use_code <$> reverse assessment_layer))
                 (gdf_crs parcel_layer) codes_dict valid_codes n row = Ok (Some s))
      [row_9_Main; row_7_Main]
      (perform_spatial_analysis parcel_layer
         (truncate_use_code <$> reverse assessment_layer)
         ([row_1_Far; row_10_Mill; row_8_Mill] ++ row_5_Elm :: [row_9_Main; row_7_Main])
         codes_dict valid_codes fresh_store).1
  ∧ current (now (perform_spatial_analysis parcel_layer
                    (truncate_use_code <$> reverse assessment_layer)
                    ([row_1_Far; row_10_Mill; row_8_Mill]
                       ++ row_5_Elm :: [row_9_Main; row_7_Main])
                    codes_dict valid_codes fresh_store).2) = 6
  ∧ ∃ a, (analyze_gdb codes_csv Cases.town_reversed fresh_store).1 = Ok a
      ∧ properties a = [Cases.suggestion_9_Main_first; Cases.suggestion_7_Main_second]
      ∧ analyzed_count a < non_matching_count a.
Proof.
  destruct (property_failure_is_isolated parcel_layer
              (truncate_use_code <$> reverse assessment_layer)
              [row_1_Far; row_10_Mill; row_8_Mill] row_5_Elm [row_9_Main; row_7_Main]
              codes_dict valid_codes codes_csv Cases.town_reversed fresh_store
              "M035Assess" "M035TaxPar")
    as (Heq & Hproc & Hfewer & a & Ha & Hcount & Hle & Htie).
  - intros n. exists (ExternalError "negative buffer"). vm_compute. reflexivity.
  - reflexivity.
  - vm_compute. discriminate.
  - destruct (Hproc eq_refl) as [Hall Hnow].
    destruct (Htie eq_refl eq_refl eq_refl eq_refl) as [Hprops Hlt];
      [vm_compute; reflexivity|].
    assert ((perform_spatial_analysis parcel_layer
               (truncate_use_code <$> reverse assessment_layer)
               ([row_1_Far; row_10_Mill; row_8_Mill]
                  ++ row_5_Elm :: [row_9_Main; row_7_Main])
               codes_dict valid_codes fresh_store).1
            = [Cases.suggestion_9_Main_first; Cases.suggestion_7_Main_second]) as Hrun
      by (vm_compute; reflexivity).
    split; [vm_compute; reflexivity|]. split; [exact Hrun|]. split.
    { match type of Hall with
      | Forall2 _ ?l _ =>
          assert (l = [row_9_Main; row_7_Main]) as Hf by (vm_compute; reflexivity);
          rewrite Hf in Hall
      end.
      exact Hall. }
    split; [by rewrite Hnow|].
    exists a. split; [exact Ha|]. split; [by rewrite Hprops | exact Hlt].
Defined.


Lemma empty_assessment_layer_divides_by_zero_witness :
  analyze_gdb codes_csv empty_town fresh_store = (Raise ZeroDivisionError, fresh_store).
Proof.
  apply (empty_assessment_layer_divides_by_zero codes_csv empty_town fresh_store
           "M035Assess" "M035TaxPar").
  - reflexivity.
  - reflexivity.
Defined.

Lemma nearby_count_counts_all_neighbours_witness :
  suggestion_7_Main ∈ town_results
  ∧ ∃ property_row g buffer_geom,
      property_row ∈ non_matching_df
      ∧ subject_geometry all_parcels_gdf property_row = Some g
      ∧ buffer g 100 = Ok buffer_geom
      ∧ 5 = length (neighbours all_parcels_gdf (location_key property_row) buffer_geom)
      ∧ length (valid_neighbours all_parcels_gdf valid_codes
                  (location_key property_row) buffer_geom) ≤ 5.
Proof.
  assert (suggestion_7_Main ∈ town_results) as Hin by (vm_compute; left).
  split; [exact Hin|].
  destruct (proj1 nearby_count_counts_all_neighbours disc ref_system disc_backend
              parcel_layer assessment_df non_matching_df codes_dict valid_codes
              fresh_store suggestion_7_Main Hin)
    as (row & g & buf & Hrow & Hg & Hb & Hcount & _ & Hle).
  exists row, g, buf. split; [exact Hrow|]. split; [exact Hg|]. split; [exact Hb|].
  split; [exact Hcount | exact Hle].
Defined.


End TownRun.

(** ** The reference table loader *)

Lemma last_filter_cons {A} (P : A → Prop) `{!∀ x, Decision (P x)} (x : A) l :
  last (filter P (x :: l))
  = match last (filter P l) with
    | Some y => Some y
    | None => if decide (P x) then Some x else None
    end.
Proof.
  rewrite filter_cons. destruct (decide (P x)); [|by destruct (last (filter P l))].
  destruct (filter P l) as [|y l'] eqn:Hf; [done|].
  rewrite last_cons. by destruct (last (y :: l')).
Qed.

Lemma dict_zip_lookup keys values (d : gmap string pyval) k :
  dict_zip keys values d !! k
  = match latest_entry k keys values with
    | Some v => Some v
    | None => d !! k
    end.
Proof.
  revert values d. induction keys as [|k0 keys IH]; intros [|v0 values] d; try done.
  simpl. rewrite IH. unfold latest_entry. simpl zip.
  rewrite (last_filter_cons (λ kv : string * pyval, kv.1 = k)).
  destruct (last (filter _ (zip keys values))) as [[k1 v1]|]; [done|]. simpl.
  destruct (decide (k0 = k)) as [->|Hne].
  - by rewrite lookup_insert_eq.
  - by rewrite lookup_insert_ne.
Qed.

(** X1. The loaded table, under each of the three header conventions
    (a [use_code] column first, else a [Code] column, each with a
    [Description] column; else the first two columns): a stringified code
    maps to the description on the last row that carries it, and a string
    that no row carries is not a key. *)
Theorem loaded_table_lookup (df : dataframe) codes descs k :
  (("use_code" ∈ df.*1) ∧ df_col "use_code" df = Ok codes
   ∧ df_col "Description" df = Ok descs)
  ∨ (("use_code" ∉ df.*1) ∧ ("Code" ∈ df.*1) ∧ df_col "Code" df = Ok codes
     ∧ df_col "Description" df = Ok descs)
  ∨ (("use_code" ∉ df.*1) ∧ ("Code" ∉ df.*1)
     ∧ ∃ h0 h1 rest, h0 ≠ h1 ∧ df = (h0, codes) :: (h1, descs) :: rest) →
  load_classification_codes (Ok df) !! k = latest_entry k (py_str <$> codes) descs.
Proof.
  intros Hcase.
  assert (load_classification_codes (Ok df) = dict_zip (py_str <$> codes) descs ∅) as ->.
  { unfold load_classification_codes, load_classification_codes_try. simpl.
    destruct Hcase as [(Hu & Hc & Hd)|[(Hu & Hcode & Hc & Hd)|(Hu & Hcode & Hpos)]].
    - rewrite decide_True by done. simpl. by rewrite Hc, Hd.
    - rewrite decide_False, decide_True by done. simpl. by rewrite Hc, Hd.
    - destruct Hpos as (h0 & h1 & rest & Hne & ->).
      rewrite !decide_False by done. simpl.
      rewrite decide_True by done. simpl.
      rewrite decide_False by done. rewrite decide_True by done. done. }
  rewrite dict_zip_lookup, lookup_empty. by destruct (latest_entry _ _ _).
Qed.

(** X2. A table that has a [use_code] or a [Code] column but no
    [Description] column, and a table with neither header and fewer than
    two columns, load as the empty table: the KeyError and the IndexError
    are swallowed. *)
Theorem malformed_table_loads_empty (df : dataframe) :
  ((("use_code" ∈ df.*1) ∨ ("Code" ∈ df.*1)) ∧ ("Description" ∉ df.*1))
  ∨ (("use_code" ∉ df.*1) ∧ ("Code" ∉ df.*1) ∧ length df < 2) →
  load_classification_codes (Ok df) = ∅.
Proof.
  assert (∀ name (t : dataframe), name ∉ t.*1 → df_col name t = Raise (KeyError name))
    as Hmissing.
  { intros name t. induction t as [|[h cells] t IH]; [done|].
    intros Hn. apply not_elem_of_cons in Hn as [Hne Hn]. simpl.
    rewrite decide_False by done. by apply IH. }
  assert (∀ name (t : dataframe), name ∈ t.*1 → ∃ cells, df_col name t = Ok cells)
    as Hpresent.
  { intros name t. induction t as [|[h cells] t IH]; [by intros ?%elem_of_nil|].
    intros Hin. simpl. destruct (decide (h = name)) as [|Hne]; [by eexists|].
    apply IH. apply elem_of_cons in Hin as [?|?]; [by subst|done]. }
  unfold load_classification_codes, load_classification_codes_try. simpl.
  intros [[Hcol Hdesc]|(Hu & Hc & Hlen)].
  - destruct (decide ("use_code" ∈ df.*1)) as [Hu|Hu]; simpl.
    + destruct (Hpresent _ _ Hu) as [cells ->]. simpl. by rewrite (Hmissing _ _ Hdesc).
    + destruct Hcol as [?|Hc]; [done|]. rewrite decide_True by done. simpl.
      destruct (Hpresent _ _ Hc) as [cells ->]. simpl. by rewrite (Hmissing _ _ Hdesc).
  - rewrite !decide_False by done. simpl.
    destruct df as [|[h0 c0] [|[h1 c1] df]]; simpl in *; [done|done|lia].
Qed.

(** ** Layer selection *)

Lemma find_layers_snoc names layer_name :
  find_layers (names ++ [layer_name])
  = ((if decide (is_assessment_name layer_name) then Some layer_name
      else (find_layers names).1),
     (if decide (is_parcel_name layer_name) then Some layer_name
      else (find_layers names).2)).
Proof.
  unfold find_layers. rewrite foldl_app. simpl.
  destruct (foldl _ _ names) as [a p]. simpl. f_equal.
  - destruct (decide (is_assessment_name layer_name)) as [Ha|Ha];
      unfold is_assessment_name in Ha.
    + by rewrite Ha.
    + apply not_true_is_false in Ha. by rewrite Ha.
  - destruct (decide (is_parcel_name layer_name)) as [Hp|Hp];
      unfold is_parcel_name in Hp.
    + destruct Hp as [Hp|Hp]; rewrite Hp; [done|]. by rewrite orb_true_r.
    + destruct (str_contains "taxpar" _) eqn:Ht; [destruct Hp; by left|].
      destruct (str_contains "parcel" _) eqn:Hq; [destruct Hp; by right|]. done.
Qed.

Lemma find_layers_last names :
  find_layers names
  = (last (filter is_assessment_name names), last (filter is_parcel_name names)).
Proof.
  induction names as [|layer_name names IH] using rev_ind; [done|].
  rewrite find_layers_snoc, IH, !filter_app, !filter_cons, !filter_nil. simpl.
  f_equal.
  - destruct (decide (is_assessment_name layer_name)); [by rewrite last_snoc|].
    by rewrite app_nil_r.
  - destruct (decide (is_parcel_name layer_name)); [by rewrite last_snoc|].
    by rewrite app_nil_r.
Qed.

Lemma last_filter_None {A} (P : A → Prop) `{!∀ x, Decision (P x)} (l : list A) :
  last (filter P l) = None ↔ Forall (λ x, ¬ P x) l.
Proof.
  rewrite last_None. induction l as [|x l IH]; [by split; [constructor|]|].
  rewrite filter_cons, Forall_cons. destruct (decide (P x)); [|by rewrite IH; tauto].
  split; [done | tauto].
Qed.

(** X3. Of the layers of the geodatabase, the assessment layer is the last
    one whose lower-cased name contains [assess] and the parcel layer the
    last one whose lower-cased name contains [taxpar] or [parcel]; a layer
    whose name qualifies for both is taken for both, and either is missing
    exactly when no layer name qualifies. *)
Theorem find_layers_takes_last names :
  find_layers names
  = (last (filter is_assessment_name names), last (filter is_parcel_name names))
  ∧ ((find_layers names).1 = None ↔ Forall (λ n, ¬ is_assessment_name n) names)
  ∧ ((find_layers names).2 = None ↔ Forall (λ n, ¬ is_parcel_name n) names).
Proof.
  rewrite find_layers_last. simpl.
  split; [done|]. split.
  - apply last_filter_None.
  - apply last_filter_None.
Qed.

Section LayerErrors.
Context {G CRS : Type} `{GeoBackend G CRS}.
Implicit Types (db : geodatabase G CRS) (csv : result dataframe) (st : store).

(** X4. Without a layer whose name contains [assess] the run fails with
    "No assessment layer found", whatever parcel layers there are; with
    one, but without a [taxpar] or [parcel] layer, it fails with "No parcel
    layer found". In both cases nothing is written to the progress state. *)
Theorem missing_layer_fails_the_run csv db st :
  (Forall (λ n, ¬ is_assessment_name n) (list_layers db) →
   analyze_gdb csv db st = (Raise (Exception "No assessment layer found"), st))
  ∧ (Exists is_assessment_name (list_layers db) →
     Forall (λ n, ¬ is_parcel_name n) (list_layers db) →
     analyze_gdb csv db st = (Raise (Exception "No parcel layer found"), st)).
Proof.
  split.
  - intros Hnone. unfold analyze_gdb. rewrite find_layers_last.
    by rewrite (proj2 (last_filter_None _ _) Hnone).
  - intros Hsome Hnone. unfold analyze_gdb. rewrite find_layers_last.
    rewrite (proj2 (last_filter_None is_parcel_name _) Hnone).
    destruct (last (filter is_assessment_name (list_layers db))) eqn:Hl; [done|].
    apply last_filter_None in Hl. apply Exists_exists in Hsome as (n & Hin & Hn).
    rewrite Forall_forall in Hl. by destruct (Hl n Hin).
Qed.

(** [analyze_gdb] returning a summary, read backwards. *)
Lemma analyze_gdb_ok_inv csv db st a :
  (analyze_gdb csv db st).1 = Ok a →
  ∃ assessment_layer parcel_layer,
    find_layers (list_layers db) = (Some assessment_layer, Some parcel_layer)
    ∧ read_attributes db assessment_layer ≠ []
    ∧ ∀ assessment_df non_matching_df run,
        assessment_df = truncate_use_code <$> read_attributes db assessment_layer →
        non_matching_df
          = non_matching (dom (load_classification_codes csv)) assessment_df →
        run = (if decide (0 < length non_matching_df)
               then perform_spatial_analysis (read_parcels db parcel_layer) assessment_df
                      non_matching_df (load_classification_codes csv)
                      (dom (load_classification_codes csv)) st
               else ([], st)) →
        total_properties a = length assessment_df
        ∧ non_matching_count a = length non_matching_df
        ∧ analyzed_count a = length run.1
        ∧ high_confidence_count a
          = length (filter (λ p, Qltb (7 # 10) (confidence p) = true) run.1)
        ∧ properties a = run.1
        ∧ match_percentage a
          = (inject_Z (Z.of_nat (length assessment_df) - Z.of_nat (length non_matching_df))
             / inject_Z (Z.of_nat (length assessment_df)) * 100)%Q
        ∧ assessment_data a
          = (if decide (0 < length non_matching_df)
             then stringify_loc <$> assessment_df else assessment_df)
        ∧ (analyze_gdb csv db st).2 = run.2.
Proof.
  intros Ha.
  destruct (find_layers (list_layers db)) as [[al|] [pl|]] eqn:Hfind;
    try (unfold analyze_gdb in Ha; rewrite Hfind in Ha; done).
  exists al, pl. split; [done|].
  rewrite (analyze_gdb_unfold csv db st _ _ Hfind _ _ _ eq_refl eq_refl eq_refl) in Ha |- *.
  simpl in Ha. unfold py_truediv in Ha.
  destruct (decide (Z.of_nat (length (truncate_use_code <$> read_attributes db al)) = 0%Z))
    as [Hz|Hz]; [done|]. simpl in Ha. injection Ha as <-.
  split.
  - intros Hempty. apply Hz. by rewrite Hempty.
  - intros adf nm run -> -> ->. simpl. done.
Qed.

End LayerErrors.

(** ** The summary and what a suggestion carries *)

Lemma percentage_bounds (tot nm : nat) :
  0 < tot → nm ≤ tot →
  (0 <= inject_Z (Z.of_nat tot - Z.of_nat nm) / inject_Z (Z.of_nat tot) * 100
   ∧ inject_Z (Z.of_nat tot - Z.of_nat nm) / inject_Z (Z.of_nat tot) * 100 <= 100
   ∧ (inject_Z (Z.of_nat tot - Z.of_nat nm) / inject_Z (Z.of_nat tot) * 100 == 100
      ↔ nm = 0%nat))%Q.
Proof.
  intros Hpos Hle.
  assert (0 < inject_Z (Z.of_nat tot))%Q as Htot by (rewrite <- (Zlt_Qlt 0); lia).
  assert (inject_Z (Z.of_nat tot - Z.of_nat nm) / inject_Z (Z.of_nat tot) * 100
          == inject_Z (100 * (Z.of_nat tot - Z.of_nat nm)) / inject_Z (Z.of_nat tot))%Q
    as Heq.
  { rewrite inject_Z_mult. field. intros Hz. rewrite Hz in Htot. by apply Qlt_irrefl in Htot. }
  rewrite Heq. split; [|split].
  - apply Qle_shift_div_l; [done|]. rewrite Qmult_0_l, <- (Zle_Qle 0). lia.
  - apply Qle_shift_div_r; [done|].
    change 100%Q with (inject_Z 100). rewrite <- inject_Z_mult, <- Zle_Qle. lia.
  - split.
    + intros H100. apply (Qmult_inj_r _ _ (inject_Z (Z.of_nat tot))) in H100.
      2:{ intros Hz. rewrite Hz in Htot. by apply Qlt_irrefl in Htot. }
      rewrite Qmult_comm, Qmult_div_r in H100.
      2:{ intros Hz. rewrite Hz in Htot. by apply Qlt_irrefl in Htot. }
      change 100%Q with (inject_Z 100) in H100.
      rewrite <- inject_Z_mult in H100.
      apply (proj1 (inject_Z_injective _ _)) in H100. lia.
    + intros ->. rewrite Z.sub_0_r, inject_Z_mult. change (inject_Z 100) with 100%Q.
      field. intros Hz. rewrite Hz in Htot. by apply Qlt_irrefl in Htot.
Qed.

Section Summary.
Context {G CRS : Type} `{GeoBackend G CRS}.
Implicit Types (db : geodatabase G CRS) (csv : result dataframe) (st : store).

(** X5. In every summary the counts are nested, analysed <= non-matching
    <= total with a positive total and high-confidence <= analysed, and the
    match percentage lies between 0 and 100, reaching 100 exactly when no
    record is non-matching. *)
Theorem summary_counts_are_nested csv db st a :
  (analyze_gdb csv db st).1 = Ok a →
  0 < total_properties a
  ∧ non_matching_count a ≤ total_properties a
  ∧ analyzed_count a ≤ non_matching_count a
  ∧ high_confidence_count a ≤ analyzed_count a
  ∧ analyzed_count a = length (properties a)
  ∧ (0 <= match_percentage a)%Q
  ∧ (match_percentage a <= 100)%Q
  ∧ ((match_percentage a == 100)%Q ↔ non_matching_count a = 0).
Proof.
  intros Ha.
  destruct (analyze_gdb_ok_inv csv db st a Ha) as (al & pl & Hfind & Hne & Hfields).
  destruct (Hfields _ _ _ eq_refl eq_refl eq_refl)
    as (Htot & Hnm & Han & Hhigh & Hprops & Hpct & _).
  destruct (analyze_gdb_returns csv db st _ _ Hfind Hne) as (a' & Ha' & _ & _ & _ & Hle & _).
  rewrite Ha in Ha'. injection Ha' as <-.
  assert (0 < total_properties a) as Hpos.
  { rewrite Htot, length_fmap. destruct (read_attributes db al); [done | simpl; lia]. }
  assert (non_matching_count a ≤ total_properties a) as Hnmle.
  { rewrite Hnm, Htot. apply length_filter. }
  split; [done|]. split; [done|]. split; [done|].
  split; [rewrite Hhigh, Han; apply length_filter|].
  split; [by rewrite Han, Hprops|].
  rewrite Hpct, <- Htot, <- Hnm.
  destruct (percentage_bounds _ _ Hpos Hnmle) as (H0 & H100 & Hiff). done.
Qed.

End Summary.

Section Fields.
Context {G CRS : Type} `{GeoBackend G CRS}.
Implicit Types (all_parcels : list (joined_row G)) (crs : option CRS).
Implicit Types (rows : list assessment_row) (results : list suggestion).

Lemma vote_fields codes_dict valid_codes n property_row latlng
    (nearby : list (joined_row G)) s :
  vote codes_dict valid_codes n property_row latlng nearby = Ok (Some s) →
  s_id s = "prop_" +:+ pretty n
  ∧ prop_id s = py_str (a_PROP_ID property_row)
  ∧ loc_id s = py_str (a_LOC_ID property_row)
  ∧ address s = py_str (a_SITE_ADDR property_row)
  ∧ current_code s = py_str (a_USE_CODE property_row)
  ∧ description s = default (PStr "Unknown") (codes_dict !! suggested_code s).
Proof.
  unfold vote. intros Hv.
  destruct (decide (length nearby = 0)); [done|].
  destruct (decide (length (nearby_valid_codes_of valid_codes nearby) = 0)); [done|].
  destruct (most_common_1 _) as [|[code votes] rest]; [done|].
  destruct (py_truediv _ _) as [conf|e]; [|done]. simpl in Hv.
  destruct (decide (code ∉ valid_codes)); [done|].
  by injection Hv as <-.
Qed.

Lemma classify_fields all_parcels crs codes_dict valid_codes n property_row s :
  classify_property all_parcels crs codes_dict valid_codes n property_row = Ok (Some s) →
  s_id s = "prop_" +:+ pretty n
  ∧ prop_id s = py_str (a_PROP_ID property_row)
  ∧ loc_id s = py_str (a_LOC_ID property_row)
  ∧ address s = py_str (a_SITE_ADDR property_row)
  ∧ current_code s = py_str (a_USE_CODE property_row)
  ∧ description s = default (PStr "Unknown") (codes_dict !! suggested_code s)
  ∧ suggested_code s ∈ valid_codes.
Proof.
  intros (g & nearby & _ & _ & _ & _ & Hv)%classify_emitted.
  destruct (vote_fields _ _ _ _ _ _ _ Hv) as (? & ? & ? & ? & ? & ?).
  destruct (vote_emitted _ _ _ _ _ _ _ Hv _ eq_refl) as (_ & _ & _ & ? & _).
  done.
Qed.

(** The loop appends, in the order of the rows, at most one suggestion per
    row, numbered from the number of results it started with. *)
Lemma analysis_loop_appends all_parcels crs codes_dict valid_codes tot count rows
    results st :
  ∃ kept new,
    (analysis_loop all_parcels crs codes_dict valid_codes tot count rows results st).1
    = results ++ new
    ∧ kept `sublist_of` rows
    ∧ Forall2 (λ row s, ∃ n, classify_property all_parcels crs codes_dict valid_codes
                               n row = Ok (Some s)) kept new
    ∧ ∀ j s, new !! j = Some s → s_id s = "prop_" +:+ pretty (length results + j).
Proof.
  revert count results st. induction rows as [|row rows IH]; intros count results st.
  - exists [], []. simpl. rewrite app_nil_r. repeat split; done.
  - simpl.
    destruct (classify_property all_parcels crs codes_dict valid_codes (length results) row)
      as [[r|]|e] eqn:Hc.
    + destruct (IH (S count) (results ++ [r])
                  (set_message ("Analyzing property " +:+ pretty count +:+ " of "
                                  +:+ pretty tot) (set_current count st)))
        as (kept & new & Heq & Hsub & Hall & Hids).
      exists (row :: kept), (r :: new). rewrite Heq, <- app_assoc.
      split; [done|]. split; [by constructor|]. split; [constructor; eauto|].
      intros [|j] s Hs; simpl in Hs.
      * injection Hs as <-. rewrite Nat.add_0_r.
        by destruct (classify_fields _ _ _ _ _ _ _ Hc) as (? & _).
      * rewrite (Hids j s Hs), length_app. simpl. do 2 f_equal. lia.
    + destruct (IH (S count) results
                  (set_message ("Analyzing property " +:+ pretty count +:+ " of "
                                  +:+ pretty tot) (set_current count st)))
        as (kept & new & Heq & Hsub & Hall & Hids).
      exists kept, new. split; [done|]. split; [by constructor|]. done.
    + destruct (IH (S count) results
                  (set_message ("Analyzing property " +:+ pretty count +:+ " of "
                                  +:+ pretty tot) (set_current count st)))
        as (kept & new & Heq & Hsub & Hall & Hids).
      exists kept, new. split; [done|]. split; [by constructor|]. done.
Qed.

Lemma perform_spatial_analysis_appends (parcels_gdf : geodf G CRS) assessment_df rows
    codes_dict valid_codes st :
  ∃ kept,
    kept `sublist_of` rows
    ∧ Forall2 (λ row s, ∃ n,
                 classify_property (build_all_parcels (gdf_rows parcels_gdf) assessment_df)
                   (gdf_crs parcels_gdf) codes_dict valid_codes n row = Ok (Some s))
        kept
        (perform_spatial_analysis parcels_gdf assessment_df rows codes_dict
           valid_codes st).1
    ∧ ∀ j s,
        (perform_spatial_analysis parcels_gdf assessment_df rows codes_dict
           valid_codes st).1 !! j = Some s →
        s_id s = "prop_" +:+ pretty j.
Proof.
  unfold perform_spatial_analysis.
  destruct (sample_coordinates (gdf_rows parcels_gdf)).
  2:{ exists []. simpl. split; [apply sublist_nil_l|]. split; [constructor|done]. }
  destruct (analysis_loop_appends
              (build_all_parcels (gdf_rows parcels_gdf) assessment_df)
              (gdf_crs parcels_gdf) codes_dict valid_codes (length rows) 1 rows []
              (set_status "processing" (set_total (length rows) st)))
    as (kept & new & Heq & Hsub & Hall & Hids).
  destruct (analysis_loop _ _ _ _ _ _ _ _ _) as [results st']. simpl in *. subst results.
  by exists kept.
Qed.

(** X6. The suggestions come in the order of the non-matching records,
    at most one per record, and each carries the property id, location
    key, address and current code of its record. *)
Theorem suggestions_follow_the_records (parcels_gdf : geodf G CRS) assessment_df rows
    codes_dict valid_codes st :
  ∃ kept,
    kept `sublist_of` rows
    ∧ Forall2 (λ row s,
                 prop_id s = py_str (a_PROP_ID row)
                 ∧ loc_id s = py_str (a_LOC_ID row)
                 ∧ address s = py_str (a_SITE_ADDR row)
                 ∧ current_code s = py_str (a_USE_CODE row))
        kept
        (perform_spatial_analysis parcels_gdf assessment_df rows codes_dict
           valid_codes st).1.
Proof.
  destruct (perform_spatial_analysis_appends parcels_gdf assessment_df rows codes_dict
              valid_codes st) as (kept & Hsub & Hall & _).
  exists kept. split; [done|].
  eapply Forall2_impl; [exact Hall|].
  intros row s [n Hc]. simpl.
  destruct (classify_fields _ _ _ _ _ _ _ Hc) as (_ & ? & ? & ? & ? & _). done.
Qed.

(** X7. The [id] of the i-th suggestion (from 0) is [prop_i], so the ids
    of a run are pairwise different even though classified properties were
    skipped in between. *)
Theorem suggestion_ids_are_positions (parcels_gdf : geodf G CRS) assessment_df rows
    codes_dict valid_codes st :
  (∀ i s,
     (perform_spatial_analysis parcels_gdf assessment_df rows codes_dict
        valid_codes st).1 !! i = Some s →
     s_id s = "prop_" +:+ pretty i)
  ∧ NoDup (s_id <$> (perform_spatial_analysis parcels_gdf assessment_df rows codes_dict
                       valid_codes st).1).
Proof.
  destruct (perform_spatial_analysis_appends parcels_gdf assessment_df rows codes_dict
              valid_codes st) as (kept & _ & _ & Hids).
  split; [exact Hids|].
  apply NoDup_alt. intros i j x Hi Hj.
  apply list_lookup_fmap_Some in Hi as (si & -> & Hsi).
  apply list_lookup_fmap_Some in Hj as (sj & Heq & Hsj).
  rewrite (Hids i si Hsi), (Hids j sj Hsj) in Heq.
  simpl in Heq. injection Heq as Heq. change (pretty i = pretty j) in Heq.
  by apply pretty_nat_inj in Heq.
Qed.

End Fields.

Section Provenance.
Context {G CRS : Type} `{GeoBackend G CRS}.
Implicit Types (db : geodatabase G CRS) (csv : result dataframe) (st : store).
Implicit Types (all_parcels : list (joined_row G)) (crs : option CRS).

(** Every suggestion of a summary was voted for a record of the
    non-matching frame. *)
Lemma analyze_gdb_properties csv db st a s :
  (analyze_gdb csv db st).1 = Ok a →
  s ∈ properties a →
  ∃ assessment_layer parcel_layer raw n,
    find_layers (list_layers db) = (Some assessment_layer, Some parcel_layer)
    ∧ raw ∈ read_attributes db assessment_layer
    ∧ (str_slice3 (py_str (a_USE_CODE raw)) ∉ dom (load_classification_codes csv))
    ∧ classify_property
        (build_all_parcels (gdf_rows (read_parcels db parcel_layer))
           (truncate_use_code <$> read_attributes db assessment_layer))
        (gdf_crs (read_parcels db parcel_layer)) (load_classification_codes csv)
        (dom (load_classification_codes csv)) n (truncate_use_code raw) = Ok (Some s).
Proof.
  intros Ha Hs.
  destruct (analyze_gdb_ok_inv csv db st a Ha) as (al & pl & Hfind & Hne & Hfields).
  destruct (Hfields _ _ _ eq_refl eq_refl eq_refl) as (_ & _ & _ & _ & Hprops & _).
  rewrite Hprops in Hs. destruct (decide (0 < _)); [|by apply elem_of_nil in Hs].
  apply perform_spatial_analysis_results in Hs as (row & n & Hrow & Hc).
  rewrite non_matching_truncated in Hrow.
  apply list_elem_of_fmap in Hrow as (raw & -> & Hraw).
  apply list_elem_of_filter in Hraw as [Hinvalid Hraw].
  by exists al, pl, raw, n.
Qed.

(** X8. Every suggestion of a summary replaces a code that is not in the
    reference table (the first three characters of the record's code) by a
    different code that is, and its description is the table's entry for
    the suggested code, never the "Unknown" default. *)
Theorem suggestions_replace_unknown_codes csv db st a s :
  (analyze_gdb csv db st).1 = Ok a →
  s ∈ properties a →
  (suggested_code s ∈ dom (load_classification_codes csv))
  ∧ (current_code s ∉ dom (load_classification_codes csv))
  ∧ suggested_code s ≠ current_code s
  ∧ load_classification_codes csv !! suggested_code s = Some (description s)
  ∧ String.length (current_code s) ≤ 3.
Proof.
  intros Ha Hs.
  destruct (analyze_gdb_properties csv db st a s Ha Hs)
    as (al & pl & raw & n & _ & _ & Hinvalid & Hc).
  destruct (classify_fields _ _ _ _ _ _ _ Hc) as (_ & _ & _ & _ & Hcur & Hdesc & Hvalid).
  simpl in Hcur. rewrite Hcur.
  split; [done|]. split; [done|]. split; [by intros Heq; rewrite Heq in Hvalid|].
  split; [|apply str_slice3_length].
  apply elem_of_dom in Hvalid as [d Hd]. by rewrite Hdesc, Hd.
Qed.

(** X9. The joined dataset is the inner join of the two layers on the
    stringified location key: it has exactly one record for every pair of
    a parcel and an assessment record whose keys have the same string
    form, with the parcel's geometry and the record's attributes, its use
    code cut to three characters. *)
Theorem joined_dataset_is_inner_join (parcels : list (parcel_row G)) assessment_df r :
  r ∈ build_all_parcels parcels assessment_df
  ↔ ∃ p a, p ∈ parcels ∧ a ∈ assessment_df
      ∧ py_str (a_LOC_ID a) = py_str (p_LOC_ID p)
      ∧ r = {| LOC_ID := py_str (p_LOC_ID p); geometry := p_geometry p;
               PROP_ID := a_PROP_ID a; SITE_ADDR := a_SITE_ADDR a;
               USE_CODE := str_slice3 (py_str (a_USE_CODE a)) |}.
Proof.
  unfold build_all_parcels, merge_inner. split.
  - intros (j & -> & Hj)%list_elem_of_fmap.
    apply list_elem_of_bind in Hj as (p' & Hj & Hp').
    apply list_elem_of_fmap in Hp' as (p & -> & Hp).
    apply list_elem_of_fmap in Hj as (a' & -> & Ha').
    apply list_elem_of_filter in Ha' as [Hkey Ha'].
    apply list_elem_of_fmap in Ha' as (a & -> & Ha).
    exists p, a. simpl in *. injection Hkey as Hkey. done.
  - intros (p & a & Hp & Ha & Hkey & ->).
    apply list_elem_of_fmap.
    exists (join_rows (stringify_parcel p) (stringify_loc a)). split; [done|].
    apply list_elem_of_bind. exists (stringify_parcel p).
    split; [|by apply list_elem_of_fmap_2].
    apply list_elem_of_fmap_2, list_elem_of_filter.
    split; [simpl; by rewrite Hkey | by apply list_elem_of_fmap_2].
Qed.

Lemma rmapM_raise {A B} (f : A → result B) l e :
  rmapM f l = Raise e → ∃ x, x ∈ l ∧ f x = Raise e.
Proof.
  induction l as [|x l IH]; [done|]. simpl.
  destruct (f x) as [y|e'] eqn:Hx; simpl.
  - destruct (rmapM f l) as [ys|e'']; simpl; [done|].
    intros [= ->]. destruct (IH eq_refl) as (x' & Hin & Hx').
    exists x'. split; [by right | done].
  - intros [= ->]. exists x. split; [left | done].
Qed.

Lemma vote_never_raises codes_dict valid_codes n property_row latlng
    (nearby : list (joined_row G)) e :
  vote codes_dict valid_codes n property_row latlng nearby ≠ Raise e.
Proof.
  unfold vote. destruct (decide (length nearby = 0)); [done|].
  destruct (decide (length _ = 0)) as [|Hlen]; [done|].
  destruct (most_common_1 _) as [|[code votes] rest]; [done|].
  unfold py_truediv. rewrite decide_False by lia. simpl.
  by destruct (decide (code ∉ valid_codes)).
Qed.

(** X10. When the classification of a property raises, the exception is
    the one raised on reading the coordinates of the centroid of the
    property's geometry (an empty geometry), or else the one [buffer]
    raised on that geometry or the one [intersects] raised on a joined
    parcel against the buffer; a failed reprojection, a missing geometry or
    an empty neighbourhood never raises. And a property whose centroid
    cannot be read does raise, whatever the rest of the data. *)
Theorem classification_raises_only_from_geometry all_parcels crs codes_dict valid_codes n
    property_row e :
  (classify_property all_parcels crs codes_dict valid_codes n property_row = Raise e →
   ∃ g, subject_geometry all_parcels property_row = Some g
     ∧ (centroid g = Raise e
        ∨ (∃ x y, centroid g = Ok (x, y))
          ∧ (buffer g 100 = Raise e
             ∨ ∃ buffer_geom r g', buffer g 100 = Ok buffer_geom ∧ r ∈ all_parcels
                 ∧ geometry r = Some g' ∧ intersects g' buffer_geom = Raise e)))
  ∧ (∀ g, subject_geometry all_parcels property_row = Some g →
          centroid g = Raise e →
          classify_property all_parcels crs codes_dict valid_codes n property_row
          = Raise e).
Proof.
  unfold classify_property, subject_geometry, location_key. split.
  - intros Hc.
    destruct (filter _ all_parcels) as [|pg rest]; [done|].
    destruct (geometry pg) as [g|]; [|done].
    exists g. split; [done|].
    destruct (centroid g) as [[x y]|e'] eqn:Hxy; simpl in Hc; [|left; congruence].
    right. split; [by exists x, y|].
    destruct (centroid_latlng crs x y) as [[la ln]|]; [|done].
    destruct (in_massachusetts la ln); [|done]. simpl in Hc.
    unfold nearby_parcels_of in Hc.
    destruct (buffer g 100) as [buf|e'] eqn:Hb; simpl in Hc; [|left; congruence].
    right. destruct (intersects_mask all_parcels buf) as [mask|e'] eqn:Hm; simpl in Hc.
    + by apply vote_never_raises in Hc.
    + injection Hc as ->. apply rmapM_raise in Hm as (r & Hr & Hi).
      destruct (geometry r) as [g'|] eqn:Hg; [|done].
      by exists buf, r, g'.
  - intros g Hg Hxy.
    destruct (filter _ all_parcels) as [|pg rest]; [done|].
    by rewrite Hg, Hxy.
Qed.

(** X11. When the first row of the parcel layer has no geometry, the debug
    print of line 174 raises inside [perform_spatial_analysis], whose
    [except] returns no result: the run still succeeds, with every
    non-matching record counted, but with no suggestion at all and with
    the progress state never written. *)
Theorem missing_first_geometry_silences_the_analysis csv db st assessment_layer
    parcel_layer p parcels :
  find_layers (list_layers db) = (Some assessment_layer, Some parcel_layer) →
  read_attributes db assessment_layer ≠ [] →
  gdf_rows (read_parcels db parcel_layer) = p :: parcels →
  p_geometry p = None →
  ∃ a, analyze_gdb csv db st = (Ok a, st)
    ∧ properties a = [] ∧ analyzed_count a = 0
    ∧ total_properties a = length (read_attributes db assessment_layer)
    ∧ non_matching_count a
      = length (filter (λ r, str_slice3 (py_str (a_USE_CODE r))
                               ∉ dom (load_classification_codes csv))
                  (read_attributes db assessment_layer)).
Proof.
  intros Hfind Hne Hrows Hgeom.
  rewrite (analyze_gdb_unfold csv db st _ _ Hfind _ _ _ eq_refl eq_refl eq_refl).
  unfold py_truediv. rewrite decide_False.
  2:{ rewrite length_fmap. destruct (read_attributes db assessment_layer); [done|].
      simpl. lia. }
  assert ((if decide (0 < length (non_matching (dom (load_classification_codes csv))
                        (truncate_use_code <$> read_attributes db assessment_layer)))
           then perform_spatial_analysis (read_parcels db parcel_layer)
                  (truncate_use_code <$> read_attributes db assessment_layer)
                  (non_matching (dom (load_classification_codes csv))
                     (truncate_use_code <$> read_attributes db assessment_layer))
                  (load_classification_codes csv)
                  (dom (load_classification_codes csv)) st
           else ([], st)) = ([], st)) as ->.
  { destruct (decide (0 < _)); [|done].
    unfold perform_spatial_analysis, sample_coordinates. by rewrite Hrows, Hgeom. }
  eexists. split; [reflexivity|]. simpl.
  split; [done|]. split; [done|]. rewrite !length_fmap. split; [done|].
  by rewrite non_matching_truncated, length_fmap.
Qed.

(** X12. A suggestion is only ever made for a property that is in both
    layers under the same stringified location key, on a parcel that has a
    geometry; a record whose key no parcel carries is skipped. *)
Theorem suggestions_need_both_layers (parcels_gdf : geodf G CRS) assessment_df rows
    codes_dict valid_codes st :
  (∀ n property_row,
     (∀ p, p ∈ gdf_rows parcels_gdf → py_str (p_LOC_ID p) ≠ location_key property_row) →
     classify_property (build_all_parcels (gdf_rows parcels_gdf) assessment_df)
       (gdf_crs parcels_gdf) codes_dict valid_codes n property_row = Ok None)
  ∧ (∀ s,
       s ∈ (perform_spatial_analysis parcels_gdf assessment_df rows codes_dict
              valid_codes st).1 →
       ∃ p a, p ∈ gdf_rows parcels_gdf ∧ a ∈ assessment_df
         ∧ py_str (p_LOC_ID p) = loc_id s ∧ py_str (a_LOC_ID a) = loc_id s
         ∧ is_Some (p_geometry p)).
Proof.
  split.
  - intros n row Hnone. unfold classify_property.
    destruct (filter _ _) as [|pg rest] eqn:Hf; [done|].
    assert (pg ∈ filter (λ r : joined_row G, LOC_ID r = py_str (a_LOC_ID row))
                   (build_all_parcels (gdf_rows parcels_gdf) assessment_df)) as Hpg
      by (rewrite Hf; left).
    apply list_elem_of_filter in Hpg as [Hkey Hpg].
    apply build_all_parcels_elem in Hpg as (p & a & Hp & _ & _ & Hloc & _).
    destruct (Hnone p Hp). unfold location_key. congruence.
  - intros s (row & n & Hrow & Hc)%perform_spatial_analysis_results.
    destruct (classify_fields _ _ _ _ _ _ _ Hc) as (_ & _ & Hloc & _).
    apply classify_emitted in Hc as (g & nearby & Hg & _).
    unfold subject_geometry in Hg.
    destruct (filter _ _) as [|pg rest] eqn:Hf; [done|].
    assert (pg ∈ filter (λ r : joined_row G, LOC_ID r = location_key row)
                   (build_all_parcels (gdf_rows parcels_gdf) assessment_df)) as Hpg
      by (rewrite Hf; left).
    apply list_elem_of_filter in Hpg as [Hkey Hpg].
    apply build_all_parcels_elem in Hpg as (p & a & Hp & Ha & Hka & Hloc' & Hgeo & _).
    exists p, a. unfold location_key in Hkey.
    split; [done|]. split; [done|]. split; [congruence|]. split; [congruence|].
    rewrite <- Hgeo, Hg. by eexists.
Qed.

End Provenance.

(** ** Finding the geodatabase in the archive *)

Lemma fs_dir_ind (P : fs_dir → Prop) :
  (∀ name subdirs files, Forall P subdirs → P (Dir name subdirs files)) →
  ∀ d, P d.
Proof.
  intros HP. fix IH 1. intros [name subdirs files]. apply HP.
  induction subdirs as [|sub subdirs IHs]; constructor; [apply IH | exact IHs].
Qed.

Lemma str_endswith_app a b suffix :
  str_endswith b suffix = true → str_endswith (a +:+ b) suffix = true.
Proof.
  intros Hb. induction a as [|c a IH]; [done|]. simpl. rewrite IH. apply orb_true_r.
Qed.

Lemma path_join_endswith root name suffix :
  str_endswith name suffix = true → str_endswith (path_join root name) suffix = true.
Proof.
  intros Hn. unfold path_join. destruct (String.prefix "/" name); [done|].
  destruct (bool_decide (root = "") || str_endswith root "/").
  - by apply str_endswith_app.
  - apply str_endswith_app. by apply (str_endswith_app "/").
Qed.

Lemma first_gdb_None root dirs :
  first_gdb root dirs = None ↔ Forall (λ n, str_endswith n ".gdb" = false) dirs.
Proof.
  induction dirs as [|n dirs IH]; simpl; [by split; [constructor|]|].
  rewrite Forall_cons. destruct (str_endswith n ".gdb"); [|by rewrite IH; tauto].
  split; [done | by intros [? _]].
Qed.

Lemma first_gdb_Some root dirs gdb_path :
  first_gdb root dirs = Some gdb_path →
  ∃ n, n ∈ dirs ∧ str_endswith n ".gdb" = true ∧ gdb_path = path_join root n.
Proof.
  induction dirs as [|n dirs IH]; simpl; [done|].
  destruct (str_endswith n ".gdb") eqn:Hn.
  - intros [= <-]. exists n. split; [left | done].
  - intros (n' & Hin & Hrest)%IH. exists n'. split; [by right | done].
Qed.

Lemma find_gdb_app l1 l2 :
  find_gdb (l1 ++ l2)
  = match find_gdb l1 with Some gdb_path => Some gdb_path | None => find_gdb l2 end.
Proof.
  induction l1 as [|[[root dirs] files] l1 IH]; [done|]. simpl.
  by destruct (first_gdb root dirs).
Qed.

Lemma find_gdb_Some walked gdb_path :
  find_gdb walked = Some gdb_path →
  ∃ root dirs files n, (root, dirs, files) ∈ walked ∧ n ∈ dirs
    ∧ str_endswith n ".gdb" = true ∧ gdb_path = path_join root n.
Proof.
  induction walked as [|[[root dirs] files] walked IH]; [done|]. simpl.
  destruct (first_gdb root dirs) as [p|] eqn:Hf.
  - intros [= <-]. apply first_gdb_Some in Hf as (n & Hin & Hn & ->).
    exists root, dirs, files, n. split; [left | done].
  - intros (root' & dirs' & files' & n & Hin & Hrest)%IH.
    exists root', dirs', files', n. split; [by right | done].
Qed.

Lemma find_gdb_walk_None root d :
  find_gdb (os_walk root d) = None ↔ has_gdb_below d = false.
Proof.
  revert root. induction d as [name subdirs files IH] using fs_dir_ind. intros root.
  simpl. destruct (first_gdb root (dir_name <$> subdirs)) eqn:Hf.
  - split; [done|]. intros Hnone. exfalso.
    apply first_gdb_Some in Hf as (n & Hin & Hn & _).
    apply list_elem_of_fmap in Hin as (sub & -> & Hsub).
    assert (existsb (λ sub, str_endswith (dir_name sub) ".gdb" || has_gdb_below sub)
              subdirs = true) as Hex; [|congruence].
    apply existsb_exists. exists sub. split; [by apply list_elem_of_In|].
    by rewrite Hn.
  - apply first_gdb_None in Hf. rewrite Forall_fmap in Hf.
    clear name files. revert root.
    induction subdirs as [|sub subdirs IHs]; intros root; [done|].
    apply Forall_cons in IH as [IHsub IH]. apply Forall_cons in Hf as [Hsub Hf].
    simpl in *. rewrite find_gdb_app, Hsub. simpl.
    destruct (find_gdb (os_walk (path_join root (dir_name sub)) sub)) eqn:Hw.
    + split; [done|]. intros Hnone. apply orb_false_iff in Hnone as [Hnone _].
      apply (proj2 (IHsub (path_join root (dir_name sub)))) in Hnone. congruence.
    + apply (proj1 (IHsub _)) in Hw. rewrite Hw. simpl. by apply IHs.
Qed.

Lemma find_gdb_walk_endswith root d gdb_path :
  find_gdb (os_walk root d) = Some gdb_path → str_endswith gdb_path ".gdb" = true.
Proof.
  intros (root' & dirs & files & n & _ & _ & Hn & ->)%find_gdb_Some.
  by apply path_join_endswith.
Qed.

Section ExtractClaims.
Context {G CRS : Type} `{GeoBackend G CRS}.
Implicit Types (read_gdb : string → geodatabase G CRS) (csv : result dataframe).
Implicit Types (st : store) (exn_str : exn → string).

(** X13. An archive with no directory, at any depth, whose name ends in
    [.gdb] fails with "Error processing GDB: No .gdb file found in zip"
    before anything is read or written to the progress state; a plain file
    of such a name does not count. *)
Theorem archive_without_gdb_fails exn_str temp_dir extracted read_gdb csv st :
  (∀ msg, exn_str (Exception msg) = msg) →
  has_gdb_below extracted = false →
  extract_and_analyze_gdb exn_str temp_dir (Ok extracted) read_gdb csv st
  = (Raise (Exception "Error processing GDB: No .gdb file found in zip"), st).
Proof.
  intros Hstr Hnone. unfold extract_and_analyze_gdb.
  rewrite (proj2 (find_gdb_walk_None temp_dir extracted) Hnone). by rewrite Hstr.
Qed.

(** X14. When the archive has such a directory, the analysis runs on one
    path, which ends in [.gdb]; a [.gdb] directory at the top level of the
    archive is preferred to any nested one; the summary is passed on as it
    is, and a failure is passed on as an [Exception] whose message is the
    original one behind "Error processing GDB: ". *)
Theorem archive_with_gdb_is_analyzed exn_str temp_dir extracted read_gdb csv st :
  has_gdb_below extracted = true →
  ∃ gdb_path,
    find_gdb (os_walk temp_dir extracted) = Some gdb_path
    ∧ str_endswith gdb_path ".gdb" = true
    ∧ (∀ top, first_gdb temp_dir (dir_name <$> dir_subdirs extracted) = Some top →
              gdb_path = top)
    ∧ (extract_and_analyze_gdb exn_str temp_dir (Ok extracted) read_gdb csv st).2
      = (analyze_gdb csv (read_gdb gdb_path) st).2
    ∧ (∀ a, (analyze_gdb csv (read_gdb gdb_path) st).1 = Ok a →
            (extract_and_analyze_gdb exn_str temp_dir (Ok extracted) read_gdb csv st).1
            = Ok a)
    ∧ (∀ e, (analyze_gdb csv (read_gdb gdb_path) st).1 = Raise e →
            (extract_and_analyze_gdb exn_str temp_dir (Ok extracted) read_gdb csv st).1
            = Raise (Exception ("Error processing GDB: " +:+ exn_str e))).
Proof.
  intros Hsome.
  destruct (find_gdb (os_walk temp_dir extracted)) as [gdb_path|] eqn:Hfind.
  2:{ apply find_gdb_walk_None in Hfind. congruence. }
  exists gdb_path. split; [done|].
  split; [by apply find_gdb_walk_endswith in Hfind|]. split.
  - intros top Htop. destruct extracted as [name subdirs files]. simpl in *.
    rewrite Htop in Hfind. congruence.
  - unfold extract_and_analyze_gdb. rewrite Hfind.
    destruct (analyze_gdb csv (read_gdb gdb_path) st) as [[a|e] st']; simpl.
    + split; [done|]. split; [done | by intros e].
    + split; [done|]. split; [by intros a | by intros e' [= ->]].
Qed.

(** X15. An upload is analysed only when a file part is present, has a
    name and the name ends in [.zip] in any letter case; otherwise it is
    answered with the matching error and the progress state is untouched.
    A run that fails with an [Exception] is answered with its message
    behind "Error processing file: Error processing GDB: ". *)
Theorem upload_errors exn_str temp_dir extracted read_gdb csv st :
  (∀ msg, exn_str (Exception msg) = msg) →
  upload_file exn_str None temp_dir (Ok extracted) read_gdb csv st
  = (UploadError "No file uploaded", st)
  ∧ upload_file exn_str (Some "") temp_dir (Ok extracted) read_gdb csv st
    = (UploadError "No file selected", st)
  ∧ (∀ filename,
       filename ≠ "" → str_endswith (str_lower filename) ".zip" = false →
       upload_file exn_str (Some filename) temp_dir (Ok extracted) read_gdb csv st
       = (UploadError "Please upload a .zip file", st))
  ∧ (∀ filename gdb_path msg,
       filename ≠ "" → str_endswith (str_lower filename) ".zip" = true →
       find_gdb (os_walk temp_dir extracted) = Some gdb_path →
       (analyze_gdb csv (read_gdb gdb_path) st).1 = Raise (Exception msg) →
       (upload_file exn_str (Some filename) temp_dir (Ok extracted) read_gdb csv st).1
       = UploadError ("Error processing file: Error processing GDB: " +:+ msg)).
Proof.
  intros Hstr. split; [done|]. split; [done|]. split.
  - intros filename Hne Hzip. unfold upload_file.
    rewrite bool_decide_eq_false_2 by done. by rewrite Hzip.
  - intros filename gdb_path msg Hne Hzip Hfind Hrun. unfold upload_file.
    rewrite bool_decide_eq_false_2 by done. rewrite Hzip. simpl.
    unfold extract_and_analyze_gdb. rewrite Hfind.
    destruct (analyze_gdb csv (read_gdb gdb_path) st) as [[a|e] st']; simpl in *; [done|].
    injection Hrun as ->. by rewrite !Hstr.
Qed.

End ExtractClaims.

(** ** The cleaned dataset *)

Lemma dict_get_set k v d k' :
  dict_get k' (dict_set k v d) = if decide (k = k') then Some v else dict_get k' d.
Proof.
  induction d as [|[k0 v0] d IH]; simpl.
  - destruct (decide (k = k')); done.
  - destruct (decide (k0 = k)) as [->|Hne]; simpl.
    + destruct (decide (k = k')); done.
    + rewrite IH. destruct (decide (k0 = k')) as [->|]; [|done].
      by rewrite decide_False.
Qed.

Lemma dict_set_keys k v d :
  (dict_set k v d).*1 = if decide (k ∈ d.*1) then d.*1 else d.*1 ++ [k].
Proof.
  induction d as [|[k0 v0] d IH]; csimpl.
  - destruct (decide (k ∈ [])) as [?%elem_of_nil|]; done.
  - destruct (decide (k0 = k)) as [->|Hne]; csimpl.
    + rewrite decide_True; [done | left].
    + rewrite IH. destruct (decide (k ∈ d.*1)) as [Hin|Hin].
      * rewrite decide_True; [done | by right].
      * rewrite decide_False; [done|].
        intros [?|?]%elem_of_cons; [congruence | done].
Qed.

Lemma suggestions_map_of_snoc properties prop :
  suggestions_map_of (properties ++ [prop])
  = dict_set (prop_id prop) (suggested_code prop) (suggestions_map_of properties).
Proof. unfold suggestions_map_of. by rewrite foldl_app. Qed.

Lemma suggestions_map_NoDup properties : NoDup (suggestions_map_of properties).*1.
Proof.
  induction properties as [|prop properties IH] using rev_ind; [constructor|].
  rewrite suggestions_map_of_snoc, dict_set_keys.
  destruct (decide (_ ∈ _)) as [|Hnew]; [done|].
  apply NoDup_app. split; [done|]. split; [|apply NoDup_singleton].
  intros k Hk ->%list_elem_of_singleton. done.
Qed.

Lemma suggestions_map_get k properties :
  dict_get k (suggestions_map_of properties) = latest_suggestion k properties.
Proof.
  induction properties as [|prop properties IH] using rev_ind; [done|].
  rewrite suggestions_map_of_snoc, dict_get_set, IH.
  unfold latest_suggestion. rewrite filter_app, filter_cons, filter_nil.
  destruct (decide (prop_id prop = k)); [by rewrite last_snoc|].
  by rewrite app_nil_r.
Qed.

Lemma replace_use_code_rowwise prop_id code cleaned_df :
  replace_use_code prop_id code cleaned_df
  = (λ a, if decide (py_str (a_PROP_ID a) = prop_id) then with_use_code a code else a)
      <$> cleaned_df.
Proof.
  unfold replace_use_code.
  assert (∀ df : list assessment_row,
            (λ a, if bool_decide (py_str (a_PROP_ID a) = prop_id)
                  then {| a_LOC_ID := a_LOC_ID a; a_PROP_ID := a_PROP_ID a;
                          a_SITE_ADDR := a_SITE_ADDR a; a_USE_CODE := PStr code |}
                  else a) <$> df
            = (λ a, if decide (py_str (a_PROP_ID a) = prop_id)
                    then with_use_code a code else a) <$> df) as Hsame.
  { intros df. apply list_fmap_ext. intros i a _. simpl.
    destruct (decide (py_str (a_PROP_ID a) = prop_id)).
    - by rewrite bool_decide_eq_true_2.
    - by rewrite bool_decide_eq_false_2. }
  destruct (existsb id _) eqn:Hany; [apply Hsame|].
  induction cleaned_df as [|a df IH]; [done|]. simpl in Hany.
  apply orb_false_iff in Hany as [Ha Hany]. unfold id in Ha.
  apply bool_decide_eq_false in Ha. rewrite fmap_cons, decide_False by done.
  f_equal. by apply IH.
Qed.

Lemma foldl_replace_rowwise (d : list (string * string)) cleaned_df :
  NoDup d.*1 →
  foldl (λ df '(prop_id, code), replace_use_code prop_id code df) cleaned_df d
  = (λ a, match dict_get (py_str (a_PROP_ID a)) d with
          | Some code => with_use_code a code
          | None => a
          end) <$> cleaned_df.
Proof.
  revert cleaned_df. induction d as [|[k v] d IH]; intros df Hnd; simpl.
  - symmetry. apply list_fmap_id.
  - apply NoDup_cons in Hnd as [Hk Hnd].
    rewrite IH, replace_use_code_rowwise, <- list_fmap_compose by done.
    apply list_fmap_ext. intros i a _. simpl.
    destruct (decide (k = py_str (a_PROP_ID a))) as [->|Hne].
    + rewrite decide_True by done. simpl.
      assert (dict_get (py_str (a_PROP_ID a)) d = None) as ->; [|done].
      clear -Hk. induction d as [|[k' v'] d IH]; [done|]. simpl.
      apply not_elem_of_cons in Hk as [Hne Hk]. rewrite decide_False by done.
      by apply IH.
    + by rewrite decide_False.
Qed.

Lemma clean_use_codes_rowwise assessment_data properties :
  clean_use_codes assessment_data properties
  = (λ a, match latest_suggestion (py_str (a_PROP_ID a)) properties with
          | Some code => with_use_code a code
          | None => a
          end) <$> assessment_data.
Proof.
  unfold clean_use_codes.
  rewrite foldl_replace_rowwise by apply suggestions_map_NoDup.
  apply list_fmap_ext. intros i a _. simpl. by rewrite suggestions_map_get.
Qed.

(** X16. The cleaned dataset has the rows of the assessment data in the
    same order. A row whose stringified property id carries a suggestion
    gets the code of the last such suggestion, whichever row the
    suggestion was made for, and keeps its other fields; every other row
    is unchanged. *)
Theorem cleaned_rows_take_the_latest_suggestion assessment_data properties :
  clean_use_codes assessment_data properties
  = (λ a, match latest_suggestion (py_str (a_PROP_ID a)) properties with
          | Some code => with_use_code a code
          | None => a
          end) <$> assessment_data.
Proof.
  unfold clean_use_codes.
  rewrite (foldl_replace_rowwise (suggestions_map_of properties) assessment_data
             (suggestions_map_NoDup properties)).
  apply list_fmap_ext. intros i a _. simpl.
  rewrite suggestions_map_get.
  by destruct (latest_suggestion (py_str (a_PROP_ID a)) properties).
Qed.

Section UploadClaims.
Context {G CRS : Type} `{GeoBackend G CRS}.
Implicit Types (read_gdb : string → geodatabase G CRS) (csv : result dataframe).
Implicit Types (st : store) (exn_str : exn → string).

Lemma upload_done_inv exn_str file temp_dir extractall read_gdb csv st a raw cleaned :
  (upload_file exn_str file temp_dir extractall read_gdb csv st).1
  = UploadDone a raw cleaned →
  raw = assessment_data a
  ∧ cleaned = clean_use_codes (assessment_data a) (properties a)
  ∧ ∃ gdb_path, (analyze_gdb csv (read_gdb gdb_path) st).1 = Ok a.
Proof.
  unfold upload_file. destruct file as [filename|]; [|done].
  destruct (bool_decide (filename = "")); [done|].
  destruct (negb _); [done|].
  unfold extract_and_analyze_gdb.
  destruct extractall as [extracted|e]; [|done].
  destruct (find_gdb _) as [gdb_path|]; [|done].
  destruct (analyze_gdb csv (read_gdb gdb_path) st) as [[a'|e] st'] eqn:Hrun; [|done].
  simpl. intros [= <- <- <-]. split; [done|]. split; [done|].
  exists gdb_path. by rewrite Hrun.
Qed.

(** X17. After a successful upload the cleaned CSV has one row for every
    assessment record, in the order of the raw CSV. A row is rewritten
    exactly when a suggestion carries its property id; it then gets the
    code of the last such suggestion, a code of the reference table, and
    keeps its other fields. Every other row equals its raw row, so the
    non-matching records that got no suggestion keep their codes. *)
Theorem upload_cleans_with_valid_codes exn_str file temp_dir extractall read_gdb csv st
    a raw cleaned :
  (upload_file exn_str file temp_dir extractall read_gdb csv st).1
  = UploadDone a raw cleaned →
  length raw = total_properties a
  ∧ length cleaned = length raw
  ∧ ∀ i r c, raw !! i = Some r → cleaned !! i = Some c →
      match latest_suggestion (py_str (a_PROP_ID r)) (properties a) with
      | Some code => c = with_use_code r code ∧ code ∈ dom (load_classification_codes csv)
      | None => c = r
      end.
Proof.
  intros (-> & -> & gdb_path & Ha)%upload_done_inv.
  destruct (analyze_gdb_ok_inv csv (read_gdb gdb_path) st a Ha)
    as (al & pl & Hfind & Hne & Hfields).
  destruct (Hfields _ _ _ eq_refl eq_refl eq_refl)
    as (Htot & _ & _ & _ & _ & _ & Hdata & _).
  rewrite clean_use_codes_rowwise, length_fmap.
  split; [|split; [done|]].
  - rewrite Hdata, Htot. destruct (decide (0 < _)); by rewrite ?length_fmap.
  - intros i r c Hr Hc. rewrite list_lookup_fmap, Hr in Hc. simpl in Hc.
    injection Hc as Heq. subst c.
    destruct (latest_suggestion (py_str (a_PROP_ID r)) (properties a)) as [code|] eqn:Hl;
      [|done].
    split; [done|]. unfold latest_suggestion in Hl.
    destruct (last (filter _ (properties a))) as [s|] eqn:Hlast; [|done].
    injection Hl as <-. apply last_Some_elem_of in Hlast.
    apply list_elem_of_filter in Hlast as [_ Hs].
    destruct (analyze_gdb_properties csv (read_gdb gdb_path) st a s Ha Hs)
      as (al' & pl' & row & n & _ & _ & _ & Hc).
    by destruct (classify_fields _ _ _ _ _ _ _ Hc) as (_ & _ & _ & _ & _ & _ & ?).
Qed.

End UploadClaims.

(** ** Shapefiles to spreadsheets *)

Lemma str_length_app a b : String.length (a +:+ b) = String.length a + String.length b.
Proof. induction a as [|c a IH]; simpl; [done | by rewrite IH]. Qed.

Lemma str_app_assoc a b c : (a +:+ b) +:+ c = a +:+ (b +:+ c).
Proof.
  induction a as [|x a IH]; [done|].
  change (String x ((a +:+ b) +:+ c) = String x (a +:+ (b +:+ c))). by f_equal.
Qed.

Lemma str_get_app_r a b j : String.get (String.length a + j) (a +:+ b) = String.get j b.
Proof. induction a as [|c a IH]; simpl; [done | exact IH]. Qed.

Lemma str_get_app_l a b j : j < String.length a → String.get j (a +:+ b) = String.get j a.
Proof.
  revert j. induction a as [|c a IH]; intros j Hj; simpl in *; [lia|].
  destruct j as [|j]; [done|]. apply IH. lia.
Qed.

Lemma str_get_Some_lt j s c : String.get j s = Some c → j < String.length s.
Proof.
  revert j. induction s as [|x s IH]; intros j; simpl; [done|].
  destruct j as [|j]; [lia|]. intros Hj. apply IH in Hj. lia.
Qed.

Lemma str_substring_app a b : String.substring 0 (String.length a) (a +:+ b) = a.
Proof.
  induction a as [|c a IH]; simpl; [by destruct b | by rewrite IH].
Qed.

Lemma str_rfind_lt c s i : str_rfind c s = Some i → i < String.length s.
Proof.
  revert i. induction s as [|x s IH]; intros i; simpl; [done|].
  destruct (str_rfind c s) as [j|].
  - intros [= <-]. specialize (IH j eq_refl). lia.
  - destruct (decide (x = c)); [|done]. intros [= <-]. lia.
Qed.

Lemma str_rfind_app_Some c a b i :
  str_rfind c b = Some i → str_rfind c (a +:+ b) = Some (String.length a + i).
Proof. intros Hb. induction a as [|x a IH]; simpl; [done | by rewrite IH]. Qed.

Lemma str_rfind_app_None c a b :
  str_rfind c b = None → str_rfind c (a +:+ b) = str_rfind c a.
Proof. intros Hb. induction a as [|x a IH]; simpl; [done | by rewrite IH]. Qed.

(** The extension [.shp] is what [splitext] cuts off a path whose file
    name has a character other than a dot before it. *)
Lemma splitext_root_shp dir stem j c :
  str_rfind "/" stem = None →
  String.get j stem = Some c → c ≠ "."%char →
  splitext_root (dir +:+ stem +:+ ".shp") = dir +:+ stem.
Proof.
  intros Hslash Hj Hc. unfold splitext_root.
  assert (str_rfind "." (dir +:+ stem +:+ ".shp")
          = Some (String.length dir + (String.length stem + 0))) as ->.
  { apply str_rfind_app_Some, str_rfind_app_Some. reflexivity. }
  assert (str_rfind "/" (dir +:+ stem +:+ ".shp") = str_rfind "/" dir) as ->.
  { apply str_rfind_app_None. rewrite str_rfind_app_None by reflexivity. done. }
  rewrite Nat.add_0_r.
  set (start := match str_rfind "/" dir with Some sepIndex => S sepIndex | None => 0 end).
  assert (start ≤ String.length dir) as Hstart.
  { subst start. destruct (str_rfind "/" dir) as [i|] eqn:Hr; [|lia].
    apply str_rfind_lt in Hr. lia. }
  pose proof (str_get_Some_lt _ _ _ Hj) as Hjlt.
  rewrite (proj2 (Nat.leb_le _ _)) by lia.
  assert (existsb (λ i, negb (bool_decide
                    (String.get i (dir +:+ stem +:+ ".shp") = Some "."%char)))
            (seq start (String.length dir + String.length stem - start)) = true) as ->.
  { apply existsb_exists. exists (String.length dir + j). split.
    - apply in_seq. lia.
    - rewrite str_get_app_r, str_get_app_l, Hj by done.
      apply negb_true_iff, bool_decide_eq_false. congruence. }
  simpl. rewrite <- str_length_app, <- str_app_assoc. apply str_substring_app.
Qed.

Lemma shapefile_to_excel_raise read_file to_excel shapefile_path output_path e :
  (shapefile_to_excel read_file to_excel shapefile_path output_path).1 = Raise e →
  (shapefile_to_excel read_file to_excel shapefile_path output_path).2 = [].
Proof.
  unfold shapefile_to_excel. destruct (read_file shapefile_path) as [gdf|]; [|done].
  destruct (drop_geometry gdf) as [df|]; [|done].
  by destruct (to_excel _ df).
Qed.

Lemma shapefile_to_excel_written read_file to_excel shapefile_path path df :
  (path, df) ∈ (shapefile_to_excel read_file to_excel shapefile_path None).2 →
  ∃ gdf, read_file shapefile_path = Ok gdf
    ∧ ("geometry" ∈ gdf.*1)
    ∧ df = filter (λ col, col.1 ≠ "geometry") gdf
    ∧ path = splitext_root shapefile_path +:+ ".xlsx"
    ∧ to_excel path df = Ok ().
Proof.
  unfold shapefile_to_excel, drop_geometry.
  destruct (read_file shapefile_path) as [gdf|]; [|by intros ?%elem_of_nil].
  destruct (decide ("geometry" ∈ gdf.*1)); [|by intros ?%elem_of_nil].
  destruct (to_excel _ _) as [[]|] eqn:Hw; [|by intros ?%elem_of_nil].
  simpl. intros [= -> ->]%list_elem_of_singleton. by exists gdf.
Qed.

Lemma foldl_app_acc {A B} (g : A → list B) (l : list A) (acc : list B) :
  foldl (λ written x, written ++ g x) acc l = acc ++ flat_map g l.
Proof.
  revert acc. induction l as [|x l IH]; intros acc; simpl; [by rewrite app_nil_r|].
  by rewrite IH, app_assoc.
Qed.

(** X18. Called without an output path on [dir/stem.shp], where the stem
    has no slash and at least one character that is not a dot, a
    successful conversion writes one sheet, at [dir/stem.xlsx], holding
    the columns of the shapefile other than [geometry], and returns that
    path. *)
Theorem spreadsheet_goes_beside_the_shapefile read_file to_excel dir stem j c out :
  str_rfind "/" stem = None →
  String.get j stem = Some c → c ≠ "."%char →
  (shapefile_to_excel read_file to_excel (dir +:+ stem +:+ ".shp") None).1 = Ok out →
  out = dir +:+ stem +:+ ".xlsx"
  ∧ ∃ gdf, read_file (dir +:+ stem +:+ ".shp") = Ok gdf
      ∧ (shapefile_to_excel read_file to_excel (dir +:+ stem +:+ ".shp") None).2
        = [(dir +:+ stem +:+ ".xlsx", filter (λ col, col.1 ≠ "geometry") gdf)].
Proof.
  intros Hslash Hj Hc. unfold shapefile_to_excel, drop_geometry.
  rewrite (splitext_root_shp dir stem j c Hslash Hj Hc), str_app_assoc.
  destruct (read_file _) as [gdf|]; [|done].
  destruct (decide ("geometry" ∈ gdf.*1)); [|done].
  destruct (to_excel _ _) as [[]|]; [|done].
  simpl. intros [= <-]. split; [done|]. by exists gdf.
Qed.

(** X19. In [convert_all_shapefiles] a directory entry that does not end
    in [.shp], and a shapefile whose conversion raises (unreadable, no
    geometry column, sheet not writable), leave no sheet and do not stop
    the others: the sheets written are those of the listing without that
    entry. *)
Theorem failed_conversion_is_skipped names_before f names_after read_file to_excel :
  str_endswith f ".shp" = false
  ∨ (∃ e, (shapefile_to_excel read_file to_excel
             (path_join "./L3_SHP_M035_Boston/" f) None).1 = Raise e) →
  convert_all_shapefiles (Ok (names_before ++ f :: names_after)) read_file to_excel
  = convert_all_shapefiles (Ok (names_before ++ names_after)) read_file to_excel.
Proof.
  intros Hf. unfold convert_all_shapefiles. simpl. f_equal.
  rewrite !foldl_app_acc, !app_nil_l.
  rewrite !filter_app, filter_cons, !flat_map_app.
  destruct (decide (str_endswith f ".shp" = true)) as [Hshp|Hshp]; [|done].
  destruct Hf as [Hf|[e He]]; [congruence|].
  cbn [flat_map]. by rewrite (shapefile_to_excel_raise _ _ _ _ _ He).
Qed.

(** X20. Every sheet written by [convert_all_shapefiles] comes from a
    directory entry ending in [.shp] that could be read: it holds that
    shapefile's columns in order without any [geometry] column, and its
    path ends in [.xlsx]. *)
Theorem written_sheets_have_no_geometry names read_file to_excel written path df :
  convert_all_shapefiles (Ok names) read_file to_excel = Ok written →
  (path, df) ∈ written →
  ("geometry" ∉ df.*1)
  ∧ str_endswith path ".xlsx" = true
  ∧ ∃ f gdf, f ∈ names ∧ str_endswith f ".shp" = true
      ∧ read_file (path_join "./L3_SHP_M035_Boston/" f) = Ok gdf
      ∧ df = filter (λ col, col.1 ≠ "geometry") gdf
      ∧ path = splitext_root (path_join "./L3_SHP_M035_Boston/" f) +:+ ".xlsx".
Proof.
  unfold convert_all_shapefiles. simpl. intros [= <-]. rewrite foldl_app_acc. simpl.
  intros Hin. apply list_elem_of_In, in_flat_map in Hin as (f & Hf & Hin).
  apply list_elem_of_In, list_elem_of_filter in Hf as [Hshp Hf].
  apply list_elem_of_In in Hin.
  apply shapefile_to_excel_written in Hin as (gdf & Hread & Hgeo & -> & -> & _).
  split; [|split].
  - intros (col & Hcol & Hin)%list_elem_of_fmap.
    apply list_elem_of_filter in Hin as [Hne _]. congruence.
  - by apply str_endswith_app.
  - by exists f, gdf.
Qed.

(** ** Progress, property by property *)

Lemma loop_progress_lookup tot count left p k :
  k < left →
  loop_progress tot count left p !! (2 * k + 1)
  = Some {| current := count + k; total := total p; status := status p;
            message := "Analyzing property " +:+ pretty (count + k) +:+ " of "
                       +:+ pretty tot |}.
Proof.
  revert count p k. induction left as [|left IH]; intros count p k Hk; [lia|].
  destruct k as [|k].
  - simpl. by rewrite Nat.add_0_r.
  - replace (2 * S k + 1) with (S (S (2 * k + 1))) by lia.
    cbn [loop_progress]. rewrite <- !lookup_tail. cbn [tail].
    rewrite IH by lia. cbn [total status].
    by replace (S count + k) with (count + S k) by lia.
Qed.

Section ProgressTrace.
Context {G CRS : Type} `{GeoBackend G CRS}.

Lemma analysis_loop_progress (all_parcels : list (joined_row G)) (crs : option CRS)
    codes_dict valid_codes tot count rows results st :
  history (analysis_loop all_parcels crs codes_dict valid_codes tot count rows results st).2
  = history st ++ loop_progress tot count (length rows) (now st).
Proof.
  revert count results st. induction rows as [|row rows IH]; intros count results st.
  - simpl. by rewrite app_nil_r.
  - simpl. rewrite IH. unfold set_message, set_current. rewrite !history_write.
    by rewrite <- !app_assoc.
Qed.

(** X21. Once the spatial analysis is past its set-up, every non-matching
    record is announced in the progress state, in order and whatever
    becomes of it (suggestion, skip or exception): for each k from 1 to the
    number of records there is a snapshot with [current] = k, [total] the
    number of records, status ['processing'] and the message "Analyzing
    property k of total", at position 2k + 1 after the snapshots that were
    there before. *)
Theorem every_property_is_announced (parcels_gdf : geodf G CRS) assessment_df rows
    codes_dict valid_codes st k :
  sample_coordinates (gdf_rows parcels_gdf) = Ok () →
  1 ≤ k ≤ length rows →
  history (perform_spatial_analysis parcels_gdf assessment_df rows codes_dict
             valid_codes st).2
    !! (length (history st) + 2 * k + 1)
  = Some {| current := k; total := length rows; status := "processing";
            message := "Analyzing property " +:+ pretty k +:+ " of "
                       +:+ pretty (length rows) |}.
Proof.
  intros Hsample [Hk1 Hkn]. unfold perform_spatial_analysis. rewrite Hsample.
  pose proof (analysis_loop_progress
                (build_all_parcels (gdf_rows parcels_gdf) assessment_df)
                (gdf_crs parcels_gdf) codes_dict valid_codes (length rows) 1 rows []
                (set_status "processing" (set_total (length rows) st))) as Hloop.
  destruct (analysis_loop _ _ _ _ _ _ _ _ _) as [results st']. simpl in Hloop.
  cbn [snd]. unfold set_message at 1. unfold set_status at 1.
  rewrite !history_write, Hloop.
  unfold set_status at 1. unfold set_total at 1. rewrite !history_write.
  rewrite <- !app_assoc.
  rewrite lookup_app_r by lia.
  replace (length (history st) + 2 * k + 1 - length (history st))
    with (S (S (2 * (k - 1) + 1))) by lia.
  cbn [app]. rewrite <- !lookup_tail. cbn [tail]. rewrite lookup_app_l.
  2:{ assert (∀ tot count left p, length (loop_progress tot count left p) = 2 * left)
        as Hlen.
      { intros tot count left. revert count.
        induction left as [|left IH]; intros count p; simpl; [done|].
        rewrite IH. lia. }
      rewrite Hlen. lia. }
  rewrite loop_progress_lookup by lia. cbn [total status now set_status set_total write].
  by replace (1 + (k - 1)) with k by lia.
Qed.

End ProgressTrace.

(** ** The further properties on concrete inputs *)

Section MoreRuns.
Import Discs Town Cases.

Lemma loaded_table_lookup_witness :
  load_classification_codes (Ok table_both_headers) !! "101" = Some (PStr "One Family")
  ∧ load_classification_codes (Ok table_both_headers) !! "1" = None.
Proof.
  assert (("use_code" ∈ table_both_headers.*1)
          ∧ df_col "use_code" table_both_headers = Ok [PInt 101; PInt 102; PInt 101]
          ∧ df_col "Description" table_both_headers
            = Ok [PStr "Single Family"; PStr "Two Family"; PStr "One Family"]) as Hcase.
  { split; [|split; reflexivity]. vm_compute. right. left. }
  split.
  - rewrite (loaded_table_lookup table_both_headers _ _ "101" (or_introl Hcase)).
    reflexivity.
  - rewrite (loaded_table_lookup table_both_headers _ _ "1" (or_introl Hcase)).
    reflexivity.
Defined.

Lemma malformed_table_loads_empty_witness :
  load_classification_codes (Ok table_without_description) = ∅.
Proof.
  apply malformed_table_loads_empty. left. split.
  - left. vm_compute. left.
  - intros Hin.
    assert (Forall (λ h, h ≠ "Description") table_without_description.*1) as Hall
      by (vm_compute; repeat constructor; discriminate).
    by apply (proj1 (Forall_forall _ _) Hall _ Hin).
Defined.

Lemma find_layers_takes_last_witness :
  find_layers ["Assess_2019"; "M035TaxPar"; "m035assess"; "Parcels_Assessed"]
  = (Some "Parcels_Assessed", Some "Parcels_Assessed")
  ∧ (find_layers ["M035TaxPar"; "M035Roads"]).1 = None.
Proof.
  split.
  - rewrite (proj1 (find_layers_takes_last _)). reflexivity.
  - apply (proj1 (proj2 (find_layers_takes_last ["M035TaxPar"; "M035Roads"]))).
    repeat constructor; vm_compute; discriminate.
Defined.

Lemma missing_layer_fails_the_run_witness :
  analyze_gdb codes_csv town_without_assessment fresh_store
  = (Raise (Exception "No assessment layer found"), fresh_store)
  ∧ analyze_gdb codes_csv town_without_parcels fresh_store
    = (Raise (Exception "No parcel layer found"), fresh_store).
Proof.
  split.
  - apply (proj1 (missing_layer_fails_the_run codes_csv town_without_assessment
                    fresh_store)).
    repeat constructor; vm_compute; discriminate.
  - apply (proj2 (missing_layer_fails_the_run codes_csv town_without_parcels
                    fresh_store)).
    + left. vm_compute. reflexivity.
    + repeat constructor; vm_compute; intros [?|?]; discriminate.
Defined.

Lemma summary_counts_are_nested_witness :
  ∃ a, (analyze_gdb codes_csv town fresh_store).1 = Ok a
    ∧ total_properties a = 11 ∧ non_matching_count a = 6 ∧ analyzed_count a = 2
    ∧ (0 <= match_percentage a)%Q ∧ (match_percentage a <= 100)%Q.
Proof.
  destruct (analyze_gdb codes_csv town fresh_store).1 as [a|e] eqn:Hrun;
    [|vm_compute in Hrun; discriminate].
  destruct (summary_counts_are_nested codes_csv town fresh_store a Hrun)
    as (_ & _ & _ & _ & _ & H0 & H100 & _).
  exists a. split; [reflexivity|].
  vm_compute in Hrun. injection Hrun as <-.
  split; [reflexivity|]. split; [reflexivity|]. split; [reflexivity|].
  split; [exact H0 | exact H100].
Defined.

Lemma suggestion_ids_are_positions_witness :
  s_id suggestion_9_Main = "prop_1"
  ∧ NoDup (s_id <$> (perform_spatial_analysis parcel_layer assessment_df non_matching_df
                       codes_dict valid_codes fresh_store).1).
Proof.
  destruct (suggestion_ids_are_positions parcel_layer assessment_df non_matching_df
              codes_dict valid_codes fresh_store) as [Hids Hnodup].
  split; [|exact Hnodup].
  apply (Hids 1 suggestion_9_Main). vm_compute. reflexivity.
Defined.

Lemma suggestions_replace_unknown_codes_witness :
  ∃ a, (analyze_gdb codes_csv town fresh_store).1 = Ok a
    ∧ suggestion_7_Main ∈ properties a
    ∧ suggested_code suggestion_7_Main ≠ current_code suggestion_7_Main
    ∧ load_classification_codes codes_csv !! "102" = Some (PStr "Two Family").
Proof.
  destruct (analyze_gdb codes_csv town fresh_store).1 as [a|e] eqn:Hrun;
    [|vm_compute in Hrun; discriminate].
  assert (suggestion_7_Main ∈ properties a) as Hin.
  { vm_compute in Hrun. injection Hrun as <-. vm_compute. left. }
  destruct (suggestions_replace_unknown_codes codes_csv town fresh_store a
              suggestion_7_Main Hrun Hin) as (_ & _ & Hne & Hdesc & _).
  exists a. split; [reflexivity|]. split; [exact Hin|].
  split; [exact Hne | exact Hdesc].
Defined.

Lemma joined_dataset_is_inner_join_witness :
  {| LOC_ID := "5"; geometry := Some (point 100000 100000); PROP_ID := PStr "P5";
     SITE_ADDR := PStr "5 Main St"; USE_CODE := "101" |}
  ∈ build_all_parcels [numbered_parcel] [text_keyed_record].
Proof.
  apply (proj2 (joined_dataset_is_inner_join [numbered_parcel] [text_keyed_record] _)).
  exists numbered_parcel, text_keyed_record.
  split; [left|]. split; [left|]. split; reflexivity.
Defined.

(** On the road with the empty geometry the first property raises on its
    centroid and the next one is still classified, with the lot between
    them as its only neighbour. *)
Example low_road_run :
  (λ row, classify_property (build_all_parcels (gdf_rows low_road_parcels) low_road_records)
            (gdf_crs low_road_parcels) codes_dict valid_codes 0 row)
    <$> [row_1_Low; row_3_Low]
  = [ Raise IndexError;
      Ok (Some {| s_id := "prop_0"; prop_id := "Q3"; loc_id := "R3";
                  address := "3 Low Rd"; current_code := "994";
                  suggested_code := "101"; confidence := 1;
                  description := PStr "Single Family";
                  lat := 4200000 # 100000; lng := -7099900 # 100000;
                  nearby_count := 1 |}) ]
  ∧ length (perform_spatial_analysis low_road_parcels low_road_records
              [row_1_Low; row_3_Low] codes_dict valid_codes fresh_store).1 = 1.
Proof. split; by vm_compute. Qed.

Lemma classification_raises_only_from_geometry_witness :
  (classify_property all_parcels_gdf (gdf_crs parcel_layer) codes_dict valid_codes 2
     row_5_Elm = Raise (ExternalError "negative buffer")
   ∧ ∃ g, subject_geometry all_parcels_gdf row_5_Elm = Some g
       ∧ (centroid g = Raise (ExternalError "negative buffer")
          ∨ (∃ x y, centroid g = Ok (x, y))
            ∧ (buffer g 100 = Raise (ExternalError "negative buffer")
               ∨ ∃ buffer_geom r g', buffer g 100 = Ok buffer_geom ∧ r ∈ all_parcels_gdf
                   ∧ geometry r = Some g'
                   ∧ intersects g' buffer_geom = Raise (ExternalError "negative buffer"))))
  ∧ subject_geometry (build_all_parcels (gdf_rows low_road_parcels) low_road_records)
      row_1_Low = Some Empty
  ∧ centroid Empty = Raise IndexError
  ∧ classify_property (build_all_parcels (gdf_rows low_road_parcels) low_road_records)
      (gdf_crs low_road_parcels) codes_dict valid_codes 0 row_1_Low = Raise IndexError.
Proof.
  assert (classify_property all_parcels_gdf (gdf_crs parcel_layer) codes_dict valid_codes 2
            row_5_Elm = Raise (ExternalError "negative buffer")) as Hraise
    by (vm_compute; reflexivity).
  assert (subject_geometry (build_all_parcels (gdf_rows low_road_parcels) low_road_records)
            row_1_Low = Some Empty) as Hempty by (vm_compute; reflexivity).
  split; [split; [exact Hraise|]|split; [exact Hempty|split; [reflexivity|]]].
  - exact (proj1 (classification_raises_only_from_geometry _ _ _ _ _ _ _) Hraise).
  - exact (proj2 (classification_raises_only_from_geometry
                    (build_all_parcels (gdf_rows low_road_parcels) low_road_records)
                    (gdf_crs low_road_parcels) codes_dict valid_codes 0 row_1_Low
                    IndexError) Empty Hempty eq_refl).
Defined.

Lemma missing_first_geometry_silences_the_analysis_witness :
  ∃ a, analyze_gdb codes_csv town_with_null_geometry fresh_store = (Ok a, fresh_store)
    ∧ properties a = [] ∧ analyzed_count a = 0
    ∧ total_properties a = 11.
Proof.
  destruct (missing_first_geometry_silences_the_analysis codes_csv town_with_null_geometry
              fresh_store "M035Assess" "M035TaxPar"
              {| p_LOC_ID := PStr "L0"; p_geometry := None |} (gdf_rows parcel_layer))
    as (a & Hrun & Hprops & Hcount & Htot & _).
  - reflexivity.
  - discriminate.
  - reflexivity.
  - reflexivity.
  - exists a. split; [exact Hrun|]. split; [exact Hprops|]. split; [exact Hcount|].
    exact Htot.
Defined.

Lemma suggestions_need_both_layers_witness :
  classify_property all_parcels_gdf (gdf_crs parcel_layer) codes_dict valid_codes 0
    row_99_Lost = Ok None
  ∧ ∃ p a, p ∈ gdf_rows parcel_layer ∧ a ∈ assessment_df
      ∧ py_str (p_LOC_ID p) = "L7" ∧ py_str (a_LOC_ID a) = "L7"
      ∧ is_Some (p_geometry p).
Proof.
  destruct (suggestions_need_both_layers parcel_layer assessment_df non_matching_df
              codes_dict valid_codes fresh_store) as [Hskip Hboth].
  split.
  - apply Hskip.
    apply (proj1 (Forall_forall (λ p : parcel_row disc,
                    py_str (p_LOC_ID p) ≠ location_key row_99_Lost)
                    (gdf_rows parcel_layer))).
    vm_compute. repeat constructor; discriminate.
  - apply (Hboth suggestion_7_Main). vm_compute. left.
Defined.

Lemma archive_without_gdb_fails_witness :
  extract_and_analyze_gdb exn_message "/tmp/tmpk3" (Ok archive_without_gdb)
    (λ _, town) codes_csv fresh_store
  = (Raise (Exception "Error processing GDB: No .gdb file found in zip"), fresh_store).
Proof.
  apply archive_without_gdb_fails.
  - reflexivity.
  - reflexivity.
Defined.

Lemma archive_with_gdb_is_analyzed_witness :
  ∃ gdb_path,
    find_gdb (os_walk "/tmp/tmpk3" archive_with_gdb) = Some gdb_path
    ∧ gdb_path = "/tmp/tmpk3/M035.gdb"
    ∧ (extract_and_analyze_gdb exn_message "/tmp/tmpk3" (Ok archive_with_gdb)
         (λ _, town) codes_csv fresh_store).2
      = (analyze_gdb codes_csv town fresh_store).2.
Proof.
  destruct (archive_with_gdb_is_analyzed exn_message "/tmp/tmpk3" archive_with_gdb
              (λ _, town) codes_csv fresh_store)
    as (gdb_path & Hfind & _ & Htop & Hstore & _).
  - reflexivity.
  - exists gdb_path. split; [exact Hfind|]. split; [|exact Hstore].
    apply Htop. reflexivity.
Defined.

Lemma upload_errors_witness :
  upload_file exn_message (Some "town.gdb") "/tmp/tmpk3" (Ok archive_with_gdb)
    (λ _, town_without_assessment) codes_csv fresh_store
  = (UploadError "Please upload a .zip file", fresh_store)
  ∧ (upload_file exn_message (Some "Town.ZIP") "/tmp/tmpk3" (Ok archive_with_gdb)
       (λ _, town_without_assessment) codes_csv fresh_store).1
    = UploadError "Error processing file: Error processing GDB: No assessment layer found".
Proof.
  destruct (upload_errors exn_message "/tmp/tmpk3" archive_with_gdb
              (λ _, town_without_assessment) codes_csv fresh_store)
    as (_ & _ & Hzip & Hrun).
  - reflexivity.
  - split.
    + apply Hzip; [discriminate | reflexivity].
    + apply (Hrun "Town.ZIP" "/tmp/tmpk3/M035.gdb" "No assessment layer found").
      * discriminate.
      * reflexivity.
      * reflexivity.
      * reflexivity.
Defined.

Lemma upload_cleans_with_valid_codes_witness :
  ∃ a raw cleaned,
    (upload_file exn_message (Some "town.zip") "/tmp/tmpk3" (Ok archive_with_gdb)
       (λ _, town) codes_csv fresh_store).1 = UploadDone a raw cleaned
    ∧ length raw = 11 ∧ length cleaned = 11
    ∧ a_USE_CODE <$> cleaned !! 0 = Some (PStr "102")
    ∧ a_USE_CODE <$> raw !! 0 = Some (PStr "999").
Proof.
  destruct (upload_file exn_message (Some "town.zip") "/tmp/tmpk3" (Ok archive_with_gdb)
              (λ _, town) codes_csv fresh_store).1 as [err|a raw cleaned] eqn:Hrun;
    [vm_compute in Hrun; discriminate|].
  destruct (upload_cleans_with_valid_codes _ _ _ _ _ _ _ _ _ _ Hrun)
    as (Hraw & Hcleaned & _).
  exists a, raw, cleaned. split; [reflexivity|].
  vm_compute in Hrun. injection Hrun as <- <- <-.
  split; [reflexivity|]. split; [reflexivity|]. split; reflexivity.
Defined.

Lemma spreadsheet_goes_beside_the_shapefile_witness :
  (shapefile_to_excel shapefile_on_disk excel_writer
     ("./L3_SHP_M035_Boston/" +:+ "M035TaxPar" +:+ ".shp") None).1
  = Ok ("./L3_SHP_M035_Boston/" +:+ "M035TaxPar" +:+ ".xlsx").
Proof.
  destruct (shapefile_to_excel shapefile_on_disk excel_writer
              ("./L3_SHP_M035_Boston/" +:+ "M035TaxPar" +:+ ".shp") None).1
    as [out|e] eqn:Hrun; [|vm_compute in Hrun; discriminate].
  destruct (spreadsheet_goes_beside_the_shapefile shapefile_on_disk excel_writer
              "./L3_SHP_M035_Boston/" "M035TaxPar" 0 "M"%char out) as [-> _].
  - reflexivity.
  - reflexivity.
  - discriminate.
  - exact Hrun.
  - reflexivity.
Defined.

Lemma failed_conversion_is_skipped_witness :
  convert_all_shapefiles
    (Ok (["notes.txt"] ++ "M035Misc.shp" :: ["M035TaxPar.shp"; "M035TaxPar.dbf"]))
    shapefile_on_disk excel_writer
  = convert_all_shapefiles (Ok (["notes.txt"] ++ ["M035TaxPar.shp"; "M035TaxPar.dbf"]))
      shapefile_on_disk excel_writer
  ∧ convert_all_shapefiles
      (Ok (["notes.txt"] ++ "M035Misc.shp" :: ["M035TaxPar.shp"; "M035TaxPar.dbf"]))
      shapefile_on_disk excel_writer
    = Ok [ ("./L3_SHP_M035_Boston/M035TaxPar.xlsx",
            [ ("LOC_ID", [PStr "L7"; PStr "L2"]); ("MAP_NO", [PInt 7; PInt 2]) ]) ].
Proof.
  split; [|vm_compute; reflexivity].
  apply failed_conversion_is_skipped. right.
  exists (ExternalError "not recognized as a supported file format").
  vm_compute. reflexivity.
Defined.

Lemma written_sheets_have_no_geometry_witness :
  ∃ written,
    convert_all_shapefiles (Ok ["M035TaxPar.shp"; "M035Misc.shp"; "notes.txt"])
      shapefile_on_disk excel_writer = Ok written
    ∧ written = [ ("./L3_SHP_M035_Boston/M035TaxPar.xlsx",
                   [ ("LOC_ID", [PStr "L7"; PStr "L2"]); ("MAP_NO", [PInt 7; PInt 2]) ]) ]
    ∧ ∀ path df, (path, df) ∈ written → "geometry" ∉ df.*1.
Proof.
  eexists. split; [vm_compute; reflexivity|]. split; [reflexivity|].
  intros path df Hin.
  eapply (written_sheets_have_no_geometry ["M035TaxPar.shp"; "M035Misc.shp"; "notes.txt"]
            shapefile_on_disk excel_writer); [vm_compute; reflexivity | exact Hin].
Defined.

(** The third non-matching record is 5 Elm St, whose classification
    raises: it is announced like the others. *)
Lemma every_property_is_announced_witness :
  history (perform_spatial_analysis parcel_layer assessment_df non_matching_df codes_dict
             valid_codes fresh_store).2 !! 8
  = Some {| current := 3; total := 6; status := "processing";
            message := "Analyzing property 3 of 6" |}.
Proof.
  apply (every_property_is_announced parcel_layer assessment_df non_matching_df
           codes_dict valid_codes fresh_store 3).
  - reflexivity.
  - vm_compute. split; repeat constructor.
Defined.

End MoreRuns.
